(** * The KallistiOS ramdisk file system ([kernel/fs/fs_ramdisk.c])

    A shallow embedding of the ramdisk: the node store, the path
    resolver, the handle table, the VFS operations and the
    attach / detach bridge, followed by the properties proved of them.

    Conventions of the embedding.
    - Heap objects live in typed stores indexed by address ([Z], [0] is
      [NULL]): [files] holds the [rd_file_t] nodes, [dirs] the [rd_dir_t]
      list heads, [mem] the byte blocks handed out by [malloc].
    - The intrusive [LIST_ENTRY] of a node is kept as its two pointers
      [le_next] and [le_prev]; [le_prev] says which link cell points at
      the node (the head of a directory, or the [le_next] of a node).
    - [uint32], [size_t] and [off_t] values are integers with the 32-bit
      wrap-around written out ([u32], [s32]).
    - Every [malloc], [strdup] and [realloc] can fail: whether it does is
      an input of the operation that allocates.
    - An operation yields [Ok] with its return value and the next state,
      or [Err]: a failed [assert], undefined behaviour (a dangling or
      [NULL] pointer dereferenced, an index outside an array, a copy
      outside a block), or a loop that does not end.
    - Names are held by value in the node: the block [strdup] returns has
      one owner and is never shared.
    - Calls are sequential: each one runs to its end before the next. *)

From stdpp Require Import gmap strings list fin_maps.
From Stdlib Require Import ZArith Ascii Init.Byte Lia.

Open Scope Z_scope.

(** ** Constants *)

(** Constants of KallistiOS headers that the file includes
    ([kos/opts.h], [kos/fs.h]); the operations are generic in them. *)
Class kos_opts := {
  FS_RAMDISK_MAX_FILES : Z;   (* number of slots of the handle table *)
  O_MODE_MASK : Z;            (* mask selecting the access mode of open flags *)
  O_DIR : Z                   (* open-as-directory flag *)
}.

(** The values KallistiOS ships with. *)
Definition kos_default_opts : kos_opts :=
  {| FS_RAMDISK_MAX_FILES := 8; O_MODE_MASK := 0x0f; O_DIR := 0x1000 |}.

(** Constants of the C library headers ([fcntl.h], [unistd.h],
    [sys/stat.h], [errno.h]), with newlib's values. *)
Definition NULL : Z := 0.
Definition O_RDONLY : Z := 0.
Definition O_WRONLY : Z := 1.
Definition O_RDWR : Z := 2.
Definition O_APPEND : Z := 0x0008.
Definition O_TRUNC : Z := 0x0400.
Definition SEEK_SET : Z := 0.
Definition SEEK_CUR : Z := 1.
Definition SEEK_END : Z := 2.
Definition F_GETFD : Z := 1.
Definition F_SETFD : Z := 2.
Definition F_GETFL : Z := 3.
Definition F_SETFL : Z := 4.
Definition ENOENT : Z := 2.
Definition EBADF : Z := 9.
Definition EINVAL : Z := 22.
Definition S_IFDIR : Z := 0x4000 (* 0040000 *).
Definition S_IFREG : Z := 0x8000 (* 0100000 *).
Definition S_IRUSR : Z := 0x100 (* 0400 *).
Definition S_IWUSR : Z := 0x80 (* 0200 *).
Definition S_IXUSR : Z := 0x40 (* 0100 *).
Definition S_IRGRP : Z := 0x20 (* 0040 *).
Definition S_IWGRP : Z := 0x10 (* 0020 *).
Definition S_IXGRP : Z := 0x8 (* 0010 *).
Definition S_IROTH : Z := 0x4 (* 0004 *).
Definition S_IWOTH : Z := 0x2 (* 0002 *).
Definition S_IXOTH : Z := 0x1 (* 0001 *).
Definition S_IRWXU : Z := Z.lor S_IRUSR (Z.lor S_IWUSR S_IXUSR).
Definition S_IRWXG : Z := Z.lor S_IRGRP (Z.lor S_IWGRP S_IXGRP).
Definition S_IRWXO : Z := Z.lor S_IROTH (Z.lor S_IWOTH S_IXOTH).

(** ['r' | ('a' << 8) | ('m' << 16)] *)
Definition RAMDISK_DEV : Z :=
  Z.lor (Z.of_nat (nat_of_ascii "r"))
    (Z.lor (Z.shiftl (Z.of_nat (nat_of_ascii "a")) 8)
           (Z.shiftl (Z.of_nat (nat_of_ascii "m")) 16)).

(** ** Machine integers *)

(** The value of a 32-bit unsigned object ([uint32], [size_t]). *)
Definition u32 (z : Z) : Z := z mod 2^32.

(** The value of a 32-bit signed object ([int], [ssize_t], [off_t]). *)
Definition s32 (z : Z) : Z := (z + 2^31) mod 2^32 - 2^31.

(** ** Results *)


Inductive fault :=
  | AssertFailed      (* an [assert] does not hold *)
  | Undefined         (* undefined behaviour *)
  | Diverges.         (* a loop that does not end *)

Inductive result (A : Type) :=
  | Ok (a : A)
  | Err (e : fault).
Arguments Ok {A} a.
Arguments Err {A} e.

Global Instance result_ret : MRet result := fun A a => Ok a.
Global Instance result_bind : MBind result := fun A B k r =>
  match r with
  | Ok a => k a
  | Err e => Err e
  end.

Global Instance result_fmap : FMap result := fun A B g r =>
  match r with
  | Ok a => Ok (g a)
  | Err e => Err e
  end.

(** Signed arithmetic: a result outside the range of [int] is undefined
    behaviour. *)
Definition sint (z : Z) : result Z :=
  if (- 2^31 <=? z) && (z <? 2^31) then Ok z else Err Undefined.

(** ** Data model *)

(** Lock constants. *)
Inductive openfor_t := OPENFOR_NOTHING | OPENFOR_READ | OPENFOR_WRITE.

(** File types a node can have. *)
Inductive stat_type := STAT_TYPE_FILE | STAT_TYPE_DIR.

Global Instance openfor_eq_dec : EqDecision openfor_t.
Proof. solve_decision. Defined.
Global Instance stat_type_eq_dec : EqDecision stat_type.
Proof. solve_decision. Defined.

(** The link cell a [le_prev] pointer refers to. *)
Inductive link :=
  | LHead (d : Z)     (* [&d->lh_first], [d] a directory list head *)
  | LNode (a : Z).    (* [&a->dirlist.le_next], [a] a node *)

(** [rd_file_t] *)
Record rd_file_t := {
  f_name : string;        (* File name -- allocated *)
  f_size : Z;             (* Actual file size *)
  f_type : stat_type;     (* File type *)
  f_openfor : openfor_t;  (* Lock constant *)
  f_usage : Z;            (* Usage count (unopened is 0) *)
  f_data : Z;             (* Data block pointer *)
  f_datasize : Z;         (* Size of data block pointer *)
  le_next : Z;            (* dirlist.le_next *)
  le_prev : link          (* dirlist.le_prev *)
}.

(** Modelled from the spec: [dirent_t], whose declaration is in a header
    that is not part of the sources at hand.  An entry holds a name, a
    time, the attribute ([O_DIR] for a directory, else [0]) and the size
    ([-1] for a directory, else the logical size); the fields keep the
    values assigned to them. *)
Record dirent_t := {
  de_size : Z;
  de_name : string;
  de_time : Z;
  de_attr : Z
}.

(** A slot of the handle table [fh]. *)
Record fh_t := {
  fh_file : Z;            (* ramdisk file struct *)
  fh_dir : Z;             (* >0 if a directory *)
  fh_ptr : Z;             (* Current read position in bytes *)
  fh_dirent : dirent_t;   (* A static dirent to pass back to clients *)
  fh_omode : Z            (* Open mode *)
}.

(** The fields of [struct stat] the file system assigns; the others are
    zeroed by [memset]. *)
Record stat_t := {
  st_dev : Z;
  st_mode : Z;
  st_size : Z;
  st_nlink : Z;
  st_blksize : Z;
  st_blocks : Z
}.

(** The state of the module: the heap and the static variables. *)
Record ramdisk := {
  files : gmap Z rd_file_t;      (* the [rd_file_t] objects *)
  dirs : gmap Z Z;               (* the [rd_dir_t] objects: their [lh_first] *)
  mem : gmap Z (list byte);      (* the byte blocks *)
  root : Z;
  rootdir : Z;
  fh : list fh_t;
  errno : Z
}.

(** Field assignments. *)
Definition set_size (v : Z) (f : rd_file_t) : rd_file_t :=
  {| f_name := f_name f; f_size := v; f_type := f_type f; f_openfor := f_openfor f;
     f_usage := f_usage f; f_data := f_data f; f_datasize := f_datasize f;
     le_next := le_next f; le_prev := le_prev f |}.
Definition set_openfor (v : openfor_t) (f : rd_file_t) : rd_file_t :=
  {| f_name := f_name f; f_size := f_size f; f_type := f_type f; f_openfor := v;
     f_usage := f_usage f; f_data := f_data f; f_datasize := f_datasize f;
     le_next := le_next f; le_prev := le_prev f |}.
Definition set_usage (v : Z) (f : rd_file_t) : rd_file_t :=
  {| f_name := f_name f; f_size := f_size f; f_type := f_type f; f_openfor := f_openfor f;
     f_usage := v; f_data := f_data f; f_datasize := f_datasize f;
     le_next := le_next f; le_prev := le_prev f |}.
Definition set_data (v : Z) (f : rd_file_t) : rd_file_t :=
  {| f_name := f_name f; f_size := f_size f; f_type := f_type f; f_openfor := f_openfor f;
     f_usage := f_usage f; f_data := v; f_datasize := f_datasize f;
     le_next := le_next f; le_prev := le_prev f |}.
Definition set_datasize (v : Z) (f : rd_file_t) : rd_file_t :=
  {| f_name := f_name f; f_size := f_size f; f_type := f_type f; f_openfor := f_openfor f;
     f_usage := f_usage f; f_data := f_data f; f_datasize := v;
     le_next := le_next f; le_prev := le_prev f |}.
Definition set_le_next (v : Z) (f : rd_file_t) : rd_file_t :=
  {| f_name := f_name f; f_size := f_size f; f_type := f_type f; f_openfor := f_openfor f;
     f_usage := f_usage f; f_data := f_data f; f_datasize := f_datasize f;
     le_next := v; le_prev := le_prev f |}.
Definition set_le_prev (v : link) (f : rd_file_t) : rd_file_t :=
  {| f_name := f_name f; f_size := f_size f; f_type := f_type f; f_openfor := f_openfor f;
     f_usage := f_usage f; f_data := f_data f; f_datasize := f_datasize f;
     le_next := le_next f; le_prev := v |}.

Definition set_fh_file (v : Z) (h : fh_t) : fh_t :=
  {| fh_file := v; fh_dir := fh_dir h; fh_ptr := fh_ptr h;
     fh_dirent := fh_dirent h; fh_omode := fh_omode h |}.
Definition set_fh_dir (v : Z) (h : fh_t) : fh_t :=
  {| fh_file := fh_file h; fh_dir := v; fh_ptr := fh_ptr h;
     fh_dirent := fh_dirent h; fh_omode := fh_omode h |}.
Definition set_fh_ptr (v : Z) (h : fh_t) : fh_t :=
  {| fh_file := fh_file h; fh_dir := fh_dir h; fh_ptr := v;
     fh_dirent := fh_dirent h; fh_omode := fh_omode h |}.
Definition set_fh_dirent (v : dirent_t) (h : fh_t) : fh_t :=
  {| fh_file := fh_file h; fh_dir := fh_dir h; fh_ptr := fh_ptr h;
     fh_dirent := v; fh_omode := fh_omode h |}.
Definition set_fh_omode (v : Z) (h : fh_t) : fh_t :=
  {| fh_file := fh_file h; fh_dir := fh_dir h; fh_ptr := fh_ptr h;
     fh_dirent := fh_dirent h; fh_omode := v |}.

Definition set_files (v : gmap Z rd_file_t) (s : ramdisk) : ramdisk :=
  {| files := v; dirs := dirs s; mem := mem s; root := root s;
     rootdir := rootdir s; fh := fh s; errno := errno s |}.
Definition set_dirs (v : gmap Z Z) (s : ramdisk) : ramdisk :=
  {| files := files s; dirs := v; mem := mem s; root := root s;
     rootdir := rootdir s; fh := fh s; errno := errno s |}.
Definition set_mem (v : gmap Z (list byte)) (s : ramdisk) : ramdisk :=
  {| files := files s; dirs := dirs s; mem := v; root := root s;
     rootdir := rootdir s; fh := fh s; errno := errno s |}.
Definition set_root (v : Z) (s : ramdisk) : ramdisk :=
  {| files := files s; dirs := dirs s; mem := mem s; root := v;
     rootdir := rootdir s; fh := fh s; errno := errno s |}.
Definition set_rootdir (v : Z) (s : ramdisk) : ramdisk :=
  {| files := files s; dirs := dirs s; mem := mem s; root := root s;
     rootdir := v; fh := fh s; errno := errno s |}.
Definition set_fh (v : list fh_t) (s : ramdisk) : ramdisk :=
  {| files := files s; dirs := dirs s; mem := mem s; root := root s;
     rootdir := rootdir s; fh := v; errno := errno s |}.
Definition set_errno (v : Z) (s : ramdisk) : ramdisk :=
  {| files := files s; dirs := dirs s; mem := mem s; root := root s;
     rootdir := rootdir s; fh := fh s; errno := v |}.

(** ** The heap *)

(** [*f], for [f] a pointer to a node. *)
Definition file_at (s : ramdisk) (f : Z) : result rd_file_t :=
  match files s !! f with
  | Some n => Ok n
  | None => Err Undefined
  end.

(** [*f = n] *)
Definition store_file (f : Z) (n : rd_file_t) (s : ramdisk) : ramdisk :=
  set_files (<[f := n]> (files s)) s.

(** [d->lh_first], for [d] a pointer to a directory list head. *)
Definition dir_at (s : ramdisk) (d : Z) : result Z :=
  match dirs s !! d with
  | Some first => Ok first
  | None => Err Undefined
  end.

(** An address [malloc] can return: not [NULL], and not that of a live
    object. *)
Definition fresh_addr (s : ramdisk) : Z :=
  fresh ({[0]} ∪ dom (files s) ∪ dom (dirs s) ∪ dom (mem s)).

(** [free(p)] for a byte block. *)
Definition free_mem (p : Z) (s : ramdisk) : result ramdisk :=
  if p =? NULL then Ok s
  else match mem s !! p with
       | Some _ => Ok (set_mem (delete p (mem s)) s)
       | None => Err Undefined
       end.

(** A fresh block of [n] bytes; its contents are not specified by C and
    are zero here. *)
Definition zeros (n : Z) : list byte := replicate (Z.to_nat n) x00.

(** [malloc(n)] for a byte block: the address (or [NULL] when the
    allocation fails) and the heap afterwards. *)
Definition malloc_mem (ok : bool) (n : Z) (s : ramdisk) : Z * ramdisk :=
  if ok then
    let p := fresh_addr s in (p, set_mem (<[p := zeros n]> (mem s)) s)
  else (NULL, s).

(** [realloc(p, n)]: [NULL] with the heap as it was when the allocation
    fails; otherwise a block of [n] bytes that starts with the old
    contents.  The block moves: the old address is released. *)
Definition realloc_mem (ok : bool) (p n : Z) (s : ramdisk) : result (Z * ramdisk) :=
  if p =? NULL then Ok (malloc_mem ok n s)
  else match mem s !! p with
       | None => Err Undefined
       | Some blk =>
           if ok then
             let s1 := set_mem (delete p (mem s)) s in
             let q := fresh_addr s1 in
             Ok (q, set_mem (<[q := take (Z.to_nat n) (blk ++ zeros (n - Z.of_nat (length blk)))]>
                               (mem s1)) s1)
           else Ok (NULL, s)
       end.

(** [memcpy(dst, p + off, n)]: the bytes copied out. *)
Definition mem_read (s : ramdisk) (p off n : Z) : result (list byte) :=
  match mem s !! p with
  | Some blk =>
      if off + n <=? Z.of_nat (length blk)
      then Ok (take (Z.to_nat n) (drop (Z.to_nat off) blk))
      else Err Undefined
  | None => Err Undefined
  end.

(** [memcpy(p + off, src, |src|)] *)
Definition mem_write (p off : Z) (src : list byte) (s : ramdisk) : result ramdisk :=
  match mem s !! p with
  | Some blk =>
      if off + Z.of_nat (length src) <=? Z.of_nat (length blk)
      then Ok (set_mem (<[p := take (Z.to_nat off) blk ++ src
                              ++ drop (Z.to_nat off + length src) blk]> (mem s)) s)
      else Err Undefined
  | None => Err Undefined
  end.

(** ** C strings *)

(** Offset of the first occurrence of [c]. *)
Fixpoint strchr (s : string) (c : ascii) : option nat :=
  match s with
  | EmptyString => None
  | String a s' => if Ascii.eqb a c then Some O else S <$> strchr s' c
  end.

(** Offset of the last occurrence of [c]. *)
Fixpoint strrchr (s : string) (c : ascii) : option nat :=
  match s with
  | EmptyString => None
  | String a s' =>
      match strrchr s' c with
      | Some i => Some (S i)
      | None => if Ascii.eqb a c then Some O else None
      end
  end.

(** The string at [s + n]. *)
Fixpoint strdrop (n : nat) (s : string) : string :=
  match n, s with
  | O, _ => s
  | S n', String _ s' => strdrop n' s'
  | S _, EmptyString => EmptyString
  end.

(** The first [n] characters of [s], as [strncpy] and a terminator
    leave them. *)
Fixpoint strtake (n : nat) (s : string) : string :=
  match n, s with
  | S n', String a s' => String a (strtake n' s')
  | _, _ => EmptyString
  end.

Definition tolower (c : ascii) : Z :=
  let n := Z.of_nat (nat_of_ascii c) in
  if (65 <=? n) && (n <=? 90) then n + 32 else n.

Fixpoint strncasecmp (a b : string) (n : nat) : Z :=
  match n with
  | O => 0
  | S n' =>
      match a, b with
      | EmptyString, EmptyString => 0
      | EmptyString, String cb _ => - tolower cb
      | String ca _, EmptyString => tolower ca
      | String ca a', String cb b' =>
          let d := tolower ca - tolower cb in
          if d =? 0 then strncasecmp a' b' n' else d
      end
  end.

(** ** The handle table *)

Definition dirent_zero : dirent_t :=
  {| de_size := 0; de_name := EmptyString; de_time := 0; de_attr := 0 |}.

Definition fh_zero : fh_t :=
  {| fh_file := NULL; fh_dir := 0; fh_ptr := 0; fh_dirent := dirent_zero; fh_omode := 0 |}.

Section Ramdisk.
Context {opts : kos_opts}.

(** [fh[fd]], read. *)
Definition fh_at (s : ramdisk) (fd : Z) : result fh_t :=
  if (fd <? 0) || (FS_RAMDISK_MAX_FILES <=? fd) then Err Undefined
  else match fh s !! Z.to_nat fd with
       | Some h => Ok h
       | None => Err Undefined
       end.

(** [fh[fd] = h] *)
Definition fh_store (fd : Z) (h : fh_t) (s : ramdisk) : ramdisk :=
  set_fh (<[Z.to_nat fd := h]> (fh s)) s.

(** ** Directory lists ([sys/queue.h]) *)

Definition LIST_INSERT_HEAD (head elm : Z) (s : ramdisk) : result ramdisk :=
  first ← dir_at s head;
  e ← file_at s elm;
  let s1 := store_file elm (set_le_next first e) s in
  s2 ← (if first =? NULL then Ok s1
        else n ← file_at s1 first;
             Ok (store_file first (set_le_prev (LNode elm) n) s1));
  let s3 := set_dirs (<[head := elm]> (dirs s2)) s2 in
  e ← file_at s3 elm;
  Ok (store_file elm (set_le_prev (LHead head) e) s3).

Definition LIST_REMOVE (elm : Z) (s : ramdisk) : result ramdisk :=
  e ← file_at s elm;
  s1 ← (if le_next e =? NULL then Ok s
        else n ← file_at s (le_next e);
             Ok (store_file (le_next e) (set_le_prev (le_prev e) n) s));
  match le_prev e with
  | LHead d => _ ← dir_at s1 d; Ok (set_dirs (<[d := le_next e]> (dirs s1)) s1)
  | LNode p => n ← file_at s1 p; Ok (store_file p (set_le_next (le_next e) n) s1)
  end.

(** ** Path resolution *)

(** The [LIST_FOREACH] of [ramdisk_find], from the node [f] on. *)
Fixpoint ramdisk_find_from (fuel : nat) (s : ramdisk) (f : Z)
    (name : string) (namelen : nat) : result Z :=
  match fuel with
  | O => Err Diverges
  | S fuel' =>
      if f =? NULL then Ok NULL
      else
        n ← file_at s f;
        if (String.length (f_name n) =? namelen)%nat
           && (strncasecmp name (f_name n) namelen =? 0)
        then Ok f
        else ramdisk_find_from fuel' s (le_next n) name namelen
  end.

(** Search a directory for the named file.  A list without a cycle has at
    most as many elements as there are nodes. *)
Definition ramdisk_find (s : ramdisk) (parent : Z) (name : string) (namelen : nat)
    : result Z :=
  first ← dir_at s parent;
  ramdisk_find_from (S (size (files s))) s first name namelen.

(** The [while] loop of [ramdisk_find_path] and what follows it. *)
Fixpoint ramdisk_find_path_loop (fuel : nat) (s : ramdisk) (parent : Z)
    (fn : string) (f : Z) (dir : Z) : result Z :=
  match fuel with
  | O => Err Diverges
  | S fuel' =>
      match strchr fn "/" with
      | Some cur =>
          if negb (cur =? 0)%nat then
            f ← ramdisk_find s parent fn cur;
            if f =? NULL then Ok NULL
            else
              n ← file_at s f;
              if negb (bool_decide (f_type n = STAT_TYPE_DIR)) then Ok NULL
              else
                let parent := f_data n in
                if parent =? NULL then Err AssertFailed
                else ramdisk_find_path_loop fuel' s parent (strdrop (S cur) fn) f dir
          else ramdisk_find_path_loop fuel' s parent (strdrop (S cur) fn) f dir
      | None =>
          match fn with
          | String _ _ =>
              f ← ramdisk_find s parent fn (String.length fn);
              if f =? NULL then Ok NULL
              else
                n ← file_at s f;
                if ((dir =? 0) && bool_decide (f_type n = STAT_TYPE_DIR))
                   || (negb (dir =? 0) && negb (bool_decide (f_type n = STAT_TYPE_DIR)))
                then Ok NULL
                else Ok f
          | EmptyString =>
              if dir =? 0 then Ok NULL else Ok f
          end
      end
  end.

(** Find a path-named file in the ramdisk.  Each turn of the loop
    consumes at least one character of [fn]. *)
Definition ramdisk_find_path (s : ramdisk) (parent : Z) (fn : string) (dir : Z)
    : result Z :=
  ramdisk_find_path_loop (S (String.length fn)) s parent fn NULL dir.

(** Find the parent directory and file name in the path-named file:
    [None] for [-1], otherwise [*dout] and [*fnout].  The copy [pname]
    is allocated and freed inside; when its [malloc] fails, [strncpy]
    writes through [NULL]. *)
Definition ramdisk_get_parent (pname_ok : bool) (s : ramdisk) (parent : Z)
    (fn : string) : result (option (Z * string)) :=
  match strrchr fn "/" with
  | None => Ok (Some (parent, fn))
  | Some p =>
      if negb pname_ok then Err Undefined
      else
        let pname := strtake p fn in
        f ← ramdisk_find_path s parent pname 1;
        if f =? NULL then Ok None
        else
          n ← file_at s f;
          if f_data n =? NULL then Err AssertFailed
          else Ok (Some (f_data n, strdrop (S p) fn))
  end.

(** The outcomes of the allocations of [ramdisk_create_file], and of the
    [malloc] of the truncation in [ramdisk_open]. *)
Record open_allocs := {
  pname_ok : bool;    (* [malloc] of [pname] in [ramdisk_get_parent] *)
  node_ok : bool;     (* [malloc(sizeof(rd_file_t))] *)
  name_ok : bool;     (* [strdup(p)] *)
  data_ok : bool;     (* [malloc(1024)], or that of the [rd_dir_t] *)
  trunc_ok : bool     (* [malloc(1024)] under [O_TRUNC] *)
}.

Definition all_ok : open_allocs :=
  {| pname_ok := true; node_ok := true; name_ok := true; data_ok := true;
     trunc_ok := true |}.

(** Create a path-named file in the ramdisk.  On the failure paths all
    that was allocated is freed again, and the state is as before.  The
    link fields of the new node are not initialised before
    [LIST_INSERT_HEAD] assigns them; neither is the list head allocated
    for a directory, which no caller asks for. *)
Definition ramdisk_create_file (al : open_allocs) (parent : Z) (fn : string)
    (dir : Z) (s : ramdisk) : result (Z * ramdisk) :=
  r ← ramdisk_get_parent (pname_ok al) s parent fn;
  match r with
  | None => Ok (NULL, s)
  | Some (pdir, p) =>
      if negb (node_ok al) then Ok (NULL, s)
      else
        let f := fresh_addr s in
        if negb (name_ok al) then Ok (NULL, s)
        else
          let n := {| f_name := p; f_size := 0;
                      f_type := if dir =? 0 then STAT_TYPE_FILE else STAT_TYPE_DIR;
                      f_openfor := OPENFOR_NOTHING; f_usage := 0;
                      f_data := NULL; f_datasize := 0;
                      le_next := NULL; le_prev := LHead NULL |} in
          let s1 := store_file f n s in
          let '(d, s2) :=
            if dir =? 0 then malloc_mem (data_ok al) 1024 s1
            else if data_ok al
                 then let d := fresh_addr s1 in (d, set_dirs (<[d := NULL]> (dirs s1)) s1)
                 else (NULL, s1) in
          let n := set_datasize (if dir =? 0 then 1024 else 0) (set_data d n) in
          if d =? NULL then Ok (NULL, s)
          else
            s3 ← LIST_INSERT_HEAD pdir f (store_file f n s2);
            Ok (f, s3)
  end.

(** ** File primitives *)

(** The scan [for(fd = 1; fd < FS_RAMDISK_MAX_FILES; fd++)] for a free
    slot: the value of [fd] when the loop is left. *)
Fixpoint free_fd_from (fuel : nat) (fd : Z) (s : ramdisk) : result Z :=
  match fuel with
  | O => Err Diverges
  | S fuel' =>
      if fd <? FS_RAMDISK_MAX_FILES then
        h ← fh_at s fd;
        if fh_file h =? NULL then Ok fd
        else free_fd_from fuel' (fd + 1) s
      else Ok fd
  end.

Definition find_free_fd (s : ramdisk) : result Z :=
  free_fd_from (S (Z.to_nat FS_RAMDISK_MAX_FILES)) 1 s.

(** The label [error_out] of [ramdisk_open], reached with a slot [fd]
    chosen. *)
Definition error_out (fd : Z) (s : ramdisk) : result (Z * ramdisk) :=
  h ← fh_at s fd;
  Ok (NULL, fh_store fd (set_fh_file NULL h) s).

(** Open a file or directory: the handle, [NULL] on failure. *)
Definition ramdisk_open (al : open_allocs) (fn : string) (mode : Z) (s : ramdisk)
    : result (Z * ramdisk) :=
  let mm := Z.land mode O_MODE_MASK in
  let fn := match fn with
            | String "/" fn' => fn'
            | _ => fn
            end in
  (* Are we trying to do something stupid? *)
  if negb (Z.land mode O_DIR =? 0) && negb (mm =? O_RDONLY) then Ok (NULL, s)
  else if root s =? NULL then Err AssertFailed
  else
    (* Look for the file *)
    '(f, s) ← match fn with
              | EmptyString => Ok (root s, s)
              | String _ _ =>
                  f ← ramdisk_find_path s (rootdir s) fn (Z.land mode O_DIR);
                  if f =? NULL then
                    (* Are we planning to write anyway? *)
                    if negb (mm =? O_RDONLY) && (Z.land mode O_DIR =? 0)
                    then ramdisk_create_file al (rootdir s) fn (Z.land mode O_DIR) s
                    else Ok (NULL, s)
                  else Ok (f, s)
              end;
    if f =? NULL then Ok (NULL, s)
    else
      n ← file_at s f;
      (* Check for more stupid things *)
      if bool_decide (f_type n = STAT_TYPE_DIR)
         && ((Z.land mode O_DIR =? 0) || negb (mm =? O_RDONLY))
      then Ok (NULL, s)
      else
        (* Find a free file handle *)
        fd ← find_free_fd s;
        if FS_RAMDISK_MAX_FILES <=? fd then Ok (NULL, s)
        else
          (* Is the file already open for write? *)
          if bool_decide (f_openfor n = OPENFOR_WRITE) then error_out fd s
          else
            (* Fill the basic fd structure *)
            h ← fh_at s fd;
            let h := set_fh_omode mode (set_fh_dir (Z.land mode O_DIR) (set_fh_file f h)) in
            let s := fh_store fd h s in
            (* The rest require a bit more thought *)
            r ← (if mm =? O_RDONLY then
                   Ok (Some (fh_store fd (set_fh_ptr 0 h) (store_file f (set_openfor OPENFOR_READ n) s)))
                 else if negb (Z.land mm O_RDWR =? 0) || negb (Z.land mm O_WRONLY =? 0) then
                   if bool_decide (f_openfor n = OPENFOR_READ) then Ok None
                   else
                     let n := set_openfor OPENFOR_WRITE n in
                     let s := store_file f n s in
                     if negb (Z.land mode O_APPEND =? 0) then
                       Ok (Some (fh_store fd (set_fh_ptr (f_size n) h) s))
                     else if negb (Z.land mode O_TRUNC =? 0) then
                       (* kill the existing contents *)
                       s ← free_mem (f_data n) s;
                       let '(d, s) := malloc_mem (trunc_ok al) 1024 s in
                       let n := set_size 0 (set_datasize 1024 (set_data d n)) in
                       Ok (Some (fh_store fd (set_fh_ptr 0 h) (store_file f n s)))
                     else
                       Ok (Some (fh_store fd (set_fh_ptr 0 h) s))
                 else Err AssertFailed);
            match r with
            | None => error_out fd s
            | Some s =>
                (* If we opened a dir, then ptr is actually a pointer to the
                   first file entry. *)
                s ← (if negb (Z.land mode O_DIR =? 0) then
                       n ← file_at s f;
                       first ← dir_at s (f_data n);
                       h ← fh_at s fd;
                       Ok (fh_store fd (set_fh_ptr first h) s)
                     else Ok s);
                (* Increase the usage count *)
                n ← file_at s f;
                u ← sint (f_usage n + 1);
                Ok (fd, store_file f (set_usage u n) s)
            end.

(** Close a file or directory. *)
Definition ramdisk_close (fd : Z) (s : ramdisk) : result (Z * ramdisk) :=
  if fd <? FS_RAMDISK_MAX_FILES then
    h ← fh_at s fd;
    if negb (fh_file h =? NULL) then
      let f := fh_file h in
      let s := fh_store fd (set_fh_file NULL h) s in
      (* Decrease the usage count *)
      n ← file_at s f;
      u ← sint (f_usage n - 1);
      let n := set_usage u n in
      if f_usage n <? 0 then Err AssertFailed
      else
        let n := if f_usage n =? 0 then set_openfor OPENFOR_NOTHING n else n in
        Ok (0, store_file f n s)
    else Ok (0, s)
  else Ok (0, s).

(** Read from a file: the return value and the bytes put in [buf]. *)
Definition ramdisk_read (fd : Z) (bytes : Z) (s : ramdisk)
    : result (Z * list byte * ramdisk) :=
  if fd <? FS_RAMDISK_MAX_FILES then
    h ← fh_at s fd;
    if negb (fh_file h =? NULL) && (fh_dir h =? 0) then
      n ← file_at s (fh_file h);
      (* Is there enough left? *)
      let bytes := if f_size n <? u32 (fh_ptr h + bytes)
                   then u32 (f_size n - fh_ptr h) else bytes in
      (* Copy out the requested amount *)
      out ← mem_read s (f_data n) (fh_ptr h) bytes;
      Ok (s32 bytes, out, fh_store fd (set_fh_ptr (u32 (fh_ptr h + bytes)) h) s)
    else Ok (-1, [], s)
  else Ok (-1, [], s).

(** Write to a file: [bytes] bytes from the start of [buf]. *)
Definition ramdisk_write (np_ok : bool) (fd : Z) (buf : list byte) (bytes : Z)
    (s : ramdisk) : result (Z * ramdisk) :=
  if fd <? FS_RAMDISK_MAX_FILES then
    h ← fh_at s fd;
    if negb (fh_file h =? NULL) && (fh_dir h =? 0) then
      n ← file_at s (fh_file h);
      if bool_decide (f_openfor n = OPENFOR_WRITE) then
        (* Is there enough left? *)
        r ← (if f_datasize n <? u32 (fh_ptr h + bytes) then
               (* We need to realloc the block *)
               '(np, s) ← realloc_mem np_ok (f_data n) (u32 (u32 (fh_ptr h + bytes) + 4096)) s;
               if np =? NULL then Ok None
               else
                 let n := set_datasize (u32 (u32 (fh_ptr h + bytes) + 4096)) (set_data np n) in
                 Ok (Some (n, store_file (fh_file h) n s))
             else Ok (Some (n, s)));
        match r with
        | None => Ok (-1, s)
        | Some (n, s) =>
            (* Copy out the requested amount *)
            if Z.of_nat (length buf) <? bytes then Err Undefined
            else
              s ← mem_write (f_data n) (fh_ptr h) (take (Z.to_nat bytes) buf) s;
              let h := set_fh_ptr (u32 (fh_ptr h + bytes)) h in
              let s := fh_store fd h s in
              let s := if f_size n <? fh_ptr h
                       then store_file (fh_file h) (set_size (fh_ptr h) n) s else s in
              Ok (s32 bytes, s)
        end
      else Ok (-1, s)
    else Ok (-1, s)
  else Ok (-1, s).

(** Seek elsewhere in a file. *)
Definition ramdisk_seek (fd : Z) (offset : Z) (whence : Z) (s : ramdisk)
    : result (Z * ramdisk) :=
  let bad := Ok (-1, set_errno EBADF s) in
  let inval := Ok (-1, set_errno EINVAL s) in
  if FS_RAMDISK_MAX_FILES <=? fd then bad
  else
    h ← fh_at s fd;
    if (fh_file h =? NULL) || negb (fh_dir h =? 0) then bad
    else
      (* Update current position according to arguments *)
      r ← (if whence =? SEEK_SET then
             if offset <? 0 then Ok None else Ok (Some (u32 offset))
           else if whence =? SEEK_CUR then
             if (offset <? 0) && (fh_ptr h <? u32 (- offset)) then Ok None
             else Ok (Some (u32 (fh_ptr h + offset)))
           else if whence =? SEEK_END then
             n ← file_at s (fh_file h);
             if (offset <? 0) && (f_size n <? u32 (- offset)) then Ok None
             else Ok (Some (u32 (f_size n + offset)))
           else Ok None);
      match r with
      | None => inval
      | Some ptr =>
          (* Check bounds *)
          n ← file_at s (fh_file h);
          let ptr := if f_size n <? ptr then f_size n else ptr in
          Ok (s32 ptr, fh_store fd (set_fh_ptr ptr h) s)
      end.

(** Tell where in the file we are. *)
Definition ramdisk_tell (fd : Z) (s : ramdisk) : result (Z * ramdisk) :=
  if fd <? FS_RAMDISK_MAX_FILES then
    h ← fh_at s fd;
    if negb (fh_file h =? NULL) && (fh_dir h =? 0) then Ok (s32 (fh_ptr h), s)
    else Ok (-1, s)
  else Ok (-1, s).

(** Tell how big the file is. *)
Definition ramdisk_total (fd : Z) (s : ramdisk) : result (Z * ramdisk) :=
  if fd <? FS_RAMDISK_MAX_FILES then
    h ← fh_at s fd;
    if negb (fh_file h =? NULL) && (fh_dir h =? 0) then
      n ← file_at s (fh_file h);
      Ok (f_size n, s)
    else Ok (u32 (-1), s)
  else Ok (u32 (-1), s).

(** Read a directory entry: the entry [&fh[fd].dirent] points at, [None]
    for [NULL]. *)
Definition ramdisk_readdir (fd : Z) (s : ramdisk) : result (option dirent_t * ramdisk) :=
  let bad := Ok (None, set_errno EBADF s) in
  if fd <? FS_RAMDISK_MAX_FILES then
    h ← fh_at s fd;
    if negb (fh_file h =? NULL) && negb (fh_ptr h =? 0) && negb (fh_dir h =? 0) then
      (* Find the current file and advance to the next *)
      f ← file_at s (fh_ptr h);
      let h := set_fh_ptr (le_next f) h in
      (* Copy out the requested data *)
      let d :=
        if bool_decide (f_type f = STAT_TYPE_DIR)
        then {| de_size := -1; de_name := f_name f; de_time := 0; de_attr := O_DIR |}
        else {| de_size := f_size f; de_name := f_name f; de_time := 0; de_attr := 0 |} in
      Ok (Some d, fh_store fd (set_fh_dirent d h) s)
    else bad
  else bad.

Definition ramdisk_unlink (fn : string) (s : ramdisk) : result (Z * ramdisk) :=
  (* Find the file *)
  f ← ramdisk_find_path s (rootdir s) fn 0;
  if negb (f =? NULL) then
    n ← file_at s f;
    (* Make sure it's not in use *)
    if f_usage n =? 0 then
      (* Free its data *)
      s ← free_mem (f_data n) s;
      (* Remove it from the parent list *)
      s ← LIST_REMOVE f s;
      (* Free the entry itself *)
      Ok (0, set_files (delete f (files s)) s)
    else Ok (-1, s)
  else Ok (-1, s).

Definition ramdisk_mmap (fd : Z) (s : ramdisk) : result (Z * ramdisk) :=
  if fd <? FS_RAMDISK_MAX_FILES then
    h ← fh_at s fd;
    if negb (fh_file h =? NULL) && (fh_dir h =? 0) then
      n ← file_at s (fh_file h);
      Ok (f_data n, s)
    else Ok (NULL, s)
  else Ok (NULL, s).

(** The [stat] fields both [ramdisk_stat] and [ramdisk_fstat] derive
    from the size of the data block. *)
Definition stat_blocks (datasize : Z) : Z :=
  let b := Z.shiftr datasize 10 in
  if negb (Z.land datasize 0x3ff =? 0) then b + 1 else b.

(** The return value and what is stored through [st] ([None]: [*st] is
    not touched). *)
Definition ramdisk_stat (path : string) (s : ramdisk)
    : result (Z * option stat_t * ramdisk) :=
  (* Root directory of ramdisk *)
  if bool_decide (path = EmptyString) || bool_decide (path = "/"%string) then
    Ok (0, Some {| st_dev := RAMDISK_DEV;
                   st_mode := Z.lor S_IFDIR (Z.lor S_IRWXU (Z.lor S_IRWXG S_IRWXO));
                   st_size := -1; st_nlink := 2; st_blksize := 0; st_blocks := 0 |}, s)
  else
    (* Find the file *)
    f ← ramdisk_find_path s (rootdir s) path 0;
    if f =? NULL then Ok (-1, None, set_errno ENOENT s)
    else
      n ← file_at s f;
      let isdir := bool_decide (f_type n = STAT_TYPE_DIR) in
      let mode := Z.lor S_IRUSR (Z.lor S_IWUSR (Z.lor S_IRGRP
                    (Z.lor S_IWGRP (Z.lor S_IROTH S_IWOTH)))) in
      Ok (0, Some {| st_dev := RAMDISK_DEV;
                     st_mode := Z.lor mode
                                  (if isdir
                                   then Z.lor S_IFDIR (Z.lor S_IXUSR (Z.lor S_IXGRP S_IXOTH))
                                   else S_IFREG);
                     st_size := if isdir then -1 else s32 (f_datasize n);
                     st_nlink := if isdir then 2 else 1;
                     st_blksize := 1024;
                     st_blocks := stat_blocks (f_datasize n) |}, s).

Definition ramdisk_fcntl (fd : Z) (cmd : Z) (s : ramdisk) : result (Z * ramdisk) :=
  let bad := Ok (-1, set_errno EBADF s) in
  if FS_RAMDISK_MAX_FILES <=? fd then bad
  else
    h ← fh_at s fd;
    if fh_file h =? NULL then bad
    else if cmd =? F_GETFL then Ok (fh_omode h, s)
    else if (cmd =? F_SETFL) || (cmd =? F_GETFD) || (cmd =? F_SETFD) then Ok (0, s)
    else Ok (-1, set_errno EINVAL s).

Definition ramdisk_rewinddir (fd : Z) (s : ramdisk) : result (Z * ramdisk) :=
  let bad := Ok (-1, set_errno EBADF s) in
  if FS_RAMDISK_MAX_FILES <=? fd then bad
  else
    h ← fh_at s fd;
    if (fh_file h =? NULL) || (fh_dir h =? 0) then bad
    else
      (* Rewind to the first file. *)
      n ← file_at s (fh_file h);
      first ← dir_at s (f_data n);
      Ok (0, fh_store fd (set_fh_ptr first h) s).

Definition ramdisk_fstat (fd : Z) (s : ramdisk) : result (Z * option stat_t * ramdisk) :=
  let bad := Ok (-1, None, set_errno EBADF s) in
  if FS_RAMDISK_MAX_FILES <=? fd then bad
  else
    h ← fh_at s fd;
    if fh_file h =? NULL then bad
    else
      (* Grab the file itself... *)
      n ← file_at s (fh_file h);
      (* Fill in the structure. *)
      let isdir := bool_decide (f_type n = STAT_TYPE_DIR) in
      let mode := Z.lor S_IRUSR (Z.lor S_IWUSR (Z.lor S_IRGRP
                    (Z.lor S_IWGRP (Z.lor S_IROTH S_IWOTH)))) in
      Ok (0, Some {| st_dev := RAMDISK_DEV;
                     st_mode := Z.lor mode (if isdir then S_IFDIR else S_IFREG);
                     st_size := if isdir then -1 else s32 (f_datasize n);
                     st_nlink := if isdir then 2 else 1;
                     st_blksize := 1024;
                     st_blocks := stat_blocks (f_datasize n) |}, s).

(** ** Attach and detach *)

(** Attach a piece of memory to a file. *)
Definition fs_ramdisk_attach (al : open_allocs) (fn : string) (obj : Z) (size : Z)
    (s : ramdisk) : result (Z * ramdisk) :=
  (* First of all, open a file for writing. *)
  '(fd, s) ← ramdisk_open al fn (Z.lor O_WRONLY O_TRUNC) s;
  if fd =? NULL then Ok (-1, s)
  else
    (* Ditch the data block we had and replace it with the user one. *)
    h ← fh_at s fd;
    let f := fh_file h in
    n ← file_at s f;
    s ← free_mem (f_data n) s;
    let s := store_file f (set_size size (set_datasize size (set_data obj n))) s in
    (* Close the file *)
    '(_, s) ← ramdisk_close fd s;
    Ok (0, s).

(** Does the opposite of attach: the return value and what is stored
    through [obj] and [size] ([None]: they are not touched).
    [ramdisk_open] does not allocate under [O_RDONLY]; [fake_ok] is the
    outcome of [malloc(64)]. *)
Definition fs_ramdisk_detach (fake_ok : bool) (fn : string) (s : ramdisk)
    : result (Z * option (Z * Z) * ramdisk) :=
  (* First of all, open a file for reading. *)
  '(fd, s) ← ramdisk_open all_ok fn O_RDONLY s;
  if fd =? NULL then Ok (-1, None, s)
  else
    (* Pull the data block and put it in the user parameters. *)
    h ← fh_at s fd;
    let f := fh_file h in
    n ← file_at s f;
    let out := (f_data n, f_size n) in
    (* Ditch the data block we had and replace it with a fake one. *)
    let '(d, s) := malloc_mem fake_ok 64 s in
    let s := store_file f (set_size 64 (set_datasize 64 (set_data d n))) s in
    (* Close the file *)
    '(_, s) ← ramdisk_close fd s;
    (* Unlink the file *)
    '(_, s) ← ramdisk_unlink fn s;
    Ok (0, Some out, s).

(** ** Initialisation *)

(** The module before [fs_ramdisk_init]: static storage is zeroed; the
    heap holds nothing of the file system yet. *)
Definition boot : ramdisk :=
  {| files := ∅; dirs := ∅; mem := ∅; root := NULL; rootdir := NULL;
     fh := replicate (Z.to_nat FS_RAMDISK_MAX_FILES) fh_zero; errno := 0 |}.

(** Initialize the file system.  The arguments are the outcomes of the
    three allocations.  The mutex and the registration with the VFS are
    outside the model. *)
Definition fs_ramdisk_init (rootdir_ok root_ok rname_ok : bool) (s : ramdisk) : ramdisk :=
  (* Test if initted *)
  if negb (rootdir s =? NULL) then s
  else if negb rootdir_ok then s
  else
    (* Create an empty root dir *)
    let d := fresh_addr s in
    let s := set_rootdir d (set_dirs (<[d := NULL]> (dirs s)) s) in
    if negb root_ok then set_root NULL (set_dirs (delete d (dirs s)) s)
    else
      let r := fresh_addr s in
      if negb rname_ok then set_root r (set_dirs (delete d (dirs s)) s)
      else
        let n := {| f_name := "/"; f_size := 0; f_type := STAT_TYPE_DIR;
                    f_openfor := OPENFOR_NOTHING; f_usage := 0;
                    f_data := d; f_datasize := 0;
                    le_next := NULL; le_prev := LHead NULL |} in
        let s := set_root r (store_file r n s) in
        (* LIST_INIT(rootdir) *)
        let s := set_dirs (<[d := NULL]> (dirs s)) s in
        (* Reset fd's *)
        set_fh (replicate (Z.to_nat FS_RAMDISK_MAX_FILES) fh_zero) s.

(** ** De-initialisation *)

(** [free(d)] for a directory list head, and [free(f)] for a node. *)
Definition free_dir (d : Z) (s : ramdisk) : result ramdisk :=
  if d =? NULL then Ok s
  else match dirs s !! d with
       | Some _ => Ok (set_dirs (delete d (dirs s)) s)
       | None => Err Undefined
       end.

Definition free_file (f : Z) (s : ramdisk) : result ramdisk :=
  if f =? NULL then Ok s
  else match files s !! f with
       | Some _ => Ok (set_files (delete f (files s)) s)
       | None => Err Undefined
       end.

(** The [while(f1)] loop of [fs_ramdisk_shutdown].  [f1->data] is a byte
    block for a file and a list head for a directory. *)
Fixpoint shutdown_from (fuel : nat) (f1 : Z) (s : ramdisk) : result ramdisk :=
  match fuel with
  | O => Err Diverges
  | S fuel' =>
      if f1 =? NULL then Ok s
      else
        n ← file_at s f1;
        let f2 := le_next n in
        s ← (if bool_decide (f_type n = STAT_TYPE_DIR)
             then free_dir (f_data n) s else free_mem (f_data n) s);
        s ← free_file f1 s;
        shutdown_from fuel' f2 s
  end.

(** De-init the file system.  Each turn of the loop frees a node, so the
    loop ends within as many turns as there are nodes.  [root] and
    [rootdir] are not assigned, and the handle table is not touched.
    The mutex and the registration with the VFS are outside the
    model. *)
Definition fs_ramdisk_shutdown (s : ramdisk) : result ramdisk :=
  (* Test if initted *)
  if rootdir s =? NULL then Ok s
  else
    f1 ← dir_at s (rootdir s);
    s ← shutdown_from (S (size (files s))) f1 s;
    s ← free_dir (rootdir s) s;
    (* free(root->name) *)
    _ ← file_at s (root s);
    free_file (root s) s.

(** ** Runs *)

(** The calls a client can make: the operations of the VFS table, attach
    and detach, a repeated init, and [malloc] called by the client itself
    for a buffer it fills ([fs_ramdisk_shutdown] ends the life of the
    module and is not among them). *)
Inductive call :=
  | Init (rootdir_ok root_ok rname_ok : bool)
  | Open (al : open_allocs) (fn : string) (mode : Z)
  | Close (h : Z)
  | Read (h : Z) (bytes : Z)
  | Write (np_ok : bool) (h : Z) (buf : list byte) (bytes : Z)
  | Seek (h : Z) (offset whence : Z)
  | Tell (h : Z)
  | Total (h : Z)
  | Readdir (h : Z)
  | Unlink (fn : string)
  | Mmap (h : Z)
  | Stat (path : string)
  | Fcntl (h : Z) (cmd : Z)
  | Rewinddir (h : Z)
  | Fstat (h : Z)
  | Attach (al : open_allocs) (fn : string) (obj : Z) (size : Z)
  | Detach (fake_ok : bool) (fn : string)
  | ClientMalloc (contents : list byte).

(** The state a call leaves. *)
Definition run (c : call) (s : ramdisk) : result ramdisk :=
  match c with
  | Init a b c => Ok (fs_ramdisk_init a b c s)
  | Open al fn mode => snd <$> ramdisk_open al fn mode s
  | Close h => snd <$> ramdisk_close h s
  | Read h bytes => snd <$> ramdisk_read h bytes s
  | Write np_ok h buf bytes => snd <$> ramdisk_write np_ok h buf bytes s
  | Seek h offset whence => snd <$> ramdisk_seek h offset whence s
  | Tell h => snd <$> ramdisk_tell h s
  | Total h => snd <$> ramdisk_total h s
  | Readdir h => snd <$> ramdisk_readdir h s
  | Unlink fn => snd <$> ramdisk_unlink fn s
  | Mmap h => snd <$> ramdisk_mmap h s
  | Stat path => snd <$> ramdisk_stat path s
  | Fcntl h cmd => snd <$> ramdisk_fcntl h cmd s
  | Rewinddir h => snd <$> ramdisk_rewinddir h s
  | Fstat h => snd <$> ramdisk_fstat h s
  | Attach al fn obj size => snd <$> fs_ramdisk_attach al fn obj size s
  | Detach fake_ok fn => snd <$> fs_ramdisk_detach fake_ok fn s
  | ClientMalloc contents =>
      Ok (set_mem (<[fresh_addr s := contents]> (mem s)) s)
  end.

(** The state after a sequence of calls. *)
Fixpoint runs (cs : list call) (s : ramdisk) : result ramdisk :=
  match cs with
  | [] => Ok s
  | c :: cs' => s' ← run c s; runs cs' s'
  end.

(** A freshly initialized file system. *)
Definition fresh_fs : ramdisk := fs_ramdisk_init true true true boot.

(** The states a sequence of calls reaches from it. *)
Inductive reachable : ramdisk → Prop :=
  | reachable_fresh : reachable fresh_fs
  | reachable_step c s s' : reachable s → run c s = Ok s' → reachable s'.

End Ramdisk.

(** ** Vocabulary of the statements *)

Section Vocabulary.
Context {opts : kos_opts}.

(** [fd] is a valid file handle: its slot is [h], in use, not a
    directory handle, and the node it refers to is [n]. *)
Definition file_handle (s : ramdisk) (fd : Z) (h : fh_t) (n : rd_file_t) : Prop :=
  fh_at s fd = Ok h ∧ fh_file h ≠ NULL ∧ fh_dir h = 0
  ∧ files s !! fh_file h = Some n.

(** The three origins of a seek. *)
Inductive whence_t := Whence_set | Whence_cur | Whence_end.

Definition whence_code (w : whence_t) : Z :=
  match w with
  | Whence_set => SEEK_SET
  | Whence_cur => SEEK_CUR
  | Whence_end => SEEK_END
  end.

(** The cursor a seek asks for, in unbounded arithmetic; [None] when it
    is below zero. *)
Definition seek_target (w : whence_t) (cursor size offset : Z) : option Z :=
  match w with
  | Whence_set => if offset <? 0 then None else Some offset
  | Whence_cur => if cursor + offset <? 0 then None else Some (cursor + offset)
  | Whence_end => if size + offset <? 0 then None else Some (size + offset)
  end.

End Vocabulary.

(** ** Example states *)

(** The state a sequence of calls leaves on a freshly initialized file
    system ([boot] if the sequence does not run through). *)
Definition after {opts : kos_opts} (cs : list call) : ramdisk :=
  match runs cs fresh_fs with
  | Ok s => s
  | Err _ => boot
  end.

(** The slot [fh[fd]] and the node at an address, for states in which
    they exist. *)
Definition slot_of (s : ramdisk) (fd : Z) : fh_t :=
  default fh_zero (fh s !! Z.to_nat fd).

Definition node_of (s : ramdisk) (a : Z) : rd_file_t :=
  default {| f_name := EmptyString; f_size := 0; f_type := STAT_TYPE_FILE;
             f_openfor := OPENFOR_NOTHING; f_usage := 0; f_data := NULL;
             f_datasize := 0; le_next := NULL; le_prev := LHead NULL |}
          (files s !! a).

Definition block_of (s : ramdisk) (p : Z) : list byte :=
  default [] (mem s !! p).

(** A file [hello.txt] holding the two bytes [hi], open for reading
    through handle 1. *)
Definition hello_calls : list call :=
  [Open all_ok "hello.txt" O_WRONLY; Write true 1 ["h"%byte; "i"%byte] 2; Close 1;
   Open all_ok "hello.txt" O_RDONLY].

(** ** Statement of write *)

(** A block after [src] is copied into it at offset [off]. *)
Definition write_bytes (blk : list byte) (off : Z) (src : list byte) : list byte :=
  take (Z.to_nat off) blk ++ src ++ drop (Z.to_nat off + length src) blk.

(** [fd] is not a valid file handle whose node is in writing mode. *)
Definition not_write_handle {opts : kos_opts} (s : ramdisk) (fd : Z) : Prop :=
  FS_RAMDISK_MAX_FILES ≤ fd
  ∨ ∃ h, fh_at s fd = Ok h
         ∧ (fh_file h = NULL ∨ fh_dir h ≠ 0
            ∨ ∃ n, files s !! fh_file h = Some n ∧ f_openfor n ≠ OPENFOR_WRITE).

(** What a write of [buf] through the slot [h] of [fd] leaves, when the
    node [n] ends up with its data block at [d], of capacity [cap] and
    with contents [blk]: the cursor advanced, the logical size raised to
    it, the bytes in place. *)
Definition written (s : ramdisk) (fd : Z) (h : fh_t) (n : rd_file_t)
    (buf : list byte) (d cap : Z) (blk : list byte) (s' : ramdisk) : Prop :=
  let cur := fh_ptr h + Z.of_nat (length buf) in
  fh s' = <[Z.to_nat fd := set_fh_ptr cur h]> (fh s)
  ∧ files s' = <[fh_file h := set_size (Z.max (f_size n) cur)
                                (set_datasize cap (set_data d n))]> (files s)
  ∧ mem s' !! d = Some (write_bytes blk (fh_ptr h) buf)
  ∧ (∀ p, p ≠ d → p ≠ f_data n → mem s' !! p = mem s !! p)
  ∧ dirs s' = dirs s ∧ root s' = root s ∧ rootdir s' = rootdir s ∧ errno s' = errno s.

(** A hundred-byte file [f] read through handle 1 with the cursor at
    its end, and the same after [f] is detached meanwhile. *)
Definition reader_calls : list call :=
  [Open all_ok "f" O_WRONLY; Write true 1 (replicate 100 "A"%byte) 100; Close 1;
   Open all_ok "f" O_RDONLY; Seek 1 100 SEEK_SET].

Definition detached_calls : list call :=
  reader_calls ++ [Detach true "f"].

(** The permission bits of a mode. *)
Definition rw_bits : Z :=
  Z.lor S_IRUSR (Z.lor S_IWUSR (Z.lor S_IRGRP (Z.lor S_IWGRP (Z.lor S_IROTH S_IWOTH)))).
Definition x_bits : Z :=
  Z.lor S_IXUSR (Z.lor S_IXGRP S_IXOTH).

(** ** Well-formed states *)

(** A directory list as the nodes see it: [p] points at the first node
    of [l], each node points at the next and back at the link cell that
    points at it ([prev] for the first), and the last points at [NULL]. *)
Inductive chain (F : gmap Z rd_file_t) : link → Z → list Z → Prop :=
  | chain_nil prev : chain F prev NULL []
  | chain_cons prev a n l :
      a ≠ NULL → F !! a = Some n → le_prev n = prev →
      chain F (LNode a) (le_next n) l →
      chain F prev a (a :: l).

(** The test of [ramdisk_find] on one node name. *)
Definition name_match (name : string) (namelen : nat) (nm : string) : bool :=
  (String.length nm =? namelen)%nat && (strncasecmp name nm namelen =? 0).

(** A name with the case of its letters removed. *)
Fixpoint lower (s : string) : list Z :=
  match s with
  | EmptyString => []
  | String c s' => tolower c :: lower s'
  end.

(** Number of slots of the handle table that refer to the node [a]. *)
Definition handles_on (a : Z) (H : list fh_t) : nat :=
  length (filter (λ h, fh_file h = a) H).

(** The node store is a tree of depth one: the root directory and, in its
    list, files whose names differ even without case. *)
Definition tree_ok (F : gmap Z rd_file_t) (D : gmap Z Z) (r rd : Z) : Prop :=
  r ≠ NULL ∧ rd ≠ NULL
  ∧ ∃ rn first l,
      F !! r = Some rn ∧ f_type rn = STAT_TYPE_DIR ∧ f_data rn = rd
      ∧ D !! rd = Some first ∧ chain F (LHead rd) first l
      ∧ NoDup l ∧ (r ∉ l)
      ∧ (∀ a, is_Some (F !! a) ↔ a = r ∨ a ∈ l)
      ∧ (∀ a n, a ∈ l → F !! a = Some n → f_type n = STAT_TYPE_FILE)
      ∧ (∀ a b na nb, a ∈ l → b ∈ l → F !! a = Some na → F !! b = Some nb →
           lower (f_name na) = lower (f_name nb) → a = b).

(** The handle table and the lock state of the nodes agree: the usage
    count of a node is the number of slots that refer to it, a node is
    unlocked exactly when it is unused, a node locked for writing has
    one handle, and a slot in use refers to a node locked for reading
    if the slot was opened read-only, for writing if not. *)
Definition handles_ok {opts : kos_opts} (F : gmap Z rd_file_t) (H : list fh_t) : Prop :=
  length H = Z.to_nat FS_RAMDISK_MAX_FILES
  ∧ (∀ a n, F !! a = Some n →
       f_usage n = Z.of_nat (handles_on a H)
       ∧ (f_openfor n = OPENFOR_NOTHING ↔ f_usage n = 0)
       ∧ (f_openfor n = OPENFOR_WRITE → f_usage n = 1))
  ∧ (∀ i h, H !! i = Some h → fh_file h ≠ NULL →
       ∃ n, F !! fh_file h = Some n
            ∧ f_openfor n = if Z.land (fh_omode h) O_MODE_MASK =? O_RDONLY
                            then OPENFOR_READ else OPENFOR_WRITE).

(** The root directory is never locked for writing. *)
Definition root_not_written (F : gmap Z rd_file_t) (r : Z) : Prop :=
  ∀ rn, F !! r = Some rn → f_openfor rn ≠ OPENFOR_WRITE.

Definition wf {opts : kos_opts} (s : ramdisk) : Prop :=
  tree_ok (files s) (dirs s) (root s) (rootdir s)
  ∧ handles_ok (files s) (fh s)
  ∧ root_not_written (files s) (root s).

(** The files of the root directory, first to last. *)
Definition root_children (s : ramdisk) (l : list Z) : Prop :=
  ∃ first, dirs s !! rootdir s = Some first
           ∧ chain (files s) (LHead (rootdir s)) first l.

(** Two nodes that differ in their list links at most. *)
Definition same_payload (n n' : rd_file_t) : Prop :=
  f_name n' = f_name n ∧ f_size n' = f_size n ∧ f_type n' = f_type n
  ∧ f_openfor n' = f_openfor n ∧ f_usage n' = f_usage n
  ∧ f_data n' = f_data n ∧ f_datasize n' = f_datasize n.

(** Two stores with the same nodes, which differ in their list links at
    most. *)
Definition relinked (F F' : gmap Z rd_file_t) : Prop :=
  ∀ a, match F !! a with
       | Some n => ∃ n', F' !! a = Some n' ∧ same_payload n n'
       | None => F' !! a = None
       end.

(** The first step of [LIST_REMOVE]: the node after [e] points back at
    the link cell that pointed at [e]. *)
Definition unlink_next (F : gmap Z rd_file_t) (e : rd_file_t) (F1 : gmap Z rd_file_t)
    : Prop :=
  (le_next e = NULL ∧ F1 = F)
  ∨ (le_next e ≠ NULL
     ∧ ∃ nb, F !! le_next e = Some nb
             ∧ F1 = <[le_next e := set_le_prev (le_prev e) nb]> F).

(** The first node of the list [l] whose name passes the test of
    [ramdisk_find], [NULL] if there is none. *)
Fixpoint find_in (F : gmap Z rd_file_t) (l : list Z) (name : string) (namelen : nat) : Z :=
  match l with
  | [] => NULL
  | a :: l' =>
      match F !! a with
      | Some n => if name_match name namelen (f_name n) then a
                  else find_in F l' name namelen
      | None => NULL
      end
  end.

(** Two states that differ in the byte blocks at most. *)
Definition mem_only (s s' : ramdisk) : Prop :=
  files s' = files s ∧ dirs s' = dirs s ∧ fh s' = fh s
  ∧ root s' = root s ∧ rootdir s' = rootdir s ∧ errno s' = errno s.

(** The node [ramdisk_create_file] makes for the name [p], with its data
    block at [d]. *)
Definition new_file (p : string) (d : Z) : rd_file_t :=
  {| f_name := p; f_size := 0; f_type := STAT_TYPE_FILE;
     f_openfor := OPENFOR_NOTHING; f_usage := 0; f_data := d; f_datasize := 1024;
     le_next := NULL; le_prev := LHead NULL |}.

(** The flags [fs_ramdisk_attach] opens with do not ask for a directory. *)
Definition attach_flags_plain {opts : kos_opts} : Prop :=
  Z.land (Z.lor O_WRONLY O_TRUNC) O_DIR = 0.

(** ** Statements about open *)

(** The path as [ramdisk_open] uses it: without one leading slash. *)
Definition strip_slash (fn : string) : string :=
  match fn with
  | String "/" fn' => fn'
  | _ => fn
  end.

(** [f] is the node that [ramdisk_open] finds for the path [fn] and the
    flags [mode]. *)
Definition open_target {opts : kos_opts} (s : ramdisk) (fn : string) (mode : Z) (f : Z)
    : Prop :=
  match strip_slash fn with
  | EmptyString => f = root s
  | String _ _ as fn' =>
      ramdisk_find_path s (rootdir s) fn' (Z.land mode O_DIR) = Ok f ∧ f ≠ NULL
  end.

(** The flags ask for a writable mode: the test of the second branch of
    [ramdisk_open]. *)
Definition writable_mode {opts : kos_opts} (mode : Z) : Prop :=
  let mm := Z.land mode O_MODE_MASK in
  mm ≠ O_RDONLY ∧ (Z.land mm O_RDWR ≠ 0 ∨ Z.land mm O_WRONLY ≠ 0).

(** The slot [h] was opened in a writable mode. *)
Definition writer_slot {opts : kos_opts} (h : fh_t) : Prop :=
  Z.land (fh_omode h) O_MODE_MASK ≠ O_RDONLY.

(** Two states with the same nodes, list heads, blocks and globals, and
    the same handles: a slot in use is the same in both, a free slot is
    free in both. *)
Definition same_but_free_slots (s s' : ramdisk) : Prop :=
  files s' = files s ∧ dirs s' = dirs s ∧ mem s' = mem s
  ∧ root s' = root s ∧ rootdir s' = rootdir s ∧ errno s' = errno s
  ∧ length (fh s') = length (fh s)
  ∧ ∀ i h, fh s !! i = Some h →
      ∃ h', fh s' !! i = Some h' ∧ fh_file h' = fh_file h
            ∧ (fh_file h ≠ NULL → h' = h).

(** ** Statements about readdir *)

(** The entry [ramdisk_readdir] fills for the node [n]. *)
Definition entry_of {opts : kos_opts} (n : rd_file_t) : dirent_t :=
  match f_type n with
  | STAT_TYPE_DIR =>
      {| de_size := -1; de_name := f_name n; de_time := 0; de_attr := O_DIR |}
  | STAT_TYPE_FILE =>
      {| de_size := f_size n; de_name := f_name n; de_time := 0; de_attr := 0 |}
  end.

(** The entries of the nodes of a list, in its order. *)
Definition entries {opts : kos_opts} (F : gmap Z rd_file_t) (l : list Z) : list dirent_t :=
  omap (λ a, entry_of <$> F !! a) l.

(** The results of [k] successive calls of [ramdisk_readdir]. *)
Fixpoint readdir_n {opts : kos_opts} (k : nat) (fd : Z) (s : ramdisk)
    : result (list (option dirent_t) * ramdisk) :=
  match k with
  | O => Ok ([], s)
  | S k' =>
      '(d, s) ← ramdisk_readdir fd s;
      '(ds, s) ← readdir_n k' fd s;
      Ok (d :: ds, s)
  end.

(** [fd] is a valid directory handle: its slot is [h], in use, opened as
    a directory, and the node it refers to is [n]. *)
Definition dir_handle {opts : kos_opts} (s : ramdisk) (fd : Z) (h : fh_t) (n : rd_file_t)
    : Prop :=
  fh_at s fd = Ok h ∧ fh_file h ≠ NULL ∧ fh_dir h ≠ 0
  ∧ files s !! fh_file h = Some n.

(** Successive calls of [ramdisk_readdir] on [fd] from the state [s]
    yield the entries of the nodes [l] of the store [F] in order, then
    [NULL] with [errno] set to [EBADF]; the nodes, the list heads and the
    blocks are left as they were. *)
Definition lists_children {opts : kos_opts} (fd : Z) (F : gmap Z rd_file_t)
    (l : list Z) (s : ramdisk) : Prop :=
  ∃ s', readdir_n (S (length l)) fd s = Ok ((Some <$> entries F l) ++ [None], s')
        ∧ errno s' = EBADF
        ∧ files s' = files s ∧ dirs s' = dirs s ∧ mem s' = mem s.

(** ** Statements about attach and detach *)

(** The state [s'] is [s] with the node [f] changed from [n] to [n'],
    which has the name, the type and the links of [n]; the handle table
    and the blocks may differ. *)
Definition node_updated (s s' : ramdisk) (f : Z) (n n' : rd_file_t) : Prop :=
  files s !! f = Some n ∧ files s' = <[f := n']> (files s)
  ∧ dirs s' = dirs s ∧ root s' = root s ∧ rootdir s' = rootdir s
  ∧ f_name n' = f_name n ∧ f_type n' = f_type n
  ∧ le_next n' = le_next n ∧ le_prev n' = le_prev n.

(** The slot [fd] of [s] is free. *)
Definition free_slot {opts : kos_opts} (s : ramdisk) (fd : Z) : Prop :=
  1 ≤ fd < FS_RAMDISK_MAX_FILES ∧ ∃ h, fh_at s fd = Ok h ∧ fh_file h = NULL.

(** The blocks of [s] other than [d] and [NULL] are blocks of [s']. *)
Definition keeps_blocks (s s' : ramdisk) (d : Z) : Prop :=
  ∀ p b, p ≠ d → p ≠ NULL → mem s !! p = Some b → mem s' !! p = Some b.

(** ** Statements about shutdown *)

(** The data blocks of the files [l] can be freed one after the other:
    each data pointer is [NULL] or a live block, and no block belongs to
    two of the files. *)
Fixpoint blocks_live (F : gmap Z rd_file_t) (M : gmap Z (list byte)) (l : list Z)
    : Prop :=
  match l with
  | [] => True
  | a :: l' =>
      ∃ n, F !! a = Some n
           ∧ (f_data n = NULL
              ∨ is_Some (M !! f_data n))
           ∧ blocks_live F (if decide (f_data n = NULL) then M
                            else delete (f_data n) M) l'
  end.

(** A file [f] holding the two bytes [hi], closed. *)
Definition closed_file_calls : list call :=
  [Open all_ok "f" O_WRONLY; Write true 1 ["h"%byte; "i"%byte] 2; Close 1].

(** Allocation outcomes with the [malloc] of the truncation failing. *)
Definition trunc_fails : open_allocs :=
  {| pname_ok := true; node_ok := true; name_ok := true; data_ok := true;
     trunc_ok := false |}.

(** ** Statements about invalid handles *)

(** Every operation on a handle refuses [fd] in the state [s] and leaves
    the state as it is, [errno] apart: the failure value of each, with
    [errno] set to [EBADF] by those that set it; [ramdisk_close] returns
    0 all the same. *)
Definition handle_rejected {opts : kos_opts} (fd : Z) (s : ramdisk) : Prop :=
  (∀ bytes, ramdisk_read fd bytes s = Ok (-1, [], s))
  ∧ (∀ (np_ok : bool) buf bytes, ramdisk_write np_ok fd buf bytes s = Ok (-1, s))
  ∧ (∀ offset whence, ramdisk_seek fd offset whence s = Ok (-1, set_errno EBADF s))
  ∧ ramdisk_tell fd s = Ok (-1, s)
  ∧ ramdisk_total fd s = Ok (2^32 - 1, s)
  ∧ ramdisk_mmap fd s = Ok (NULL, s)
  ∧ ramdisk_readdir fd s = Ok (None, set_errno EBADF s)
  ∧ ramdisk_rewinddir fd s = Ok (-1, set_errno EBADF s)
  ∧ (∀ cmd, ramdisk_fcntl fd cmd s = Ok (-1, set_errno EBADF s))
  ∧ ramdisk_fstat fd s = Ok (-1, None, set_errno EBADF s)
  ∧ ramdisk_close fd s = Ok (0, s).

(** * Properties *)

(** ** Machine integers and results *)

Lemma u32_small z : 0 ≤ z < 2^32 → u32 z = z.
Proof. intros. unfold u32. apply Z.mod_small. lia. Qed.

Lemma s32_small z : - 2^31 ≤ z < 2^31 → s32 z = z.
Proof. intros. unfold s32. rewrite Z.mod_small; lia. Qed.

Lemma bind_Ok {A B} (m : result A) (k : A → result B) (b : B) :
  m ≫= k = Ok b → ∃ a, m = Ok a ∧ k a = Ok b.
Proof. destruct m as [a|e]; simpl; [eauto | discriminate]. Qed.

Lemma bind_Ok_l {A B} (a : A) (k : A → result B) : Ok a ≫= k = k a.
Proof. done. Qed.

Lemma fmap_Ok {A B} (g : A → B) (m : result A) (b : B) :
  g <$> m = Ok b → ∃ a, m = Ok a ∧ b = g a.
Proof. destruct m as [a|e]; simpl; [intros [= <-]; eauto | discriminate]. Qed.

(** Case analysis of a computation that is known to return. *)
Ltac ok_step H :=
  match type of H with
  | Ok _ = Ok _ => injection H as H; try subst
  | Err _ = Ok _ => discriminate H
  | (_ ≫= _) = Ok _ =>
      let a := fresh "a" in let Ha := fresh "Ha" in
      apply bind_Ok in H as (a & Ha & H)
  | (_ <$> _) = Ok _ =>
      let a := fresh "a" in let Ha := fresh "Ha" in
      apply fmap_Ok in H as (a & Ha & H)
  | (if ?b then _ else _) = Ok _ =>
      let E := fresh "E" in destruct b eqn:E
  | (let '(_, _) := ?p in _) = Ok _ =>
      let E := fresh "E" in destruct p eqn:E
  | (match ?x with _ => _ end) = Ok _ =>
      let E := fresh "E" in destruct x eqn:E
  end.

Section Basics.
Context {opts : kos_opts}.

(** ** The handle table *)

Lemma fh_at_Ok s fd h :
  fh_at s fd = Ok h ↔
  0 ≤ fd < FS_RAMDISK_MAX_FILES ∧ fh s !! Z.to_nat fd = Some h.
Proof.
  unfold fh_at. split.
  - destruct (_ || _) eqn:E; [discriminate|].
    apply orb_false_iff in E as [E1 E2].
    destruct (fh s !! Z.to_nat fd); [|discriminate].
    intros [= <-]. split; [lia | done].
  - intros [Hr Hl].
    replace ((fd <? 0) || (FS_RAMDISK_MAX_FILES <=? fd)) with false.
    + by rewrite Hl.
    + symmetry. apply orb_false_iff. split; lia.
Qed.

Lemma fh_at_store_eq s fd h h' :
  fh_at s fd = Ok h → fh_at (fh_store fd h' s) fd = Ok h'.
Proof.
  rewrite !fh_at_Ok. intros [Hr Hl]. split; [done|]. simpl.
  apply list_lookup_insert_eq. by eapply lookup_lt_Some.
Qed.

Lemma fh_at_store_ne s fd fd' h' :
  0 ≤ fd → 0 ≤ fd' → fd ≠ fd' → fh_at (fh_store fd h' s) fd' = fh_at s fd'.
Proof.
  intros. unfold fh_at. simpl.
  rewrite list_lookup_insert_ne; [done | lia].
Qed.

End Basics.

(** ** Seek *)

Section Seek.
Context {opts : kos_opts}.

(** C5.  On a valid file handle, with cursor, size and offset in the
    range of [off_t], seek computes the cursor it is asked for from the
    start, the current cursor or the logical size, fails with [-1] and
    [EINVAL] when that is below zero, and otherwise clamps it to the
    logical size, stores it and returns it; after a seek past the end
    the cursor is the logical size and a read on the handle returns 0
    bytes. *)
Theorem seek_clamps_to_size s fd h n w offset :
  file_handle s fd h n →
  0 ≤ fh_ptr h < 2^31 → 0 ≤ f_size n < 2^31 → - 2^31 ≤ offset < 2^31 →
  match seek_target w (fh_ptr h) (f_size n) offset with
  | None => ramdisk_seek fd offset (whence_code w) s = Ok (-1, set_errno EINVAL s)
  | Some c =>
      let c' := Z.min c (f_size n) in
      let s1 := fh_store fd (set_fh_ptr c' h) s in
      ramdisk_seek fd offset (whence_code w) s = Ok (c', s1)
      ∧ (f_size n < c →
         c' = f_size n
         ∧ ∀ blk bytes,
             mem s !! f_data n = Some blk → f_size n ≤ Z.of_nat (length blk) →
             0 ≤ bytes < 2^31 →
             ramdisk_read fd bytes s1
             = Ok (0, [], fh_store fd (set_fh_ptr (f_size n) (set_fh_ptr c' h)) s1))
  end.
Proof.
  intros (Hfh & Hfile & Hdir & Hn) Hptr Hsize Hoff.
  pose proof Hfh as Hfh'. apply fh_at_Ok in Hfh' as [Hfd Hl].
  assert (Hcore : match seek_target w (fh_ptr h) (f_size n) offset with
      | None => ramdisk_seek fd offset (whence_code w) s = Ok (-1, set_errno EINVAL s)
      | Some c => 0 ≤ c < 2^32 ∧
          ramdisk_seek fd offset (whence_code w) s
          = Ok (Z.min c (f_size n), fh_store fd (set_fh_ptr (Z.min c (f_size n)) h) s)
      end).
  { unfold ramdisk_seek.
    replace (FS_RAMDISK_MAX_FILES <=? fd) with false by lia.
    rewrite Hfh. simpl.
    replace (fh_file h =? NULL) with false by (unfold NULL in *; lia).
    rewrite Hdir. simpl.
    unfold file_at. rewrite Hn. simpl.
    destruct w; simpl; unfold SEEK_SET, SEEK_CUR, SEEK_END; simpl.
    - destruct (offset <? 0) eqn:E; simpl; [done|].
      split; [lia|]. rewrite u32_small by lia.
      rewrite Z.min_comm. unfold Z.min.
      destruct (f_size n ?= offset) eqn:C; rewrite ?Z.compare_eq_iff,
        ?Z.compare_lt_iff, ?Z.compare_gt_iff in C.
      + replace (f_size n <? offset) with false by lia. rewrite s32_small by lia.
        by rewrite C.
      + replace (f_size n <? offset) with true by lia. by rewrite s32_small by lia.
      + replace (f_size n <? offset) with false by lia. by rewrite s32_small by lia.
    - destruct (fh_ptr h + offset <? 0) eqn:E; simpl.
      + replace (offset <? 0) with true by lia.
        rewrite u32_small by lia.
        replace (fh_ptr h <? - offset) with true by lia. done.
      + assert ((offset <? 0) && (fh_ptr h <? u32 (- offset)) = false) as ->.
        { destruct (offset <? 0) eqn:E'; [|done]. simpl.
          rewrite u32_small by lia. lia. }
        simpl. split; [lia|]. rewrite u32_small by lia.
        rewrite Z.min_comm. unfold Z.min.
        destruct (f_size n ?= fh_ptr h + offset) eqn:C; rewrite ?Z.compare_eq_iff,
          ?Z.compare_lt_iff, ?Z.compare_gt_iff in C.
        * replace (f_size n <? fh_ptr h + offset) with false by lia.
          rewrite s32_small by lia. by rewrite C.
        * replace (f_size n <? fh_ptr h + offset) with true by lia.
          by rewrite s32_small by lia.
        * replace (f_size n <? fh_ptr h + offset) with false by lia.
          by rewrite s32_small by lia.
    - destruct (f_size n + offset <? 0) eqn:E; simpl.
      + replace (offset <? 0) with true by lia.
        rewrite u32_small by lia.
        replace (f_size n <? - offset) with true by lia. done.
      + assert ((offset <? 0) && (f_size n <? u32 (- offset)) = false) as ->.
        { destruct (offset <? 0) eqn:E'; [|done]. simpl.
          rewrite u32_small by lia. lia. }
        simpl. split; [lia|]. rewrite u32_small by lia.
        rewrite Z.min_comm. unfold Z.min.
        destruct (f_size n ?= f_size n + offset) eqn:C; rewrite ?Z.compare_eq_iff,
          ?Z.compare_lt_iff, ?Z.compare_gt_iff in C.
        * replace (f_size n <? f_size n + offset) with false by lia.
          rewrite s32_small by lia. by rewrite <- C.
        * replace (f_size n <? f_size n + offset) with true by lia.
          by rewrite s32_small by lia.
        * replace (f_size n <? f_size n + offset) with false by lia.
          by rewrite s32_small by lia. }
  destruct (seek_target w (fh_ptr h) (f_size n) offset) as [c|]; [|done].
  destruct Hcore as [Hc Hcore]. simpl. split; [done|].
  intros Hpast. split; [lia|].
  intros blk bytes Hblk Hlen Hbytes.
  rewrite Z.min_r by lia.
  unfold ramdisk_read.
  replace (fd <? FS_RAMDISK_MAX_FILES) with true by lia.
  rewrite (fh_at_store_eq _ _ _ _ Hfh). simpl.
  replace (fh_file h =? NULL) with false by (unfold NULL in *; lia).
  rewrite Hdir. simpl. unfold file_at. simpl. rewrite Hn. simpl.
  rewrite (u32_small (f_size n + bytes)) by lia.
  destruct (f_size n <? f_size n + bytes) eqn:E.
  - rewrite Z.sub_diag. change (u32 0) with 0.
    unfold mem_read. simpl. rewrite Hblk.
    replace (f_size n + 0 <=? Z.of_nat (length blk)) with true by lia.
    simpl. rewrite Z.add_0_r, u32_small by lia. done.
  - assert (bytes = 0) as -> by lia.
    unfold mem_read. simpl. rewrite Hblk.
    replace (f_size n + 0 <=? Z.of_nat (length blk)) with true by lia.
    simpl. rewrite Z.add_0_r, u32_small by lia. done.
Qed.

End Seek.

Section SeekWitness.
#[local] Existing Instance kos_default_opts.

(** The theorem at work: seeking to offset 5000 in the two-byte file
    [hello.txt] leaves the cursor at 2. *)
Lemma seek_clamps_to_size_witness :
  let s := after hello_calls in
  let h := slot_of s 1 in
  ramdisk_seek 1 5000 SEEK_SET s = Ok (2, fh_store 1 (set_fh_ptr 2 h) s).
Proof.
  intros s h. pose (n := node_of s (fh_file h)).
  assert (H1 : file_handle s 1 h n).
  { split; [|split; [|split]]; vm_compute; congruence. }
  assert (H2 : 0 ≤ fh_ptr h < 2^31) by (vm_compute; split; congruence).
  assert (H3 : 0 ≤ f_size n < 2^31) by (vm_compute; split; congruence).
  assert (H4 : - 2^31 ≤ 5000 < 2^31) by lia.
  exact (proj1 (seek_clamps_to_size s 1 h n Whence_set 5000 H1 H2 H3 H4)).
Defined.

End SeekWitness.

(** ** Write *)

Section Write.
Context {opts : kos_opts}.

Lemma fresh_addr_spec s :
  fresh_addr s ≠ NULL ∧ files s !! fresh_addr s = None
  ∧ dirs s !! fresh_addr s = None ∧ mem s !! fresh_addr s = None.
Proof.
  unfold fresh_addr.
  pose proof (is_fresh ({[0]} ∪ dom (files s) ∪ dom (dirs s) ∪ dom (mem s))) as H.
  set (a := fresh _) in *. clearbody a.
  rewrite !not_elem_of_union, not_elem_of_singleton, !not_elem_of_dom in H.
  unfold NULL. tauto.
Qed.

Lemma set_fh_same s : set_fh (fh s) s = s.
Proof. by destruct s. Qed.

Lemma state_eq s s' :
  files s = files s' → dirs s = dirs s' → mem s = mem s' → root s = root s' →
  rootdir s = rootdir s' → fh s = fh s' → errno s = errno s' → s = s'.
Proof. destruct s, s'; simpl; intros; by subst. Qed.

(** C3.  On a valid file handle whose node is in writing mode, with the
    data block of the node live and the sizes in the range of [size_t]:
    when cursor + n exceeds the capacity the block is reallocated to
    cursor + n + 4096 bytes (a failed reallocation returns [-1] and
    leaves the whole state as it was); then the n bytes are copied at the
    cursor, the cursor advances by n, the logical size is raised to the
    cursor if below it, and n is returned.  On any other handle write
    returns [-1] and changes nothing. *)
Theorem write_grows_copies_advances s fd buf (np_ok : bool) :
  let bytes := Z.of_nat (length buf) in
  (∀ h n blk,
     file_handle s fd h n → f_openfor n = OPENFOR_WRITE →
     f_data n ≠ NULL → mem s !! f_data n = Some blk →
     0 ≤ f_datasize n ≤ Z.of_nat (length blk) →
     0 ≤ fh_ptr h → fh_ptr h + bytes + 4096 < 2^32 → bytes < 2^31 →
     let cur := fh_ptr h + bytes in
     if f_datasize n <? cur then
       if np_ok then
         ∃ s' d blk',
           ramdisk_write np_ok fd buf bytes s = Ok (bytes, s')
           ∧ d ≠ NULL ∧ mem (set_mem (delete (f_data n) (mem s)) s) !! d = None
           ∧ Z.of_nat (length blk') = cur + 4096
           ∧ take (length blk) blk' = take (length blk') blk
           ∧ written s fd h n buf d (cur + 4096) blk' s'
       else ramdisk_write np_ok fd buf bytes s = Ok (-1, s)
     else
       ∃ s', ramdisk_write np_ok fd buf bytes s = Ok (bytes, s')
             ∧ written s fd h n buf (f_data n) (f_datasize n) blk s')
  ∧ (not_write_handle s fd → ramdisk_write np_ok fd buf bytes s = Ok (-1, s)).
Proof.
  intros bytes. split.
  - intros h n blk (Hfh & Hfile & Hdir & Hn) Hw Hd Hblk Hcap Hptr Hrange Hbytes cur.
    pose proof Hfh as Hfh'. apply fh_at_Ok in Hfh' as [Hfd Hl].
    assert (Hcur : cur = fh_ptr h + bytes) by done.
    assert (Hsmall : u32 cur = cur) by (apply u32_small; lia).
    assert (Hsmall' : u32 (cur + 4096) = cur + 4096) by (apply u32_small; lia).
    assert (Hall : take (Z.to_nat bytes) buf = buf).
    { unfold bytes. by rewrite Nat2Z.id, firstn_all. }
    unfold ramdisk_write.
    replace (fd <? FS_RAMDISK_MAX_FILES) with true by lia.
    rewrite Hfh. simpl.
    replace (fh_file h =? NULL) with false by (unfold NULL in *; lia).
    rewrite Hdir. simpl. unfold file_at. rewrite Hn. simpl.
    rewrite Hw. rewrite bool_decide_eq_true_2 by done.
    fold bytes. rewrite <- !Hcur, !Hsmall, !Hsmall', Hall.
    replace (bytes <? bytes) with false by lia.
    rewrite (s32_small bytes) by lia.
    destruct (f_datasize n <? cur) eqn:Egrow.
    + destruct np_ok.
      * set (s1 := set_mem (delete (f_data n) (mem s)) s).
        set (blk' := take (Z.to_nat (cur + 4096))
                       (blk ++ zeros (cur + 4096 - Z.of_nat (length blk)))).
        destruct (fresh_addr_spec s1) as (Hq0 & _ & _ & Hqm).
        assert (Hlen : Z.of_nat (length blk') = cur + 4096).
        { unfold blk', zeros. rewrite length_take, length_app, length_replicate. lia. }
        eexists _, (fresh_addr s1), blk'.
        split; [|split; [done|split; [done|split; [done|split]]]].
        { unfold realloc_mem.
          replace (f_data n =? NULL) with false by (unfold NULL in *; lia).
          rewrite Hblk. simpl. fold s1. fold blk'.
          replace (fresh_addr s1 =? NULL) with false by (unfold NULL in *; lia).
          simpl. unfold mem_write. simpl. rewrite lookup_insert_eq.
          replace (fh_ptr h + Z.of_nat (length buf) <=? Z.of_nat (length blk'))
            with true by (fold bytes; lia).
          simpl. reflexivity. }
        { assert (Hlen' : length blk' = Z.to_nat (cur + 4096)) by lia.
          rewrite Hlen'. unfold blk'. rewrite take_take.
          destruct (decide (length blk ≤ Z.to_nat (cur + 4096))%nat).
          - rewrite Nat.min_l by done. rewrite take_app_length.
            by rewrite take_ge by lia.
          - rewrite Nat.min_r by lia. by rewrite take_app_le by lia. }
        { unfold written. fold bytes. fold cur. simpl.
          split; [by destruct (f_size n <? cur)|].
          split.
          { destruct (f_size n <? cur) eqn:E; simpl.
            - rewrite insert_insert_eq. f_equal. unfold set_size. simpl.
              f_equal. lia.
            - f_equal. unfold set_size, set_datasize, set_data. simpl.
              f_equal. lia. }
          split.
          { destruct (f_size n <? cur); simpl; by rewrite lookup_insert_eq. }
          split.
          { intros p Hp1 Hp2.
            destruct (f_size n <? cur); simpl;
              rewrite insert_insert_eq, lookup_insert_ne by done;
              by rewrite lookup_delete_ne. }
          destruct (f_size n <? cur); simpl; done. }
      * unfold realloc_mem.
        replace (f_data n =? NULL) with false by (unfold NULL in *; lia).
        by rewrite Hblk.
    + eexists. split.
      { simpl. unfold mem_write. rewrite Hblk.
        replace (fh_ptr h + Z.of_nat (length buf) <=? Z.of_nat (length blk))
          with true by (fold bytes; lia).
        simpl. reflexivity. }
      unfold written. fold bytes. fold cur. simpl.
      split; [by destruct (f_size n <? cur)|].
      split.
      { destruct (f_size n <? cur) eqn:E; simpl.
        - f_equal. destruct n; unfold set_size; simpl. f_equal. simpl in *. lia.
        - rewrite insert_id; [done|]. rewrite Hn. f_equal.
          destruct n; unfold set_size, set_datasize, set_data; simpl in *.
          f_equal. lia. }
      split.
      { destruct (f_size n <? cur); simpl; by rewrite lookup_insert_eq. }
      split.
      { intros p Hp1 Hp2.
        destruct (f_size n <? cur); simpl; by rewrite lookup_insert_ne. }
      destruct (f_size n <? cur); simpl; done.
  - intros [Hge | (h & Hfh & Hbad)]; unfold ramdisk_write.
    + by replace (fd <? FS_RAMDISK_MAX_FILES) with false by lia.
    + pose proof Hfh as Hfh'. apply fh_at_Ok in Hfh' as [Hfd Hl].
      replace (fd <? FS_RAMDISK_MAX_FILES) with true by lia.
      rewrite Hfh. simpl.
      destruct Hbad as [H0 | [Hd | (n & Hn & Hw)]].
      * rewrite H0. done.
      * destruct (fh_file h =? NULL); simpl; [done|].
        replace (fh_dir h =? 0) with false by lia. done.
      * destruct (negb (fh_file h =? NULL) && (fh_dir h =? 0)); [|done].
        unfold file_at. rewrite Hn. simpl.
        by rewrite bool_decide_eq_false_2.
Qed.

End Write.

Section WriteWitness.
#[local] Existing Instance kos_default_opts.

(** The theorem at work: two bytes written to a new file fit its first
    block; a write through the free slot 2 is refused. *)
Lemma write_grows_copies_advances_witness :
  let s := after [Open all_ok "f" O_WRONLY] in
  let h := slot_of s 1 in
  let n := node_of s (fh_file h) in
  let buf := ["h"%byte; "i"%byte] in
  (∃ s', ramdisk_write true 1 buf 2 s = Ok (2, s')
         ∧ written s 1 h n buf (f_data n) (f_datasize n) (block_of s (f_data n)) s')
  ∧ ramdisk_write true 2 buf 2 s = Ok (-1, s).
Proof.
  intros s h n buf. split.
  - assert (H1 : file_handle s 1 h n)
      by (split; [|split; [|split]]; vm_compute; congruence).
    assert (H2 : f_openfor n = OPENFOR_WRITE) by (vm_compute; reflexivity).
    assert (H3 : f_data n ≠ NULL) by (vm_compute; congruence).
    assert (H4 : mem s !! f_data n = Some (block_of s (f_data n)))
      by (vm_compute; reflexivity).
    assert (H5 : 0 ≤ f_datasize n ≤ Z.of_nat (length (block_of s (f_data n))))
      by (split; vm_compute; congruence).
    assert (H6 : 0 ≤ fh_ptr h) by (vm_compute; congruence).
    assert (H7 : fh_ptr h + Z.of_nat (length buf) + 4096 < 2^32)
      by (vm_compute; reflexivity).
    assert (H8 : Z.of_nat (length buf) < 2^31) by (vm_compute; reflexivity).
    exact (proj1 (write_grows_copies_advances s 1 buf true) h n _
                 H1 H2 H3 H4 H5 H6 H7 H8).
  - assert (H : not_write_handle s 2).
    { right. exists (slot_of s 2). split; [vm_compute; reflexivity|].
      left. vm_compute. reflexivity. }
    exact (proj2 (write_grows_copies_advances s 2 buf true) H).
Defined.

End WriteWitness.

(** ** Runs *)

Section Runs.
Context {opts : kos_opts}.

Lemma runs_reachable cs : ∀ s s', reachable s → runs cs s = Ok s' → reachable s'.
Proof.
  induction cs as [|c cs IH]; simpl; intros s s' Hs H.
  - by injection H as <-.
  - apply bind_Ok in H as (s1 & H1 & H2).
    eapply IH; [|done]. by eapply reachable_step.
Qed.

Lemma after_reachable cs s : runs cs fresh_fs = Ok s → reachable (after cs).
Proof.
  intros H. unfold after. rewrite H.
  eapply runs_reachable; [apply reachable_fresh | done].
Qed.

End Runs.

(** ** The mode reported by fstat, and the cursor after a detach *)

Section Defects.
#[local] Existing Instance kos_default_opts.

(** C7 (the code departs from it).  With the root opened as a directory
    through handle 1, [fstat] on the handle and [stat] on the root path
    both succeed on the same directory node, but the modes differ:
    [stat] reports the directory bit with read, write and execute
    permission for user, group and other, [fstat] reports the directory
    bit with read and write permission only. *)
Theorem fstat_directory_mode_lacks_execute :
  let s := after [Open all_ok "/" (Z.lor O_RDONLY O_DIR)] in
  ∃ st1 st2,
    fh_file (slot_of s 1) = root s
    ∧ f_type (node_of s (root s)) = STAT_TYPE_DIR
    ∧ ramdisk_fstat 1 s = Ok (0, Some st1, s)
    ∧ ramdisk_stat "/" s = Ok (0, Some st2, s)
    ∧ st_mode st1 = Z.lor S_IFDIR rw_bits
    ∧ st_mode st2 = Z.lor S_IFDIR (Z.lor rw_bits x_bits)
    ∧ Z.land (st_mode st1) x_bits = 0
    ∧ st_mode st1 ≠ st_mode st2.
Proof.
  intros s. eexists _, _.
  split; [vm_compute; reflexivity|].
  split; [vm_compute; reflexivity|].
  split; [vm_compute; reflexivity|].
  split; [vm_compute; reflexivity|].
  split; [vm_compute; reflexivity|].
  split; [vm_compute; reflexivity|].
  split; [vm_compute; reflexivity|].
  vm_compute. congruence.
Qed.

(** C2 (the code departs from it).  A file of 100 bytes is read through
    handle 1 with the cursor at 100; the bounds hold.  [fs_ramdisk_detach]
    on the file then returns 0, but the unlink inside it is refused
    because handle 1 is still open: the node stays, with a 64-byte block
    and logical size 64, and the cursor of handle 1, still 100, is past
    the logical size.  The next read through it asks for 64 - 100 bytes,
    in unsigned arithmetic, and copies outside the block. *)
Theorem detach_leaves_cursor_past_size :
  let s0 := after reader_calls in
  let s := after detached_calls in
  let h := slot_of s 1 in
  let n := node_of s (fh_file h) in
  reachable s0
  ∧ fh_ptr (slot_of s0 1) = 100
  ∧ f_size (node_of s0 (fh_file (slot_of s0 1))) = 100
  ∧ fs_ramdisk_detach true "f" s0 = Ok (0, Some (f_data (node_of s0 (fh_file h)), 100), s)
  ∧ reachable s
  ∧ file_handle s 1 h n
  ∧ f_type n = STAT_TYPE_FILE
  ∧ f_datasize n = 64 ∧ f_size n = 64 ∧ fh_ptr h = 100
  ∧ ramdisk_read 1 1 s = Err Undefined.
Proof.
  intros s0 s h n.
  split; [apply (after_reachable _ s0); vm_compute; reflexivity|].
  split; [vm_compute; reflexivity|].
  split; [vm_compute; reflexivity|].
  split; [vm_compute; reflexivity|].
  split; [apply (after_reachable _ s); vm_compute; reflexivity|].
  split; [split; [|split; [|split]]; vm_compute; congruence|].
  split; [vm_compute; reflexivity|].
  split; [vm_compute; reflexivity|].
  split; [vm_compute; reflexivity|].
  split; [vm_compute; reflexivity|].
  vm_compute. reflexivity.
Qed.

End Defects.

(** ** Directory lists *)

Section Chains.

Lemma chain_nil_inv F prev p : chain F prev p [] → p = NULL.
Proof. by inversion 1. Qed.

Lemma chain_cons_inv F prev p a l :
  chain F prev p (a :: l) →
  p = a ∧ a ≠ NULL
  ∧ ∃ n, F !! a = Some n ∧ le_prev n = prev ∧ chain F (LNode a) (le_next n) l.
Proof. inversion 1; subst. eauto 10. Qed.

Lemma chain_lookup F prev p l a :
  chain F prev p l → a ∈ l → a ≠ NULL ∧ is_Some (F !! a).
Proof.
  induction 1 as [|prev b n l Hb Hn Hp Hc IH]; intros Ha.
  - by apply elem_of_nil in Ha.
  - apply elem_of_cons in Ha as [-> | Ha]; [eauto | by apply IH].
Qed.

(** The list is determined by the store and its start. *)
Lemma chain_functional F prev p l l' :
  chain F prev p l → chain F prev p l' → l = l'.
Proof.
  intros H. revert l'. induction H as [|prev a n l Ha Hn Hp Hc IH]; intros l' H'.
  - inversion H'; subst; [done|congruence].
  - inversion H' as [|? ? n' ? ? Hn' ? Hc']; subst; [congruence|].
    assert (n' = n) as -> by congruence.
    f_equal. by apply IH.
Qed.

(** A store that agrees on the links of the nodes of the list gives the
    same list. *)
Lemma chain_agree F F' prev p l :
  (∀ a n, a ∈ l → F !! a = Some n →
     ∃ n', F' !! a = Some n' ∧ le_next n' = le_next n ∧ le_prev n' = le_prev n) →
  chain F prev p l → chain F' prev p l.
Proof.
  intros Hag Hc. induction Hc as [|prev a n l Ha Hn Hp Hc IH]; [constructor|].
  destruct (Hag a n) as (n' & Hn' & Hnext & Hprev); [left | done |].
  apply chain_cons with n'; [done | done | congruence |].
  rewrite Hnext. apply IH. intros b nb Hb. apply Hag. by right.
Qed.

Lemma chain_insert_fresh F prev p l a n :
  a ∉ l → chain F prev p l → chain (<[a := n]> F) prev p l.
Proof.
  intros Ha. apply chain_agree. intros b nb Hb Hnb.
  exists nb. rewrite lookup_insert_ne; [done|]. intros ->. done.
Qed.

Lemma chain_delete_fresh F prev p l a :
  a ∉ l → chain F prev p l → chain (delete a F) prev p l.
Proof.
  intros Ha. apply chain_agree. intros b nb Hb Hnb.
  exists nb. rewrite lookup_delete_ne; [done|]. intros ->. done.
Qed.

Lemma chain_insert_links F prev p l a n n' :
  F !! a = Some n → le_next n' = le_next n → le_prev n' = le_prev n →
  chain F prev p l → chain (<[a := n']> F) prev p l.
Proof.
  intros Hn H1 H2. apply chain_agree. intros b nb Hb Hnb.
  destruct (decide (b = a)) as [->|Hne].
  - exists n'. rewrite lookup_insert_eq. split; [done|]. split; congruence.
  - exists nb. by rewrite lookup_insert_ne.
Qed.

(** Pointing the first node back at another link cell. *)
Lemma chain_set_prev F prev prev' p l n :
  NoDup l → F !! p = Some n → chain F prev p l →
  chain (<[p := set_le_prev prev' n]> F) prev' p l.
Proof.
  intros Hnd Hn Hc. inversion Hc as [|? a n0 l0 Ha Hn0 Hp Hc0]; subst.
  - constructor.
  - assert (n0 = n) as -> by congruence.
    apply chain_cons with (set_le_prev prev' n);
      [done | apply lookup_insert_eq | done |].
    apply chain_insert_fresh; [|done]. by apply NoDup_cons in Hnd as [? _].
Qed.

(** The part of a list from one of its nodes on. *)
Lemma chain_suffix F prev p l1 a l2 :
  chain F prev p (l1 ++ a :: l2) → ∃ prev', chain F prev' a (a :: l2).
Proof.
  revert prev p. induction l1 as [|b l1 IH]; intros prev p Hc.
  - apply chain_cons_inv in Hc as Hc'. destruct Hc' as (-> & _). eauto.
  - apply chain_cons_inv in Hc as (-> & _ & n & _ & _ & Hc). eauto.
Qed.

(** A list without a cycle visits each node once. *)
Lemma chain_NoDup F prev p l : chain F prev p l → NoDup l.
Proof.
  induction 1 as [|prev a n l Ha Hn Hp Hc IH]; [constructor|].
  apply NoDup_cons. split; [|done].
  intros Hin. apply list_elem_of_split in Hin as (l1 & l2 & ->).
  (* the list from the second [a] on is the whole list again, and longer *)
  destruct (chain_suffix _ _ _ _ _ _ Hc) as (prev' & Ha2).
  apply chain_cons_inv in Ha2 as (_ & _ & n2 & Hn2 & _ & Hc2).
  assert (n2 = n) as -> by congruence.
  pose proof (chain_functional _ _ _ _ _ Hc Hc2) as Heq.
  apply (f_equal length) in Heq. rewrite length_app in Heq. simpl in Heq. lia.
Qed.

End Chains.

(** ** The handle table and the locks *)

Section Handles.
Context {opts : kos_opts}.

Lemma handles_on_insert a (H : list fh_t) i h h' :
  H !! i = Some h →
  (handles_on a (<[i := h']> H) + (if decide (fh_file h = a) then 1 else 0)
   = handles_on a H + (if decide (fh_file h' = a) then 1 else 0))%nat.
Proof.
  unfold handles_on. revert i. induction H as [|x H IH]; intros [|i] Hi; simpl in *.
  - done.
  - done.
  - injection Hi as ->. rewrite !filter_cons.
    repeat case_decide; simpl; lia.
  - specialize (IH i Hi). rewrite !filter_cons.
    destruct (decide (fh_file x = a)), (decide (fh_file h = a)),
      (decide (fh_file h' = a)); simpl in *; lia.
Qed.

Lemma handles_on_slot a (H : list fh_t) i h :
  H !! i = Some h → fh_file h = a → (0 < handles_on a H)%nat.
Proof.
  unfold handles_on. revert i. induction H as [|x H IH]; intros [|i] Hi Ha; simpl in *.
  - done.
  - done.
  - injection Hi as ->. rewrite filter_cons. rewrite decide_True by done. simpl. lia.
  - specialize (IH i Hi Ha). rewrite filter_cons. case_decide; simpl; lia.
Qed.

Lemma handles_ok_insert_same F H a n n' :
  F !! a = Some n → f_usage n' = f_usage n → f_openfor n' = f_openfor n →
  handles_ok F H → handles_ok (<[a := n']> F) H.
Proof.
  intros Hn Hu Ho (Hlen & Hnodes & Hslots). split; [done|]. split.
  - intros b nb. rewrite lookup_insert. case_decide as E.
    + subst b. intros [= <-]. rewrite Hu, Ho. by apply Hnodes.
    + apply Hnodes.
  - intros i h Hi Hf. destruct (Hslots i h Hi Hf) as (nh & Hnh & Hoh).
    destruct (decide (fh_file h = a)) as [E|E].
    + exists n'. rewrite E, lookup_insert_eq. split; [done|].
      rewrite Ho. rewrite E in Hnh. congruence.
    + exists nh. by rewrite lookup_insert_ne.
Qed.

Lemma handles_ok_slot_same F (H : list fh_t) i h h' :
  H !! i = Some h → fh_file h' = fh_file h →
  (fh_file h ≠ NULL → fh_omode h' = fh_omode h) →
  handles_ok F H → handles_ok F (<[i := h']> H).
Proof.
  intros Hi Hf Hm (Hlen & Hnodes & Hslots).
  split; [by rewrite length_insert|]. split.
  - intros a n Hn. destruct (Hnodes a n Hn) as (Hu & Hrest).
    split; [|done]. rewrite Hu. f_equal.
    pose proof (handles_on_insert a H i h h' Hi) as Hc.
    rewrite Hf in Hc. case_decide; lia.
  - intros j hj Hj Hfj.
    destruct (decide (i = j)) as [<-|Hne].
    + rewrite list_lookup_insert_eq in Hj by (by eapply lookup_lt_Some).
      injection Hj as <-. rewrite Hf in Hfj |- *.
      rewrite (Hm Hfj). by apply (Hslots i).
    + rewrite list_lookup_insert_ne in Hj by done. by apply (Hslots j).
Qed.

(** A handle is taken on the node [f] through the free slot [i]. *)
Lemma handles_ok_open F (H : list fh_t) i h0 h1 f n n' :
  handles_ok F H → F !! NULL = None →
  H !! i = Some h0 → fh_file h0 = NULL →
  F !! f = Some n → fh_file h1 = f →
  f_usage n' = f_usage n + 1 →
  (Z.land (fh_omode h1) O_MODE_MASK = O_RDONLY
   ∧ f_openfor n ≠ OPENFOR_WRITE ∧ f_openfor n' = OPENFOR_READ)
  ∨ (Z.land (fh_omode h1) O_MODE_MASK ≠ O_RDONLY
     ∧ f_openfor n = OPENFOR_NOTHING ∧ f_openfor n' = OPENFOR_WRITE) →
  handles_ok (<[f := n']> F) (<[i := h1]> H).
Proof.
  intros (Hlen & Hnodes & Hslots) Hnull Hi H0 Hn H1 Hu Hmode.
  assert (Hf : f ≠ NULL) by (intros ->; congruence).
  destruct (Hnodes f n Hn) as (Hcount & Hnone & Hwr).
  split; [by rewrite length_insert|]. split.
  - intros a na. rewrite lookup_insert. case_decide as E.
    + subst a. intros [= <-].
      pose proof (handles_on_insert f H i h0 h1 Hi) as Hc.
      rewrite decide_False in Hc by congruence.
      rewrite decide_True in Hc by done.
      split; [lia|]. split.
      * destruct Hmode as [(_ & _ & ->) | (_ & _ & ->)]; split; [done|lia|done|lia].
      * destruct Hmode as [(_ & _ & ->) | (_ & Hno & _)]; [done|].
        intros _. apply Hnone in Hno. lia.
    + intros Hna. destruct (Hnodes a na Hna) as (Hca & Hrest).
      split; [|done]. rewrite Hca. f_equal.
      pose proof (handles_on_insert a H i h0 h1 Hi) as Hc.
      rewrite decide_False in Hc by (rewrite H0; intros <-; congruence).
      rewrite decide_False in Hc by congruence. lia.
  - intros j hj Hj Hfj.
    destruct (decide (i = j)) as [<-|Hne].
    + rewrite list_lookup_insert_eq in Hj by (by eapply lookup_lt_Some).
      injection Hj as <-. exists n'. rewrite H1, lookup_insert_eq. split; [done|].
      destruct Hmode as [(Hm & _ & ->) | (Hm & _ & ->)].
      * by rewrite Hm.
      * by replace (Z.land (fh_omode h1) O_MODE_MASK =? O_RDONLY) with false by lia.
    + rewrite list_lookup_insert_ne in Hj by done.
      destruct (Hslots j hj Hj Hfj) as (nj & Hnj & Hoj).
      destruct (decide (fh_file hj = f)) as [E|E].
      * exists n'. rewrite E, lookup_insert_eq. split; [done|].
        rewrite E in Hnj. assert (nj = n) as -> by congruence.
        destruct Hmode as [(_ & Hnw & ->) | (_ & Hno & _)].
        -- destruct (Z.land (fh_omode hj) O_MODE_MASK =? O_RDONLY); [done|].
           congruence.
        -- apply Hnone in Hno.
           pose proof (handles_on_slot f H j hj Hj E). lia.
      * exists nj. by rewrite lookup_insert_ne.
Qed.

(** The handle of slot [i] on the node [f] is given back. *)
Lemma handles_ok_close F (H : list fh_t) i h h' f n n' :
  handles_ok F H → F !! NULL = None →
  H !! i = Some h → fh_file h = f → f ≠ NULL → fh_file h' = NULL →
  F !! f = Some n →
  f_usage n' = f_usage n - 1 →
  f_openfor n' = (if f_usage n' =? 0 then OPENFOR_NOTHING else f_openfor n) →
  handles_ok (<[f := n']> F) (<[i := h']> H).
Proof.
  intros (Hlen & Hnodes & Hslots) Hnull Hi Hf Hf0 H0 Hn Hu Ho.
  destruct (Hnodes f n Hn) as (Hcount & Hnone & Hwr).
  pose proof (handles_on_insert f H i h h' Hi) as Hc.
  rewrite decide_True in Hc by done.
  rewrite decide_False in Hc by congruence.
  split; [by rewrite length_insert|]. split.
  - intros a na. rewrite lookup_insert. case_decide as E.
    + subst a. intros [= <-]. split; [lia|]. rewrite Ho.
      destruct (f_usage n' =? 0) eqn:E0.
      * split; [split; [lia|done]|done].
      * split; [split; [|lia]|].
        -- intros Hno. apply Hnone in Hno. lia.
        -- intros Hw. apply Hwr in Hw. lia.
    + intros Hna. destruct (Hnodes a na Hna) as (Hca & Hrest).
      split; [|done]. rewrite Hca. f_equal.
      pose proof (handles_on_insert a H i h h' Hi) as Hc'.
      rewrite decide_False in Hc' by congruence.
      rewrite decide_False in Hc' by (rewrite H0; intros <-; congruence).
      lia.
  - intros j hj Hj Hfj.
    destruct (decide (i = j)) as [<-|Hne].
    + rewrite list_lookup_insert_eq in Hj by (by eapply lookup_lt_Some).
      injection Hj as <-. congruence.
    + rewrite list_lookup_insert_ne in Hj by done.
      destruct (Hslots j hj Hj Hfj) as (nj & Hnj & Hoj).
      destruct (decide (fh_file hj = f)) as [E|E].
      * exists n'. rewrite E, lookup_insert_eq. split; [done|].
        rewrite E in Hnj. assert (nj = n) as -> by congruence.
        rewrite Ho.
        assert (Hpos : (0 < handles_on f (<[i := h']> H))%nat).
        { eapply (handles_on_slot f _ j hj); [|done].
          by rewrite list_lookup_insert_ne. }
        by replace (f_usage n' =? 0) with false by lia.
      * exists nj. by rewrite lookup_insert_ne.
Qed.

(** An unused node is removed. *)
Lemma handles_ok_delete F (H : list fh_t) f n :
  handles_ok F H → F !! f = Some n → f_usage n = 0 → handles_ok (delete f F) H.
Proof.
  intros (Hlen & Hnodes & Hslots) Hn Hu.
  destruct (Hnodes f n Hn) as (Hcount & _).
  split; [done|]. split.
  - intros a na. rewrite lookup_delete. case_decide; [done|]. apply Hnodes.
  - intros j hj Hj Hfj. destruct (Hslots j hj Hj Hfj) as (nj & Hnj & Hoj).
    exists nj. split; [|done]. rewrite lookup_delete_ne; [done|].
    intros E. pose proof (handles_on_slot f H j hj Hj (eq_sym E)). lia.
Qed.

(** A node is added that no handle refers to. *)
Lemma handles_ok_insert_new F (H : list fh_t) a n :
  handles_ok F H → F !! a = None → a ≠ NULL →
  f_usage n = 0 → f_openfor n = OPENFOR_NOTHING →
  handles_ok (<[a := n]> F) H.
Proof.
  intros (Hlen & Hnodes & Hslots) Hnone Ha Hu Ho.
  assert (Hno : ∀ j hj, H !! j = Some hj → fh_file hj ≠ a).
  { intros j hj Hj E.
    destruct (Hslots j hj Hj) as (nj & Hnj & _); congruence. }
  split; [done|]. split.
  - intros b nb. rewrite lookup_insert. case_decide as E.
    + subst b. intros [= <-]. rewrite Hu, Ho. split; [|done].
      unfold handles_on.
      assert (filter (λ h, fh_file h = a) H = []) as ->; [|done].
      clear -Hno. induction H as [|x H IH]; [done|].
      rewrite filter_cons. rewrite decide_False.
      * apply IH. intros j hj Hj. apply (Hno (S j)). done.
      * apply (Hno O). done.
    + apply Hnodes.
  - intros j hj Hj Hfj. destruct (Hslots j hj Hj Hfj) as (nj & Hnj & Hoj).
    exists nj. split; [|done]. rewrite lookup_insert_ne; [done|].
    intros E. by apply (Hno j hj).
Qed.

End Handles.

(** ** Insertion in and removal from a directory list *)

Section Relink.
Context {opts : kos_opts}.

Lemma same_payload_refl n : same_payload n n.
Proof. by repeat split. Qed.

Lemma relinked_refl F : relinked F F.
Proof. intros a. destruct (F !! a) eqn:E; [|done]. eauto using same_payload_refl. Qed.

Lemma relinked_insert F F' a n n' :
  relinked F F' → F !! a = Some n → same_payload n n' →
  relinked F (<[a := n']> F').
Proof.
  intros HR Hn Hp b. specialize (HR b). rewrite lookup_insert. case_decide as E.
  - subst b. rewrite Hn. eauto.
  - done.
Qed.

Lemma relinked_lookup F F' a n' :
  relinked F F' → F' !! a = Some n' → ∃ n, F !! a = Some n ∧ same_payload n n'.
Proof.
  intros HR Hn'. specialize (HR a). destruct (F !! a) as [n|].
  - destruct HR as (n'' & ? & ?). exists n. split; [done|]. congruence.
  - congruence.
Qed.

Lemma same_payload_trans n1 n2 n3 :
  same_payload n1 n2 → same_payload n2 n3 → same_payload n1 n3.
Proof.
  unfold same_payload. intros (?&?&?&?&?&?&?) (?&?&?&?&?&?&?).
  repeat split; congruence.
Qed.

(** [LIST_INSERT_HEAD] puts a node that is not in the list before its
    first node. *)
Lemma LIST_INSERT_HEAD_spec s head elm first e l :
  dirs s !! head = Some first → files s !! elm = Some e →
  chain (files s) (LHead head) first l → elm ∉ l → elm ≠ NULL →
  ∃ s', LIST_INSERT_HEAD head elm s = Ok s'
        ∧ dirs s' = <[head := elm]> (dirs s)
        ∧ chain (files s') (LHead head) elm (elm :: l)
        ∧ relinked (files s) (files s')
        ∧ mem s' = mem s ∧ fh s' = fh s ∧ root s' = root s
        ∧ rootdir s' = rootdir s ∧ errno s' = errno s.
Proof.
  intros Hd He Hc Hnotin Hnn.
  pose proof (chain_NoDup _ _ _ _ Hc) as Hnd.
  unfold LIST_INSERT_HEAD, dir_at, file_at. rewrite Hd, He. simpl.
  destruct l as [|b l];
    [apply chain_nil_inv in Hc as ->
    |apply chain_cons_inv in Hc as Hc0; destruct Hc0 as (-> & Hb & nb & Hnb & Hpb & Hc')].
  - simpl. rewrite lookup_insert_eq. simpl.
    eexists. split; [done|]. simpl. split; [done|]. split.
    + apply chain_cons with (set_le_prev (LHead head) (set_le_next NULL e));
        [done | apply lookup_insert_eq | done | constructor].
    + split; [|done]. rewrite insert_insert_eq.
      apply relinked_insert with e; [apply relinked_refl | done | by repeat split].
  - assert (Hne : b ≠ elm) by (intros ->; apply Hnotin; by left).
    replace (b =? NULL) with false by (unfold NULL in *; lia).
    rewrite lookup_insert_ne by done. rewrite Hnb. simpl.
    rewrite lookup_insert_ne by done. rewrite lookup_insert_eq. simpl.
    eexists. split; [done|]. simpl. split; [done|]. split.
    + apply chain_cons with (set_le_prev (LHead head) (set_le_next b e));
        [done | apply lookup_insert_eq | done |].
      simpl. apply chain_insert_fresh; [done|].
      apply chain_set_prev with (LHead head); [done| |].
      * by rewrite lookup_insert_ne.
      * by apply chain_insert_fresh.
    + split; [|done].
      apply relinked_insert with e; [|done|by repeat split].
      apply relinked_insert with nb; [|done|by repeat split].
      apply relinked_insert with e; [apply relinked_refl|done|by repeat split].
Qed.

(** The node after [elm] in a list. *)
Lemma chain_next_in F prev p l1 elm l2 e :
  chain F prev p (l1 ++ elm :: l2) → F !! elm = Some e → le_next e ≠ NULL →
  le_next e ∈ l2.
Proof.
  intros Hc He Hnz. destruct (chain_suffix _ _ _ _ _ _ Hc) as (prev' & Hc').
  apply chain_cons_inv in Hc' as (_ & _ & e' & He' & _ & Hc').
  assert (e' = e) as -> by congruence.
  inversion Hc'; subst; [done | by left].
Qed.

Lemma chain_remove F prev p l1 elm l2 e :
  NoDup (l1 ++ elm :: l2) → F !! elm = Some e →
  chain F prev p (l1 ++ elm :: l2) →
  ∃ F1, unlink_next F e F1 ∧ relinked F F1
    ∧ match l1 with
      | [] => le_prev e = prev ∧ chain F1 prev (le_next e) l2
      | _ :: _ =>
          ∃ q nq, le_prev e = LNode q ∧ q ∈ l1 ∧ F1 !! q = Some nq
                  ∧ chain (<[q := set_le_next (le_next e) nq]> F1) prev p (l1 ++ l2)
      end.
Proof.
  revert prev p. induction l1 as [|a l1 IH]; intros prev p Hnd He Hc.
  - simpl in Hc. apply chain_cons_inv in Hc as (-> & Hnn & e' & He' & Hp & Hc).
    assert (e' = e) as -> by congruence.
    apply NoDup_cons in Hnd as [Hnotin Hnd2].
    destruct l2 as [|b l2].
    + apply chain_nil_inv in Hc.
      exists F. split; [by left|]. split; [apply relinked_refl|].
      split; [done|]. rewrite Hc. constructor.
    + apply chain_cons_inv in Hc as Hc0. destruct Hc0 as (Hb & Hbn & nb & Hnb & Hpb & Hc2).
      exists (<[b := set_le_prev (le_prev e) nb]> F). split.
      * right. rewrite Hb. split; [done|]. eauto.
      * split.
        { apply relinked_insert with nb; [apply relinked_refl|done|by repeat split]. }
        split; [done|]. rewrite Hb, Hp.
        apply chain_set_prev with (LNode elm); [done|done|].
        rewrite Hb in Hc. exact Hc.
  - simpl in Hc. apply chain_cons_inv in Hc as (-> & Hnn & na & Hna & Hpa & Hc).
    simpl in Hnd. apply NoDup_cons in Hnd as [Hnotin Hnd'].
    destruct (IH _ _ Hnd' He Hc) as (F1 & Hstep & Hrel & Hrest).
    exists F1. split; [done|]. split; [done|].
    assert (Hae : a ≠ elm).
    { intros ->. apply Hnotin. apply elem_of_app. right. by left. }
    assert (Hna1 : F1 !! a = Some na).
    { destruct Hstep as [(_ & ->) | (Hnz & nb & Hnb & ->)]; [done|].
      rewrite lookup_insert_ne; [done|]. intros Hab.
      apply Hnotin. apply elem_of_app. right. right.
      rewrite <- Hab. by eapply chain_next_in. }
    destruct l1 as [|c l1].
    + destruct Hrest as (Hpe & Hc1).
      exists a, na. split; [done|]. split; [by left|]. split; [done|].
      simpl. apply chain_cons with (set_le_next (le_next e) na);
        [done | apply lookup_insert_eq | done |].
      simpl. apply chain_insert_fresh; [|done].
      intros Hin. apply Hnotin. simpl. by right.
    + destruct Hrest as (q & nq & Hpe & Hq & Hnq & Hc1).
      exists q, nq. split; [done|]. split; [by right|]. split; [done|].
      assert (Hqa : q ≠ a).
      { intros ->. apply Hnotin. apply elem_of_app. by left. }
      change ((a :: c :: l1) ++ l2) with (a :: (c :: l1) ++ l2).
      apply chain_cons with na; [done | by rewrite lookup_insert_ne | done |].
      exact Hc1.
Qed.

(** [LIST_REMOVE] takes a node out of the list of a directory. *)
Lemma LIST_REMOVE_spec s head first elm e l1 l2 :
  dirs s !! head = Some first → files s !! elm = Some e →
  chain (files s) (LHead head) first (l1 ++ elm :: l2) →
  ∃ s' first', LIST_REMOVE elm s = Ok s'
        ∧ dirs s' = <[head := first']> (dirs s)
        ∧ chain (files s') (LHead head) first' (l1 ++ l2)
        ∧ relinked (files s) (files s')
        ∧ mem s' = mem s ∧ fh s' = fh s ∧ root s' = root s
        ∧ rootdir s' = rootdir s ∧ errno s' = errno s.
Proof.
  intros Hd He Hc.
  pose proof (chain_NoDup _ _ _ _ Hc) as Hnd.
  destruct (chain_remove _ _ _ _ _ _ _ Hnd He Hc) as (F1 & Hstep & Hrel & Hrest).
  unfold LIST_REMOVE, file_at. rewrite He. simpl.
  assert (Hs1 : (if le_next e =? NULL then Ok s
                 else n ← match files s !! le_next e with
                          | Some n => Ok n
                          | None => Err Undefined
                          end;
                      Ok (store_file (le_next e) (set_le_prev (le_prev e) n) s))
                = Ok (set_files F1 s)).
  { destruct Hstep as [(Hz & ->) | (Hnz & nb & Hnb & ->)].
    - rewrite Hz. simpl. by destruct s.
    - replace (le_next e =? NULL) with false by (unfold NULL in *; lia).
      by rewrite Hnb. }
  rewrite Hs1. simpl.
  destruct l1 as [|a l1].
  - destruct Hrest as (-> & Hc1). unfold dir_at. simpl. rewrite Hd. simpl.
    eexists _, _. split; [done|]. simpl. done.
  - destruct Hrest as (q & nq & -> & Hq & Hnq & Hc1).
    simpl. rewrite Hnq. simpl.
    eexists _, first. split; [done|]. simpl.
    split; [by rewrite insert_id|]. split; [done|]. split; [|done].
    destruct (relinked_lookup _ _ _ _ Hrel Hnq) as (nq0 & Hnq0 & Hpq).
    apply relinked_insert with nq0; [done|done|].
    eapply same_payload_trans; [done|]. by repeat split.
Qed.

End Relink.

(** ** Names and paths *)

Section Paths.
Context {opts : kos_opts}.

Lemma strtake_length s : strtake (String.length s) s = s.
Proof. induction s as [|c s IH]; simpl; [done | by rewrite IH]. Qed.

Lemma strchr_lt s c i : strchr s c = Some i → (i < String.length s)%nat.
Proof.
  revert i. induction s as [|a s IH]; intros i; simpl; [done|].
  destruct (Ascii.eqb a c).
  - intros [= <-]. lia.
  - destruct (strchr s c) as [j|]; simpl; [|done].
    intros [= <-]. specialize (IH j eq_refl). lia.
Qed.

Lemma strdrop_length n s : String.length (strdrop n s) = (String.length s - n)%nat.
Proof.
  revert s. induction n as [|n IH]; intros [|a s]; simpl; try done.
Qed.

Lemma strrchr_None s c : strrchr s c = None ↔ strchr s c = None.
Proof.
  induction s as [|a s IH]; simpl; [done|].
  destruct (strrchr s c) as [i|], (strchr s c) as [j|], (Ascii.eqb a c);
    simpl; try done; destruct IH as [H1 H2]; try (by specialize (H1 eq_refl));
    try (by specialize (H2 eq_refl)).
Qed.

(** The comparison of [ramdisk_find], on names with the case removed. *)
Lemma strncasecmp_lower a b n :
  (n ≤ String.length a)%nat → (n ≤ String.length b)%nat →
  strncasecmp a b n = 0 ↔ lower (strtake n a) = lower (strtake n b).
Proof.
  revert a b. induction n as [|n IH]; intros a b Ha Hb; simpl.
  - by destruct a, b.
  - destruct a as [|ca a], b as [|cb b]; simpl in *; try lia.
    destruct (tolower ca - tolower cb =? 0) eqn:E.
    + rewrite IH by lia. split; [intros ->; f_equal; lia | by intros [= _ ->]].
    + split; [lia | intros [= H _]; lia].
Qed.

Lemma name_match_lower name namelen nm :
  (namelen ≤ String.length name)%nat →
  name_match name namelen nm = true
  ↔ String.length nm = namelen ∧ lower (strtake namelen name) = lower nm.
Proof.
  intros Hlen. unfold name_match. rewrite andb_true_iff, Nat.eqb_eq, Z.eqb_eq.
  split.
  - intros [Hl Hc]. split; [done|].
    apply strncasecmp_lower in Hc; [|done|lia].
    rewrite Hc. by rewrite <- Hl, strtake_length.
  - intros [Hl Hc]. split; [done|].
    apply strncasecmp_lower; [done|lia|].
    rewrite Hc. by rewrite <- Hl, strtake_length.
Qed.

Lemma name_match_self nm : name_match nm (String.length nm) nm = true.
Proof. apply name_match_lower; [done|]. by rewrite strtake_length. Qed.

(** What [find_in] returns. *)
Lemma find_in_spec F prev p l name namelen :
  chain F prev p l →
  let f := find_in F l name namelen in
  (f = NULL ∧ ∀ a n, a ∈ l → F !! a = Some n → name_match name namelen (f_name n) = false)
  ∨ (∃ l1 l2 n, l = l1 ++ f :: l2 ∧ f ≠ NULL ∧ F !! f = Some n
       ∧ name_match name namelen (f_name n) = true
       ∧ ∀ a na, a ∈ l1 → F !! a = Some na →
           name_match name namelen (f_name na) = false).
Proof.
  induction 1 as [|prev a n l Ha Hn Hp Hc IH]; simpl.
  - left. split; [done|]. intros a n Hin. by apply elem_of_nil in Hin.
  - rewrite Hn. destruct (name_match name namelen (f_name n)) eqn:E.
    + right. exists [], l, n. split; [done|]. split; [done|]. split; [done|].
      split; [done|]. intros b nb Hin. by apply elem_of_nil in Hin.
    + destruct IH as [(Hnull & Hall) | (l1 & l2 & nf & Hl & Hf & Hnf & Hm & Hbefore)].
      * left. split; [done|]. intros b nb Hin Hnb.
        apply elem_of_cons in Hin as [-> | Hin]; [congruence | eauto].
      * right. exists (a :: l1), l2, nf. split; [by rewrite Hl at 1|].
        split; [done|]. split; [done|]. split; [done|].
        intros b nb Hin Hnb.
        apply elem_of_cons in Hin as [-> | Hin]; [congruence | eauto].
Qed.

Lemma find_in_elem F prev p l name namelen :
  chain F prev p l → find_in F l name namelen ≠ NULL →
  find_in F l name namelen ∈ l.
Proof.
  intros Hc Hf.
  destruct (find_in_spec F prev p l name namelen Hc) as [(? & _) | (l1 & l2 & n & Hl & _)];
    [done|].
  rewrite Hl at 2. apply elem_of_app. right. by left.
Qed.

(** The loop of [ramdisk_find] walks the list. *)
Lemma ramdisk_find_from_chain s prev p l name namelen fuel :
  chain (files s) prev p l → (length l < fuel)%nat →
  ramdisk_find_from fuel s p name namelen = Ok (find_in (files s) l name namelen).
Proof.
  intros Hc. revert fuel.
  induction Hc as [|prev a n l Ha Hn Hp Hc IH]; intros [|fuel] Hfuel; simpl in *; try lia.
  - done.
  - replace (a =? NULL) with false by (unfold NULL in *; lia).
    unfold file_at. rewrite Hn. simpl. fold (name_match name namelen (f_name n)).
    destruct (name_match name namelen (f_name n)); [done|].
    apply IH. lia.
Qed.

End Paths.

(** ** The tree of depth one *)

Section Tree.
Context {opts : kos_opts}.

Lemma tree_null F D r rd : tree_ok F D r rd → F !! NULL = None.
Proof.
  intros (Hr & Hrd & rn & first & l & Hrn & _ & _ & _ & Hc & _ & _ & Hdom & _).
  destruct (F !! NULL) eqn:E; [|done].
  destruct (proj1 (Hdom NULL)) as [E' | Hin]; [eauto | congruence |].
  by destruct (chain_lookup _ _ _ _ _ Hc Hin).
Qed.

(** The list of the root directory is the one [tree_ok] speaks of. *)
Lemma tree_children s l :
  tree_ok (files s) (dirs s) (root s) (rootdir s) → root_children s l →
  ∃ rn first,
    files s !! root s = Some rn ∧ f_type rn = STAT_TYPE_DIR ∧ f_data rn = rootdir s
    ∧ dirs s !! rootdir s = Some first
    ∧ chain (files s) (LHead (rootdir s)) first l
    ∧ NoDup l ∧ (root s ∉ l)
    ∧ (∀ a, is_Some (files s !! a) ↔ a = root s ∨ a ∈ l)
    ∧ (∀ a n, a ∈ l → files s !! a = Some n → f_type n = STAT_TYPE_FILE)
    ∧ (∀ a b na nb, a ∈ l → b ∈ l → files s !! a = Some na → files s !! b = Some nb →
         lower (f_name na) = lower (f_name nb) → a = b).
Proof.
  intros (Hr & Hrd & rn & first & l0 & Hrn & Ht & Hd & Hfirst & Hc & Hrest)
         (first' & Hfirst' & Hc').
  assert (first' = first) as -> by congruence.
  assert (l0 = l) as -> by (by eapply chain_functional).
  exists rn, first. eauto 10.
Qed.

Lemma tree_has_children s :
  tree_ok (files s) (dirs s) (root s) (rootdir s) → ∃ l, root_children s l.
Proof.
  intros (_ & _ & rn & first & l & _ & _ & _ & Hfirst & Hc & _).
  exists l, first. eauto.
Qed.

Lemma children_size s l :
  tree_ok (files s) (dirs s) (root s) (rootdir s) → root_children s l →
  (length l < S (size (files s)))%nat.
Proof.
  intros Ht Hl.
  destruct (tree_children s l Ht Hl) as (rn & first & _ & _ & _ & _ & Hc & Hnd & _ & Hdom & _).
  assert (Hsub : list_to_set (C := gset Z) l ⊆ dom (files s)).
  { intros a Ha. apply elem_of_list_to_set in Ha. apply elem_of_dom.
    apply Hdom. by right. }
  apply subseteq_size in Hsub.
  rewrite size_list_to_set in Hsub by done.
  rewrite size_dom in Hsub. lia.
Qed.

Lemma ramdisk_find_root s l name namelen :
  tree_ok (files s) (dirs s) (root s) (rootdir s) → root_children s l →
  ramdisk_find s (rootdir s) name namelen = Ok (find_in (files s) l name namelen).
Proof.
  intros Ht Hl. pose proof (children_size s l Ht Hl) as Hlen.
  destruct Hl as (first & Hfirst & Hc).
  unfold ramdisk_find, dir_at. rewrite Hfirst, bind_Ok_l.
  by eapply ramdisk_find_from_chain.
Qed.

(** Path resolution from the root reaches files of the root directory
    only, and never a directory. *)
Lemma find_path_loop_root s l fuel fn dir :
  tree_ok (files s) (dirs s) (root s) (rootdir s) → root_children s l →
  (String.length fn < fuel)%nat →
  ∃ f, ramdisk_find_path_loop fuel s (rootdir s) fn NULL dir = Ok f
       ∧ (f = NULL ∨ (f ∈ l ∧ dir = 0)).
Proof.
  intros Ht Hl.
  destruct (tree_children s l Ht Hl)
    as (rn & first & _ & _ & _ & _ & Hc & _ & _ & _ & Hfile & _).
  revert fn. induction fuel as [|fuel IH]; intros fn Hfuel; [lia|].
  simpl. destruct (strchr fn "/") as [cur|] eqn:Ecur.
  - pose proof (strchr_lt _ _ _ Ecur) as Hcur.
    assert (Hrest : (String.length (strdrop (S cur) fn) < fuel)%nat)
      by (rewrite strdrop_length; lia).
    destruct (cur =? 0)%nat; simpl; [by apply IH|].
    rewrite (ramdisk_find_root s l) by done. simpl.
    destruct (find_in (files s) l fn cur =? NULL) eqn:E; [eauto|].
    assert (Hin : find_in (files s) l fn cur ∈ l).
    { eapply find_in_elem; [done|]. unfold NULL in *. lia. }
    destruct (chain_lookup _ _ _ _ _ Hc Hin) as (_ & n & Hn).
    unfold file_at. rewrite Hn. simpl.
    rewrite (Hfile _ _ Hin Hn). simpl. eauto.
  - destruct fn as [|c fn].
    + destruct (dir =? 0); eauto.
    + rewrite (ramdisk_find_root s l) by done. simpl.
      set (f := find_in (files s) l (String c fn) (S (String.length fn))).
      destruct (f =? NULL) eqn:E; [eauto|].
      assert (Hin : f ∈ l).
      { eapply find_in_elem; [done|]. fold f. unfold NULL in *. lia. }
      destruct (chain_lookup _ _ _ _ _ Hc Hin) as (_ & n & Hn).
      unfold file_at. rewrite Hn. simpl.
      rewrite (Hfile _ _ Hin Hn). simpl.
      destruct (dir =? 0) eqn:Ed; simpl; [|eauto].
      exists f. split; [done|]. right. split; [done|lia].
Qed.

Lemma find_path_root s l fn dir :
  tree_ok (files s) (dirs s) (root s) (rootdir s) → root_children s l →
  ∃ f, ramdisk_find_path s (rootdir s) fn dir = Ok f ∧ (f = NULL ∨ (f ∈ l ∧ dir = 0)).
Proof. intros. apply find_path_loop_root; [done|done|lia]. Qed.

(** A name without a slash is looked up in the list. *)
Lemma find_path_plain s l fn :
  tree_ok (files s) (dirs s) (root s) (rootdir s) → root_children s l →
  strchr fn "/" = None → fn ≠ EmptyString →
  ramdisk_find_path s (rootdir s) fn 0
  = Ok (find_in (files s) l fn (String.length fn)).
Proof.
  intros Ht Hl Hno Hne.
  destruct (tree_children s l Ht Hl)
    as (rn & first & _ & _ & _ & _ & Hc & _ & _ & _ & Hfile & _).
  unfold ramdisk_find_path. simpl. rewrite Hno.
  destruct fn as [|c fn]; [done|].
  rewrite (ramdisk_find_root s l) by done. simpl.
  set (f := find_in (files s) l (String c fn) (S (String.length fn))).
  destruct (f =? NULL) eqn:E; [f_equal; unfold NULL in *; lia|].
  assert (Hin : f ∈ l).
  { eapply find_in_elem; [done|]. fold f. unfold NULL in *. lia. }
  destruct (chain_lookup _ _ _ _ _ Hc Hin) as (_ & n & Hn).
  unfold file_at. rewrite Hn. simpl.
  by rewrite (Hfile _ _ Hin Hn).
Qed.

(** A leading slash is skipped. *)
Lemma find_path_slash s parent fn dir :
  ramdisk_find_path s parent (String "/" fn) dir = ramdisk_find_path s parent fn dir.
Proof. done. Qed.

(** The parent of a path is found only if the path has no slash: there
    is no directory below the root. *)
Lemma get_parent_root s l fn :
  tree_ok (files s) (dirs s) (root s) (rootdir s) → root_children s l →
  ramdisk_get_parent true s (rootdir s) fn
  = Ok (match strchr fn "/" with
        | None => Some (rootdir s, fn)
        | Some _ => None
        end).
Proof.
  intros Ht Hl. unfold ramdisk_get_parent.
  destruct (strrchr fn "/") as [p|] eqn:E.
  - destruct (strchr fn "/") eqn:E'; [|apply strrchr_None in E'; congruence].
    simpl.
    destruct (find_path_root s l (strtake p fn) 1 Ht Hl) as (f & -> & [-> | [_ ?]]);
      [done | lia].
  - apply strrchr_None in E. by rewrite E.
Qed.

End Tree.

(** ** Preservation of well-formedness *)

Section Preservation.
Context {opts : kos_opts}.

Lemma lower_length s : length (lower s) = String.length s.
Proof. induction s; simpl; congruence. Qed.

Lemma relinked_forward F F' a n :
  relinked F F' → F !! a = Some n → ∃ n', F' !! a = Some n' ∧ same_payload n n'.
Proof. intros HR Hn. specialize (HR a). by rewrite Hn in HR. Qed.

Lemma relinked_is_Some F F' a : relinked F F' → is_Some (F' !! a) ↔ is_Some (F !! a).
Proof.
  intros HR. specialize (HR a). destruct (F !! a) as [n|].
  - destruct HR as (n' & -> & _). split; eauto.
  - rewrite HR. done.
Qed.

(** A node changes, but neither its name, its type nor its links, nor
    the list head of a directory. *)
Lemma tree_ok_insert_same F D r rd a n n' :
  F !! a = Some n →
  f_name n' = f_name n → f_type n' = f_type n →
  le_next n' = le_next n → le_prev n' = le_prev n →
  (f_type n = STAT_TYPE_DIR → f_data n' = f_data n) →
  tree_ok F D r rd → tree_ok (<[a := n']> F) D r rd.
Proof.
  intros Hn Hname Htype Hnext Hprev Hdata
    (Hr & Hrd & rn & first & l & Hrn & Ht & Hd & Hfirst & Hc & Hnd & Hrl & Hdom & Hfile & Hnames).
  split; [done|]. split; [done|].
  assert (Hroot : ∃ rn', <[a := n']> F !! r = Some rn'
                         ∧ f_type rn' = STAT_TYPE_DIR ∧ f_data rn' = rd).
  { destruct (decide (a = r)) as [->|Hne].
    - exists n'. rewrite lookup_insert_eq. assert (rn = n) as -> by congruence.
      split; [done|]. split; [congruence|]. rewrite Hdata; congruence.
    - exists rn. by rewrite lookup_insert_ne. }
  destruct Hroot as (rn' & Hrn' & Ht' & Hd').
  exists rn', first, l.
  split; [done|]. split; [done|]. split; [done|].
  split; [done|]. split; [by eapply chain_insert_links|].
  split; [done|]. split; [done|]. split.
  { intros b. rewrite lookup_insert. case_decide; [|apply Hdom].
    subst b. rewrite <- Hdom. split; eauto. }
  assert (Hback : ∀ b nb, <[a := n']> F !! b = Some nb →
            ∃ nb0, F !! b = Some nb0 ∧ f_name nb0 = f_name nb ∧ f_type nb0 = f_type nb).
  { intros b nb. rewrite lookup_insert. case_decide.
    - subst b. intros [= <-]. eauto.
    - eauto. }
  split.
  { intros b nb Hb Hnb. destruct (Hback b nb Hnb) as (nb0 & Hnb0 & _ & <-). eauto. }
  intros b c nb nc Hb Hcin Hnb Hnc.
  destruct (Hback b nb Hnb) as (nb0 & Hnb0 & <- & _).
  destruct (Hback c nc Hnc) as (nc0 & Hnc0 & <- & _). eauto.
Qed.

Lemma wf_same s s' :
  files s' = files s → dirs s' = dirs s → fh s' = fh s →
  root s' = root s → rootdir s' = rootdir s → wf s → wf s'.
Proof. unfold wf. by intros -> -> -> -> ->. Qed.

(** A slot changes, but neither the node it refers to nor its mode. *)
Lemma wf_fh_store s fd h h' :
  fh_at s fd = Ok h → fh_file h' = fh_file h →
  (fh_file h ≠ NULL → fh_omode h' = fh_omode h) →
  wf s → wf (fh_store fd h' s).
Proof.
  intros Hfh Hf Hm (Ht & Hh & Hr). apply fh_at_Ok in Hfh as [_ Hl].
  split; [done|]. split; [|done]. simpl. by eapply handles_ok_slot_same.
Qed.

(** A node changes, but nothing the tree or the locks depend on. *)
Lemma wf_store_file s a n n' :
  files s !! a = Some n →
  f_name n' = f_name n → f_type n' = f_type n →
  le_next n' = le_next n → le_prev n' = le_prev n →
  (f_type n = STAT_TYPE_DIR → f_data n' = f_data n) →
  f_usage n' = f_usage n → f_openfor n' = f_openfor n →
  wf s → wf (store_file a n' s).
Proof.
  intros Hn ? ? ? ? ? ? Ho (Ht & Hh & Hr). split; [|split]; simpl.
  - by eapply tree_ok_insert_same.
  - by eapply handles_ok_insert_same.
  - intros rn. rewrite lookup_insert. case_decide.
    + subst a. intros [= <-]. rewrite Ho. eauto.
    + apply Hr.
Qed.

(** A node locked for writing is a file. *)
Lemma wf_written_file s a n :
  wf s → files s !! a = Some n → f_openfor n = OPENFOR_WRITE →
  f_type n = STAT_TYPE_FILE.
Proof.
  intros (Ht & _ & Hr) Hn Hw.
  destruct (tree_has_children s Ht) as (l & Hl).
  destruct (tree_children s l Ht Hl) as (rn & first & Hrn & _ & _ & _ & _ & _ & _ & Hdom & Hfile & _).
  destruct (proj1 (Hdom a)) as [-> | Hin]; [eauto | | eauto].
  by destruct (Hr n Hn).
Qed.

Lemma wf_tell fd s v s' : wf s → ramdisk_tell fd s = Ok (v, s') → wf s'.
Proof. intros Hwf H. unfold ramdisk_tell in H. repeat ok_step H; done. Qed.

Lemma wf_total fd s v s' : wf s → ramdisk_total fd s = Ok (v, s') → wf s'.
Proof. intros Hwf H. unfold ramdisk_total in H. repeat ok_step H; done. Qed.

Lemma wf_mmap fd s v s' : wf s → ramdisk_mmap fd s = Ok (v, s') → wf s'.
Proof. intros Hwf H. unfold ramdisk_mmap in H. repeat ok_step H; done. Qed.

Lemma wf_stat path s v s' : wf s → ramdisk_stat path s = Ok (v, s') → wf s'.
Proof. intros Hwf H. unfold ramdisk_stat in H. repeat ok_step H; done. Qed.

Lemma wf_fstat fd s v s' : wf s → ramdisk_fstat fd s = Ok (v, s') → wf s'.
Proof. intros Hwf H. unfold ramdisk_fstat in H. repeat ok_step H; done. Qed.

Lemma wf_fcntl fd cmd s v s' : wf s → ramdisk_fcntl fd cmd s = Ok (v, s') → wf s'.
Proof. intros Hwf H. unfold ramdisk_fcntl in H. repeat ok_step H; done. Qed.

Lemma wf_read fd bytes s v s' : wf s → ramdisk_read fd bytes s = Ok (v, s') → wf s'.
Proof.
  intros Hwf H. unfold ramdisk_read in H. repeat ok_step H; try done.
  by eapply wf_fh_store.
Qed.

Lemma wf_seek fd offset whence s v s' :
  wf s → ramdisk_seek fd offset whence s = Ok (v, s') → wf s'.
Proof.
  intros Hwf H. unfold ramdisk_seek in H. repeat ok_step H; try done.
  by eapply wf_fh_store.
Qed.

Lemma wf_readdir fd s v s' : wf s → ramdisk_readdir fd s = Ok (v, s') → wf s'.
Proof.
  intros Hwf H. unfold ramdisk_readdir in H. repeat ok_step H; try done.
  by eapply wf_fh_store.
Qed.

Lemma wf_rewinddir fd s v s' : wf s → ramdisk_rewinddir fd s = Ok (v, s') → wf s'.
Proof.
  intros Hwf H. unfold ramdisk_rewinddir in H. repeat ok_step H; try done.
  by eapply wf_fh_store.
Qed.

Lemma mem_only_refl s : mem_only s s.
Proof. by repeat split. Qed.

Lemma mem_only_set_mem s m : mem_only s (set_mem m s).
Proof. by repeat split. Qed.

Lemma mem_only_trans s1 s2 s3 : mem_only s1 s2 → mem_only s2 s3 → mem_only s1 s3.
Proof.
  unfold mem_only. intros (?&?&?&?&?&?) (?&?&?&?&?&?). repeat split; congruence.
Qed.

Lemma mem_write_only p off src s s' : mem_write p off src s = Ok s' → mem_only s s'.
Proof.
  unfold mem_write. intros H. repeat ok_step H; apply mem_only_set_mem.
Qed.

Lemma free_mem_only p s s' : free_mem p s = Ok s' → mem_only s s'.
Proof.
  unfold free_mem. intros H. repeat ok_step H;
    [apply mem_only_refl | apply mem_only_set_mem].
Qed.

Lemma malloc_mem_only ok n s p s' : malloc_mem ok n s = (p, s') → mem_only s s'.
Proof.
  unfold malloc_mem. destruct ok; intros [= <- <-];
    [apply mem_only_set_mem | apply mem_only_refl].
Qed.

Lemma realloc_mem_only ok p n s q s' :
  realloc_mem ok p n s = Ok (q, s') → mem_only s s'.
Proof.
  unfold realloc_mem. intros H. repeat ok_step H.
  - by eapply malloc_mem_only.
  - eapply mem_only_trans; apply mem_only_set_mem.
  - apply mem_only_refl.
Qed.

Lemma wf_mem_only s s' : mem_only s s' → wf s → wf s'.
Proof. intros (?&?&?&?&?&?). by apply wf_same. Qed.

Lemma wf_write np_ok fd buf bytes s v s' :
  wf s → ramdisk_write np_ok fd buf bytes s = Ok (v, s') → wf s'.
Proof.
  intros Hwf H. unfold ramdisk_write in H.
  destruct (fd <? FS_RAMDISK_MAX_FILES); [|by ok_step H].
  apply bind_Ok in H as (h & Hh & H).
  destruct (negb (fh_file h =? NULL) && (fh_dir h =? 0)); [|by ok_step H].
  apply bind_Ok in H as (n & Hn & H).
  destruct (bool_decide (f_openfor n = OPENFOR_WRITE)) eqn:Hw; [|by ok_step H].
  apply bool_decide_eq_true in Hw.
  apply bind_Ok in H as (r & Hr & H).
  unfold file_at in Hn. destruct (files s !! fh_file h) as [n0|] eqn:Hn0; [|done].
  injection Hn as ->.
  (* the node and the state after the reallocation, if any *)
  assert (Hmid : r = None
            ∨ ∃ n1 s1, r = Some (n1, s1) ∧ wf s1
                ∧ files s1 !! fh_file h = Some n1 ∧ fh s1 = fh s
                ∧ f_name n1 = f_name n ∧ f_type n1 = f_type n
                ∧ le_next n1 = le_next n ∧ le_prev n1 = le_prev n
                ∧ f_usage n1 = f_usage n ∧ f_openfor n1 = f_openfor n).
  { destruct (f_datasize n <? u32 (fh_ptr h + bytes)).
    - apply bind_Ok in Hr as ([np s1] & Hre & Hr).
      apply realloc_mem_only in Hre as Hmo.
      destruct (np =? NULL); [left; congruence|].
      injection Hr as <-. right. eexists _, _. split; [done|].
      assert (Hn1 : files s1 !! fh_file h = Some n).
      { destruct Hmo as (-> & _). done. }
      split.
      { eapply wf_store_file; [done|done|done|done|done| |done|done|by eapply wf_mem_only].
        intros Hdir. rewrite (wf_written_file s _ n Hwf Hn0 Hw) in Hdir. done. }
      simpl. rewrite lookup_insert_eq. destruct Hmo as (_ & _ & -> & _). done.
    - injection Hr as <-. right. exists n, s. done. }
  destruct Hmid as [-> | (n1 & s1 & -> & Hwf1 & Hn1 & Hfh1 & Hrest)]; [by ok_step H|].
  destruct (Z.of_nat (length buf) <? bytes); [done|].
  apply bind_Ok in H as (s2 & Hs2 & H). injection H as <- <-.
  apply mem_write_only in Hs2 as Hmo.
  assert (Hwf2 : wf s2) by (by eapply wf_mem_only).
  assert (Hh2 : fh_at s2 fd = Ok h).
  { apply fh_at_Ok. apply fh_at_Ok in Hh as [? ?]. split; [done|].
    destruct Hmo as (_ & _ & -> & _). by rewrite Hfh1. }
  assert (Hwf3 : wf (fh_store fd (set_fh_ptr (u32 (fh_ptr h + bytes)) h) s2))
    by (by eapply wf_fh_store).
  destruct (f_size n1 <? _); [|done].
  destruct Hrest as (?&?&?&?&?&?).
  eapply (wf_store_file _ _ n1); [|..|exact Hwf3]; simpl; try done.
  destruct Hmo as (-> & _). done.
Qed.

Lemma sint_Ok z u : sint z = Ok u → u = z.
Proof. unfold sint. destruct (_ && _); [by intros [= <-] | done]. Qed.

Lemma wf_close fd s v s' : wf s → ramdisk_close fd s = Ok (v, s') → wf s'.
Proof.
  intros Hwf H. unfold ramdisk_close in H.
  destruct (fd <? FS_RAMDISK_MAX_FILES); [|by ok_step H].
  apply bind_Ok in H as (h & Hh & H).
  destruct (fh_file h =? NULL) eqn:Hf; simpl in H; [by ok_step H|].
  apply bind_Ok in H as (n & Hn & H).
  apply bind_Ok in H as (u & Hu & H). apply sint_Ok in Hu as ->.
  simpl in H. destruct (f_usage n - 1 <? 0); [done|].
  injection H as <- <-.
  unfold file_at in Hn. simpl in Hn.
  destruct (files s !! fh_file h) as [n0|] eqn:Hn0; [|done]. injection Hn as ->.
  apply fh_at_Ok in Hh as [_ Hl].
  destruct Hwf as (Ht & Hh & Hr).
  set (n' := if f_usage n - 1 =? 0
             then set_openfor OPENFOR_NOTHING (set_usage (f_usage n - 1) n)
             else set_usage (f_usage n - 1) n).
  assert (Hn' : f_name n' = f_name n ∧ f_type n' = f_type n
                ∧ le_next n' = le_next n ∧ le_prev n' = le_prev n
                ∧ f_data n' = f_data n ∧ f_usage n' = f_usage n - 1
                ∧ f_openfor n' = (if f_usage n' =? 0 then OPENFOR_NOTHING
                                  else f_openfor n)).
  { unfold n'. destruct (f_usage n - 1 =? 0) eqn:E; simpl; rewrite E; done. }
  destruct Hn' as (?&?&?&?&?&?&Ho).
  split; [|split]; simpl.
  - by eapply tree_ok_insert_same.
  - eapply handles_ok_close; try done.
    + by eapply tree_null.
    + unfold NULL in *. lia.
  - intros rn. rewrite lookup_insert. case_decide as E.
    + intros [= <-]. rewrite Ho. rewrite <- E in Hr.
      destruct (f_usage n' =? 0); [done | eauto].
    + apply Hr.
Qed.

Lemma handles_ok_relinked F F' H :
  relinked F F' → handles_ok F H → handles_ok F' H.
Proof.
  intros HR (Hlen & Hnodes & Hslots). split; [done|]. split.
  - intros a n' Hn'.
    destruct (relinked_lookup _ _ _ _ HR Hn') as (n & Hn & (_&_&_&Ho&Hu&_)).
    rewrite Ho, Hu. by apply Hnodes.
  - intros i h Hi Hf. destruct (Hslots i h Hi Hf) as (n & Hn & Ho).
    destruct (relinked_forward _ _ _ _ HR Hn) as (n' & Hn' & (_&_&_&Ho'&_)).
    exists n'. split; [done|]. congruence.
Qed.

Lemma root_not_written_relinked F F' r :
  relinked F F' → root_not_written F r → root_not_written F' r.
Proof.
  intros HR Hr rn' Hrn'.
  destruct (relinked_lookup _ _ _ _ HR Hrn') as (rn & Hrn & (_&_&_&Ho&_)).
  rewrite Ho. eauto.
Qed.

Lemma tree_ok_children F D r rd first l :
  tree_ok F D r rd → D !! rd = Some first → chain F (LHead rd) first l →
  r ≠ NULL ∧ rd ≠ NULL
  ∧ ∃ rn,
    F !! r = Some rn ∧ f_type rn = STAT_TYPE_DIR ∧ f_data rn = rd
    ∧ NoDup l ∧ (r ∉ l)
    ∧ (∀ a, is_Some (F !! a) ↔ a = r ∨ a ∈ l)
    ∧ (∀ a n, a ∈ l → F !! a = Some n → f_type n = STAT_TYPE_FILE)
    ∧ (∀ a b na nb, a ∈ l → b ∈ l → F !! a = Some na → F !! b = Some nb →
         lower (f_name na) = lower (f_name nb) → a = b).
Proof.
  intros (Hr & Hrd & rn & first0 & l0 & Hrn & Ht & Hd & Hfirst & Hc & Hrest) Hfirst' Hc'.
  assert (first0 = first) as -> by congruence.
  assert (l0 = l) as -> by (by eapply chain_functional).
  split; [done|]. split; [done|]. exists rn. eauto 10.
Qed.

(** A file is taken out of the list of the root and its node freed. *)
Lemma tree_ok_remove F F' D r rd first first' l1 f l2 :
  tree_ok F D r rd → D !! rd = Some first →
  chain F (LHead rd) first (l1 ++ f :: l2) →
  relinked F F' → chain F' (LHead rd) first' (l1 ++ l2) →
  tree_ok (delete f F') (<[rd := first']> D) r rd.
Proof.
  intros Ht Hfirst Hc HR Hc'.
  destruct (tree_ok_children _ _ _ _ _ _ Ht Hfirst Hc)
    as (Hr & Hrd & rn & Hrn & Htype & Hdata & Hnd & Hrl & Hdom & Hfile & Hnames).
  assert (Hf1 : f ∉ l1 ++ l2).
  { apply NoDup_app in Hnd as (Hnd1 & Hdisj & Hnd2).
    apply NoDup_cons in Hnd2 as [Hf2 _].
    intros Hin. apply elem_of_app in Hin as [Hin | Hin]; [|done].
    apply (Hdisj f Hin). by left. }
  assert (Hsub : ∀ a, a ∈ l1 ++ l2 → a ∈ l1 ++ f :: l2).
  { intros a Ha. apply elem_of_app in Ha as [Ha | Ha]; apply elem_of_app;
      [by left | right; by right]. }
  assert (Hrf : r ≠ f).
  { intros ->. apply Hrl. apply elem_of_app. right. by left. }
  destruct (relinked_forward _ _ _ _ HR Hrn) as (rn' & Hrn' & (_&_&Ht'&_&_&Hd'&_)).
  split; [done|]. split; [done|].
  exists rn', first', (l1 ++ l2).
  split; [by rewrite lookup_delete_ne|].
  split; [congruence|]. split; [congruence|].
  split; [apply lookup_insert_eq|].
  split; [by apply chain_delete_fresh|].
  split; [by eapply chain_NoDup|].
  split; [intros Hin; apply Hrl; by apply Hsub|].
  split.
  { intros a. rewrite lookup_delete. case_decide as E.
    - subst a. split; [by intros [? ?] | intros [? | ?]; congruence].
    - rewrite (relinked_is_Some _ _ _ HR), Hdom. split; (intros [? | Hin]; [by left|right]).
      + apply elem_of_app in Hin as [Hin | Hin]; apply elem_of_app; [by left|].
        apply elem_of_cons in Hin as [? | Hin]; [congruence | by right].
      + by apply Hsub. }
  split.
  { intros a n' Ha. rewrite lookup_delete. case_decide; [done|]. intros Hn'.
    destruct (relinked_lookup _ _ _ _ HR Hn') as (n & Hn & (_&_&Htn&_)).
    rewrite Htn. eapply Hfile; [by apply Hsub | done]. }
  intros a b na' nb' Ha Hb. rewrite !lookup_delete.
  repeat case_decide; try done. intros Hna' Hnb'.
  destruct (relinked_lookup _ _ _ _ HR Hna') as (na & Hna & (Hnn&_)).
  destruct (relinked_lookup _ _ _ _ HR Hnb') as (nb & Hnb & (Hnn'&_)).
  rewrite Hnn, Hnn'. eapply Hnames; eauto.
Qed.

Lemma wf_unlink fn s v s' : wf s → ramdisk_unlink fn s = Ok (v, s') → wf s'.
Proof.
  intros Hwf H. pose proof Hwf as (Ht & Hh & Hr).
  destruct (tree_has_children s Ht) as (l & Hl).
  unfold ramdisk_unlink in H.
  destruct (find_path_root s l fn 0 Ht Hl) as (f & Hf & Hin).
  rewrite Hf in H. simpl in H.
  destruct (f =? NULL) eqn:Ef; simpl in H; [by ok_step H|].
  destruct Hin as [-> | [Hin _]]; [done|].
  apply bind_Ok in H as (n & Hn & H).
  destruct (f_usage n =? 0) eqn:Eu; [|by ok_step H].
  apply bind_Ok in H as (s1 & Hs1 & H).
  apply bind_Ok in H as (s2 & Hs2 & H). injection H as <- <-.
  apply free_mem_only in Hs1 as (HF1 & HD1 & HH1 & HR1 & HRD1 & _).
  unfold file_at in Hn. destruct (files s !! f) as [n0|] eqn:Hn0; [|done].
  injection Hn as ->.
  destruct Hl as (first & Hfirst & Hc).
  apply list_elem_of_split in Hin as (l1 & l2 & ->).
  destruct (LIST_REMOVE_spec s1 (rootdir s) first f n l1 l2)
    as (s2' & first' & Hrem & HD2 & Hc2 & HR2 & _ & HH2 & HR2' & HRD2 & _);
    [congruence | congruence | by rewrite HF1 |].
  assert (s2' = s2) as -> by congruence.
  rewrite HF1 in HR2.
  destruct (relinked_forward _ _ _ _ HR2 Hn0) as (n' & Hn' & (_&_&_&_&Hu'&_)).
  split; [|split]; simpl.
  - rewrite HD2, HR2', HRD2, HD1, HR1, HRD1. by eapply tree_ok_remove.
  - rewrite HH2, HH1. eapply handles_ok_delete; [by eapply handles_ok_relinked|done|lia].
  - rewrite HR2', HR1. intros rn. rewrite lookup_delete. case_decide; [done|].
    by apply (root_not_written_relinked _ _ _ HR2).
Qed.

(** A new file is put at the head of the list of the root. *)
Lemma tree_ok_add F F' D r rd first l a n0 :
  tree_ok F D r rd → D !! rd = Some first → chain F (LHead rd) first l →
  F !! a = None → f_type n0 = STAT_TYPE_FILE →
  (∀ b nb, b ∈ l → F !! b = Some nb → lower (f_name nb) ≠ lower (f_name n0)) →
  relinked (<[a := n0]> F) F' → chain F' (LHead rd) a (a :: l) →
  tree_ok F' (<[rd := a]> D) r rd.
Proof.
  intros Ht Hfirst Hc Ha Htype0 Hfresh HR Hc'.
  destruct (tree_ok_children _ _ _ _ _ _ Ht Hfirst Hc)
    as (Hr & Hrd & rn & Hrn & Htype & Hdata & Hnd & Hrl & Hdom & Hfile & Hnames).
  assert (Har : a ≠ r) by (intros ->; congruence).
  assert (Hal : a ∉ l).
  { intros Hin. destruct (chain_lookup _ _ _ _ _ Hc Hin) as (_ & ? & ?). congruence. }
  assert (Hrn0 : <[a := n0]> F !! r = Some rn) by (by rewrite lookup_insert_ne).
  destruct (relinked_forward _ _ _ _ HR Hrn0) as (rn' & Hrn' & (_&_&Ht'&_&_&Hd'&_)).
  assert (Hback : ∀ b nb', F' !! b = Some nb' →
            ∃ nb, f_name nb' = f_name nb ∧ f_type nb' = f_type nb
                  ∧ ((b = a ∧ nb = n0) ∨ (b ≠ a ∧ F !! b = Some nb))).
  { intros b nb' Hnb'.
    destruct (relinked_lookup _ _ _ _ HR Hnb') as (nb & Hnb & (Hn1&_&Hn2&_)).
    exists nb. split; [done|]. split; [done|].
    rewrite lookup_insert in Hnb. case_decide; [left | right]; split; congruence. }
  split; [done|]. split; [done|].
  exists rn', a, (a :: l).
  split; [done|]. split; [congruence|]. split; [congruence|].
  split; [apply lookup_insert_eq|]. split; [done|].
  split; [by eapply chain_NoDup|].
  split; [intros Hin; apply elem_of_cons in Hin as [? | ?]; congruence|].
  split.
  { intros b. rewrite (relinked_is_Some _ _ _ HR), lookup_insert.
    case_decide as E.
    - subst b. split; [intros _; right; by left | eauto].
    - rewrite Hdom. split; (intros [? | Hin]; [by left|right]).
      + by right.
      + apply elem_of_cons in Hin as [? | ?]; [congruence | done]. }
  split.
  { intros b nb' Hb Hnb'.
    destruct (Hback b nb' Hnb') as (nb & _ & -> & [[-> ->] | [Hne Hnb]]); [done|].
    apply elem_of_cons in Hb as [? | Hb]; [congruence|]. eauto. }
  intros b c nb' nc' Hb Hcin Hnb' Hnc'.
  destruct (Hback b nb' Hnb') as (nb & -> & _ & [[-> ->] | [Hne Hnb]]);
    destruct (Hback c nc' Hnc') as (nc & -> & _ & [[-> ->] | [Hne' Hnc]]); try done.
  - apply elem_of_cons in Hcin as [? | Hcin]; [congruence|].
    intros E. by destruct (Hfresh c nc Hcin Hnc).
  - apply elem_of_cons in Hb as [? | Hb]; [congruence|].
    intros E. by destruct (Hfresh b nb Hb Hnb).
  - apply elem_of_cons in Hb as [? | Hb]; [congruence|].
    apply elem_of_cons in Hcin as [? | Hcin]; [congruence|]. eauto.
Qed.

Lemma get_parent_result ok s l fn r :
  tree_ok (files s) (dirs s) (root s) (rootdir s) → root_children s l →
  ramdisk_get_parent ok s (rootdir s) fn = Ok r →
  r = match strchr fn "/" with
      | None => Some (rootdir s, fn)
      | Some _ => None
      end.
Proof.
  intros Ht Hl H. pose proof (get_parent_root s l fn Ht Hl) as H'.
  unfold ramdisk_get_parent in *.
  destruct (strrchr fn "/") as [p|]; [|congruence].
  destruct ok; simpl in *; [congruence | done].
Qed.

(** What [ramdisk_create_file] does below the root: nothing, or a new
    file at the head of the list. *)
Lemma create_file_spec al s l fn f s' :
  tree_ok (files s) (dirs s) (root s) (rootdir s) → root_children s l →
  ramdisk_create_file al (rootdir s) fn 0 s = Ok (f, s') →
  (f = NULL ∧ s' = s)
  ∨ (f = fresh_addr s ∧ strchr fn "/" = None
     ∧ ∃ d, d ≠ NULL ∧ mem s !! d = None
       ∧ relinked (<[f := new_file fn d]> (files s)) (files s')
       ∧ chain (files s') (LHead (rootdir s)) f (f :: l)
       ∧ dirs s' = <[rootdir s := f]> (dirs s)
       ∧ mem s' = <[d := zeros 1024]> (mem s)
       ∧ fh s' = fh s ∧ root s' = root s ∧ rootdir s' = rootdir s
       ∧ errno s' = errno s).
Proof.
  intros Ht Hl H. unfold ramdisk_create_file in H.
  apply bind_Ok in H as (r & Hr & H).
  apply (get_parent_result _ _ l) in Hr; [|done|done].
  destruct (strchr fn "/") eqn:Eno; subst r; [left; by injection H as <- <-|].
  destruct (node_ok al); simpl in H; [|left; by injection H as <- <-].
  destruct (name_ok al); simpl in H; [|left; by injection H as <- <-].
  destruct (fresh_addr_spec s) as (Hf0 & Hff & _ & _).
  set (f0 := fresh_addr s) in *.
  set (n0 := {| f_name := fn; f_size := 0; f_type := STAT_TYPE_FILE;
                f_openfor := OPENFOR_NOTHING; f_usage := 0; f_data := NULL;
                f_datasize := 0; le_next := NULL; le_prev := LHead NULL |}) in *.
  unfold malloc_mem in H. destruct (data_ok al); simpl in H;
    [|left; by injection H as <- <-].
  destruct (fresh_addr_spec (store_file f0 n0 s)) as (Hd0 & _ & _ & Hdm).
  set (d := fresh_addr (store_file f0 n0 s)) in *.
  replace (d =? NULL) with false in H by (unfold NULL in *; lia).
  apply bind_Ok in H as (s3 & Hs3 & H). injection H as <- <-.
  right. split; [done|]. split; [done|].
  exists d. split; [done|]. split; [done|].
  destruct Hl as (first & Hfirst & Hc).
  assert (Hfl : f0 ∉ l).
  { intros Hin. destruct (chain_lookup _ _ _ _ _ Hc Hin) as (_ & ? & ?). congruence. }
  match type of Hs3 with LIST_INSERT_HEAD _ _ ?x = _ => set (sx := x) in * end.
  destruct (LIST_INSERT_HEAD_spec sx (rootdir s) f0 first (new_file fn d) l)
    as (s3' & Hins & HD & Hc3 & HR & HM & HH & HRt & HRd & HE).
  - done.
  - simpl. by rewrite lookup_insert_eq.
  - simpl. apply chain_insert_fresh; [done|]. by apply chain_insert_fresh.
  - done.
  - done.
  - assert (s3' = s3) as -> by congruence.
    simpl in HR. rewrite insert_insert_eq in HR. done.
Qed.

(** A name that [ramdisk_find] does not find differs from every name of
    the list, even without case. *)
Lemma find_in_NULL_fresh F prev p l fn :
  chain F prev p l → find_in F l fn (String.length fn) = NULL →
  ∀ b nb, b ∈ l → F !! b = Some nb → lower (f_name nb) ≠ lower fn.
Proof.
  intros Hc Hnull b nb Hb Hnb E.
  destruct (find_in_spec F prev p l fn (String.length fn) Hc)
    as [(_ & Hall) | (l1 & l2 & n & _ & Hf & _)]; [|congruence].
  specialize (Hall b nb Hb Hnb).
  assert (name_match fn (String.length fn) (f_name nb) = true); [|congruence].
  apply name_match_lower; [done|]. rewrite strtake_length. split; [|done].
  apply (f_equal length) in E. by rewrite !lower_length in E.
Qed.

Lemma wf_create al s fn f s' :
  wf s → fn ≠ EmptyString →
  ramdisk_find_path s (rootdir s) fn 0 = Ok NULL →
  ramdisk_create_file al (rootdir s) fn 0 s = Ok (f, s') →
  wf s' ∧ (f ≠ NULL → ∃ d n, files s' !! f = Some n ∧ same_payload (new_file fn d) n).
Proof.
  intros Hwf Hne Hfind H. pose proof Hwf as (Ht & Hh & Hr).
  destruct (tree_has_children s Ht) as (l & Hl).
  destruct (create_file_spec al s l fn f s' Ht Hl H)
    as [[-> ->] | (Hf & Hno & d & Hd & Hdm & HR & Hc & HD & HM & HH & HRt & HRd & HE)];
    [done|].
  destruct (fresh_addr_spec s) as (Hf0 & Hff & _ & _). rewrite <- Hf in *.
  rewrite (find_path_plain s l fn Ht Hl Hno Hne) in Hfind. injection Hfind as Hfind.
  pose proof Hl as (first & Hfirst & Hcl).
  split.
  - split; [|split].
    + rewrite HD, HRt, HRd. eapply (tree_ok_add _ _ _ _ _ first l f (new_file fn d));
        try done.
      by eapply find_in_NULL_fresh.
    + rewrite HH. eapply handles_ok_relinked; [done|].
      eapply handles_ok_insert_new; try done.
    + rewrite HRt. eapply root_not_written_relinked; [done|].
      intros rn. rewrite lookup_insert. case_decide; [by intros [= <-]|]. apply Hr.
  - intros _. exists d.
    apply (relinked_forward _ _ f (new_file fn d)) in HR; [done|].
    apply lookup_insert_eq.
Qed.

(** The scan for a free slot. *)
Lemma free_fd_from_spec fuel fd0 s fd :
  free_fd_from fuel fd0 s = Ok fd →
  fd0 ≤ fd
  ∧ (fd < FS_RAMDISK_MAX_FILES → ∃ h, fh_at s fd = Ok h ∧ fh_file h = NULL)
  ∧ (∀ j, fd0 ≤ j < fd → ∃ hj, fh_at s j = Ok hj ∧ fh_file hj ≠ NULL).
Proof.
  revert fd0. induction fuel as [|fuel IH]; intros fd0 H; simpl in H; [done|].
  destruct (fd0 <? FS_RAMDISK_MAX_FILES) eqn:E.
  - apply bind_Ok in H as (h & Hh & H).
    destruct (fh_file h =? NULL) eqn:E0.
    + injection H as <-. split; [lia|]. split; [|lia].
      intros _. exists h. split; [done | unfold NULL in *; lia].
    + destruct (IH _ H) as (H1 & H2 & H3). split; [lia|]. split; [done|].
      intros j Hj. destruct (decide (j = fd0)) as [->|Hne].
      * exists h. split; [done | unfold NULL in *; lia].
      * apply H3. lia.
  - injection H as <-. split; [lia|]. split; lia.
Qed.

Lemma free_fd_from_total fuel fd0 s :
  length (fh s) = Z.to_nat FS_RAMDISK_MAX_FILES → 0 ≤ fd0 →
  (Z.to_nat (FS_RAMDISK_MAX_FILES - fd0) < fuel)%nat →
  ∃ fd, free_fd_from fuel fd0 s = Ok fd.
Proof.
  intros Hlen. revert fd0. induction fuel as [|fuel IH]; intros fd0 H0 Hfuel; [lia|].
  simpl. destruct (fd0 <? FS_RAMDISK_MAX_FILES) eqn:E; [|eauto].
  destruct (lookup_lt_is_Some_2 (fh s) (Z.to_nat fd0)) as (h & Hh); [lia|].
  assert (Hat : fh_at s fd0 = Ok h) by (apply fh_at_Ok; split; [lia|done]).
  rewrite Hat. simpl. destruct (fh_file h =? NULL); [eauto|].
  apply IH; lia.
Qed.

Lemma find_free_fd_spec s fd :
  find_free_fd s = Ok fd →
  1 ≤ fd
  ∧ (fd < FS_RAMDISK_MAX_FILES → ∃ h, fh_at s fd = Ok h ∧ fh_file h = NULL)
  ∧ (∀ j, 1 ≤ j < fd → ∃ hj, fh_at s j = Ok hj ∧ fh_file hj ≠ NULL).
Proof. apply free_fd_from_spec. Qed.

Lemma find_free_fd_total s :
  length (fh s) = Z.to_nat FS_RAMDISK_MAX_FILES → ∃ fd, find_free_fd s = Ok fd.
Proof. intros. apply free_fd_from_total; [done | lia | lia]. Qed.

(** A handle is taken on the node [f] through the free slot [fd]: the
    shape of every successful end of [ramdisk_open]. *)
Lemma wf_commit s f n fd h0 hF nF sF :
  wf s → files s !! f = Some n → fh_at s fd = Ok h0 → fh_file h0 = NULL →
  files sF = <[f := nF]> (files s) → fh sF = <[Z.to_nat fd := hF]> (fh s) →
  dirs sF = dirs s → root sF = root s → rootdir sF = rootdir s →
  fh_file hF = f →
  f_name nF = f_name n → f_type nF = f_type n →
  le_next nF = le_next n → le_prev nF = le_prev n →
  (f_type n = STAT_TYPE_DIR → f_data nF = f_data n) →
  f_usage nF = f_usage n + 1 →
  (Z.land (fh_omode hF) O_MODE_MASK = O_RDONLY
   ∧ f_openfor n ≠ OPENFOR_WRITE ∧ f_openfor nF = OPENFOR_READ)
  ∨ (Z.land (fh_omode hF) O_MODE_MASK ≠ O_RDONLY
     ∧ f_type n ≠ STAT_TYPE_DIR
     ∧ f_openfor n = OPENFOR_NOTHING ∧ f_openfor nF = OPENFOR_WRITE) →
  wf sF.
Proof.
  intros (Ht & Hh & Hr) Hn Hfd H0 HF HH HD HRt HRd HfF ? ? ? ? ? ? Hmode.
  apply fh_at_Ok in Hfd as [_ Hl].
  unfold wf. rewrite HF, HH, HD, HRt, HRd. split; [|split].
  - by eapply tree_ok_insert_same.
  - eapply handles_ok_open; try done.
    + by eapply tree_null.
    + destruct Hmode as [? | (?&?&?&?)]; [by left | by right].
  - intros rn. rewrite lookup_insert. case_decide as E.
    + intros [= <-]. destruct Hmode as [(_&_&->) | (_&Hnd&_)]; [done|].
      destruct Ht as (_ & _ & rn & ? & ? & Hrn & Hty & _).
      rewrite <- E in Hrn. congruence.
    + apply Hr.
Qed.

(** The first phase of [ramdisk_open]: the node is looked up, or made. *)
Lemma wf_open_lookup al s fn mode f s1 :
  wf s →
  match fn with
  | EmptyString => Ok (root s, s)
  | String _ _ =>
      f ← ramdisk_find_path s (rootdir s) fn (Z.land mode O_DIR);
      if f =? NULL then
        if negb (Z.land mode O_MODE_MASK =? O_RDONLY) && (Z.land mode O_DIR =? 0)
        then ramdisk_create_file al (rootdir s) fn (Z.land mode O_DIR) s
        else Ok (NULL, s)
      else Ok (f, s)
  end = Ok (f, s1) →
  wf s1.
Proof.
  intros Hwf H. destruct fn as [|c fn]; [by injection H as <- <-|].
  apply bind_Ok in H as (f0 & Hf0 & H).
  destruct (f0 =? NULL) eqn:E0; [|by injection H as <- <-].
  destruct (negb _ && (Z.land mode O_DIR =? 0)) eqn:Ew; [|by injection H as <- <-].
  apply andb_true_iff in Ew as [_ Ed].
  apply Z.eqb_eq in Ed. rewrite Ed in *.
  apply Z.eqb_eq in E0 as ->.
  by destruct (wf_create al s (String c fn) f s1 Hwf).
Qed.

(** [ramdisk_open] keeps the state well formed; the handle it returns
    is on a live node, holds the flags of the call, and is on a file
    unless a directory was asked for. *)
Lemma open_result al fn mode s v s' :
  wf s → ramdisk_open al fn mode s = Ok (v, s') →
  wf s'
  ∧ (v ≠ NULL →
     ∃ h n, fh_at s' v = Ok h ∧ fh_file h ≠ NULL ∧ files s' !! fh_file h = Some n
            ∧ fh_omode h = mode ∧ fh_dir h = Z.land mode O_DIR
            ∧ (Z.land mode O_DIR = 0 → f_type n = STAT_TYPE_FILE)
            ∧ (Z.land mode O_DIR ≠ 0 → dirs s' !! f_data n = Some (fh_ptr h))).
Proof.
  intros Hwf H. unfold ramdisk_open in H.
  set (mm := Z.land mode O_MODE_MASK) in *.
  set (fn' := match fn with String "/" fn' => fn' | _ => fn end) in *.
  destruct (negb (Z.land mode O_DIR =? 0) && negb (mm =? O_RDONLY)) eqn:Eg;
    [by injection H as <- <-|].
  destruct (root s =? NULL); [done|].
  apply bind_Ok in H as ([f s1] & Hlook & H).
  apply wf_open_lookup in Hlook; [|done]. clear Hwf s. rename s1 into s, Hlook into Hwf.
  destruct (f =? NULL) eqn:Ef; [by injection H as <- <-|].
  apply bind_Ok in H as (n & Hn & H).
  unfold file_at in Hn. destruct (files s !! f) as [n0|] eqn:Hn0; [|done].
  injection Hn as ->.
  destruct (bool_decide (f_type n = STAT_TYPE_DIR) && _) eqn:Et;
    [by injection H as <- <-|].
  apply bind_Ok in H as (fd & Hfd & H).
  destruct (FS_RAMDISK_MAX_FILES <=? fd) eqn:Efull; [by injection H as <- <-|].
  apply find_free_fd_spec in Hfd as (Hfd1 & Hfree & _).
  destruct Hfree as (h0 & Hh0 & Hfile0); [lia|].
  destruct (bool_decide (f_openfor n = OPENFOR_WRITE)) eqn:Ew.
  { unfold error_out in H. rewrite Hh0 in H. injection H as <- <-.
    split; [by eapply wf_fh_store | done]. }
  apply bool_decide_eq_false in Ew.
  rewrite Hh0 in H. simpl in H.
  set (h1 := set_fh_omode mode (set_fh_dir (Z.land mode O_DIR) (set_fh_file f h0))) in *.
  apply bind_Ok in H as (r & Hr & H).
  assert (Hh1 : fh_at (fh_store fd h1 s) fd = Ok h1) by (by eapply fh_at_store_eq).
  (* the state when the lock is taken *)
  assert (Hmid : r = None
    ∨ ∃ sM nM hM, r = Some sM
        ∧ files sM = <[f := nM]> (files s)
        ∧ fh sM = <[Z.to_nat fd := hM]> (fh s)
        ∧ dirs sM = dirs s ∧ root sM = root s ∧ rootdir sM = rootdir s
        ∧ fh_file hM = f ∧ fh_omode hM = mode ∧ fh_dir hM = Z.land mode O_DIR
        ∧ f_name nM = f_name n ∧ f_type nM = f_type n
        ∧ le_next nM = le_next n ∧ le_prev nM = le_prev n
        ∧ (f_type n = STAT_TYPE_DIR → f_data nM = f_data n)
        ∧ f_usage nM = f_usage n
        ∧ ((mm = O_RDONLY ∧ f_openfor nM = OPENFOR_READ)
           ∨ (mm ≠ O_RDONLY ∧ f_type n ≠ STAT_TYPE_DIR
              ∧ f_openfor n = OPENFOR_NOTHING ∧ f_openfor nM = OPENFOR_WRITE))).
  { destruct (mm =? O_RDONLY) eqn:Em.
    - injection Hr as <-. right. eexists _, _, _. split; [done|]. simpl.
      rewrite list_insert_insert_eq.
      split_and!; try done. left. split; [lia|done].
    - assert (Hnd : f_type n ≠ STAT_TYPE_DIR).
      { intros Hd. rewrite Hd in Et. rewrite bool_decide_eq_true_2 in Et by done.
        simpl in Et. apply orb_false_iff in Et as [_ Et]. done. }
      assert (Hno : f_openfor n ≠ OPENFOR_READ → f_openfor n = OPENFOR_NOTHING)
        by (destruct (f_openfor n); done).
      destruct (negb (Z.land mm O_RDWR =? 0) || negb (Z.land mm O_WRONLY =? 0));
        [|done].
      destruct (bool_decide (f_openfor n = OPENFOR_READ)) eqn:Er;
        [left; congruence|].
      apply bool_decide_eq_false in Er. right.
      destruct (negb (Z.land mode O_APPEND =? 0)).
      { injection Hr as <-. eexists _, _, _. split; [done|]. simpl.
        rewrite list_insert_insert_eq.
        split_and!; try done. right. split; [lia|]. auto. }
      destruct (negb (Z.land mode O_TRUNC =? 0)).
      { apply bind_Ok in Hr as (s2 & Hs2 & Hr).
        destruct (malloc_mem (trunc_ok al) 1024 s2) as [d s3] eqn:Hs3.
        injection Hr as <-.
        apply free_mem_only in Hs2 as (HF2 & HD2 & HH2 & HR2 & HRD2 & _).
        apply malloc_mem_only in Hs3 as (HF3 & HD3 & HH3 & HR3 & HRD3 & _).
        eexists _, _, _. split; [done|]. simpl.
        rewrite HF3, HF2, HH3, HH2, HD3, HD2, HR3, HR2, HRD3, HRD2. simpl.
        rewrite list_insert_insert_eq, insert_insert_eq.
        split_and!; try done; try (by intros ?).
        right. split; [lia|]. auto. }
      injection Hr as <-. eexists _, _, _. split; [done|]. simpl.
      rewrite list_insert_insert_eq.
      split_and!; try done. right. split; [lia|]. auto. }
  destruct Hmid as [-> | (sM & nM & hM & -> & HF & HH & HD & HRt & HRd & HfM & HoM & HdM
                          & ? & HtM & ? & ? & ? & HuM & Hmode)].
  { unfold error_out in H. rewrite Hh1 in H. injection H as <- <-.
    pose proof Hh0 as Hh0'. apply fh_at_Ok in Hh0' as [_ Hl0].
    split; [|done].
    destruct Hwf as (Ht & Hh & Hr'). split; [done|]. split; [|done]. simpl.
    rewrite list_insert_insert_eq. by eapply handles_ok_slot_same. }
  pose proof Hh0 as Hh0'. apply fh_at_Ok in Hh0' as [Hfdr Hl0].
  assert (HhM : fh_at sM fd = Ok hM).
  { apply fh_at_Ok. split; [done|]. rewrite HH.
    apply list_lookup_insert_eq. by eapply lookup_lt_Some. }
  apply bind_Ok in H as (s3 & Hs3 & H).
  assert (Hs3' : ∃ h3, files s3 = files sM ∧ fh s3 = <[Z.to_nat fd := h3]> (fh s)
                       ∧ dirs s3 = dirs sM ∧ root s3 = root sM ∧ rootdir s3 = rootdir sM
                       ∧ fh_file h3 = f ∧ fh_omode h3 = mode
                       ∧ fh_dir h3 = Z.land mode O_DIR
                       ∧ (Z.land mode O_DIR ≠ 0 →
                          dirs sM !! f_data nM = Some (fh_ptr h3))).
  { destruct (negb (Z.land mode O_DIR =? 0)) eqn:Edir.
    - apply bind_Ok in Hs3 as (n3 & Hn3 & Hs3).
      apply bind_Ok in Hs3 as (first & Hfirst & Hs3).
      rewrite HhM in Hs3. injection Hs3 as <-.
      unfold file_at in Hn3. rewrite HF, lookup_insert_eq in Hn3. injection Hn3 as <-.
      unfold dir_at in Hfirst.
      destruct (dirs sM !! f_data nM) as [first'|] eqn:Ed'; [|done].
      injection Hfirst as ->.
      eexists. simpl. rewrite HH, list_insert_insert_eq. done.
    - injection Hs3 as <-. exists hM. split_and!; try done.
      intros Hnz. apply negb_false_iff, Z.eqb_eq in Edir. done. }
  destruct Hs3' as (h3 & HF3 & HH3 & HD3 & HRt3 & HRd3 & Hf3 & Ho3 & Hd3 & Hp3).
  apply bind_Ok in H as (n3 & Hn3 & H).
  unfold file_at in Hn3. rewrite HF3, HF, lookup_insert_eq in Hn3. injection Hn3 as <-.
  apply bind_Ok in H as (u & Hu & H). apply sint_Ok in Hu as ->.
  injection H as <- <-.
  split.
  - eapply (wf_commit s f n fd h0 h3 (set_usage (f_usage nM + 1) nM)); try done.
    + simpl. by rewrite HF3, HF, insert_insert_eq.
    + simpl. congruence.
    + simpl. congruence.
    + simpl. congruence.
    + simpl. congruence.
    + simpl. rewrite Ho3. fold mm.
      destruct Hmode as [(? & ?) | (? & ? & ? & ?)]; [left | right]; done.
  - intros _. exists h3, (set_usage (f_usage nM + 1) nM).
    split.
    { apply fh_at_Ok. split; [done|]. simpl. rewrite HH3.
      apply list_lookup_insert_eq. by eapply lookup_lt_Some. }
    rewrite Hf3. split; [unfold NULL in *; lia|].
    split; [simpl; apply lookup_insert_eq|].
    split; [done|]. split; [done|]. split.
    + intros Hd0. simpl. rewrite HtM. rewrite Hd0 in Et. simpl in Et.
      rewrite andb_true_r in Et. apply bool_decide_eq_false in Et.
      by destruct (f_type n).
    + intros Hnz. simpl. rewrite HD3. by apply Hp3.
Qed.

Lemma wf_open al fn mode s v s' : wf s → ramdisk_open al fn mode s = Ok (v, s') → wf s'.
Proof. intros Hwf H. by destruct (open_result al fn mode s v s' Hwf H). Qed.

Lemma wf_attach al fn obj size s v s' :
  attach_flags_plain → wf s → fs_ramdisk_attach al fn obj size s = Ok (v, s') → wf s'.
Proof.
  intros Hflags Hwf H. unfold fs_ramdisk_attach in H.
  apply bind_Ok in H as ([fd s1] & Hopen & H).
  destruct (open_result _ _ _ _ _ _ Hwf Hopen) as (Hwf1 & Hpost).
  destruct (fd =? NULL) eqn:Efd; [by injection H as <- <-|].
  destruct Hpost as (h & n & Hh & Hf & Hn & _ & _ & Hfile & _); [unfold NULL in *; lia|].
  rewrite Hh in H. simpl in H. unfold file_at in H. rewrite Hn in H. simpl in H.
  apply bind_Ok in H as (s2 & Hs2 & H).
  apply bind_Ok in H as ([v' s3] & Hclose & H). injection H as <- <-.
  apply free_mem_only in Hs2 as Hmo.
  eapply wf_close; [|done].
  eapply (wf_store_file _ _ n); [|..|by eapply wf_mem_only]; simpl; try done.
  - destruct Hmo as (-> & _). done.
  - intros Hd. rewrite (Hfile Hflags) in Hd. done.
Qed.

Lemma wf_detach fake_ok fn s v s' :
  wf s → fs_ramdisk_detach fake_ok fn s = Ok (v, s') → wf s'.
Proof.
  intros Hwf H. unfold fs_ramdisk_detach in H.
  apply bind_Ok in H as ([fd s1] & Hopen & H).
  destruct (open_result _ _ _ _ _ _ Hwf Hopen) as (Hwf1 & Hpost).
  destruct (fd =? NULL) eqn:Efd; [by injection H as <- <-|].
  destruct Hpost as (h & n & Hh & Hf & Hn & _ & _ & Hfile & _); [unfold NULL in *; lia|].
  rewrite Hh in H. simpl in H. unfold file_at in H. rewrite Hn in H. simpl in H.
  destruct (malloc_mem fake_ok 64 s1) as [d s2] eqn:Hs2.
  apply bind_Ok in H as ([v' s3] & Hclose & H).
  apply bind_Ok in H as ([v'' s4] & Hunlink & H). injection H as <- <-.
  apply malloc_mem_only in Hs2 as Hmo.
  eapply wf_unlink; [|done]. eapply wf_close; [|done].
  eapply (wf_store_file _ _ n); [|..|by eapply wf_mem_only]; simpl; try done.
  - destruct Hmo as (-> & _). done.
  - intros Hd. rewrite Hfile in Hd; [done|]. unfold O_RDONLY. apply Z.land_0_l.
Qed.

Lemma wf_init a b c s : wf s → wf (fs_ramdisk_init a b c s).
Proof.
  intros Hwf. unfold fs_ramdisk_init.
  pose proof Hwf as ((_ & Hrd & _) & _).
  by replace (rootdir s =? NULL) with false by (unfold NULL in *; lia).
Qed.

Lemma handles_on_zero a n : a ≠ NULL → handles_on a (replicate n fh_zero) = O.
Proof.
  intros Ha. unfold handles_on. induction n as [|n IH]; [done|].
  simpl. rewrite filter_cons. rewrite decide_False; [done|]. simpl. congruence.
Qed.

Lemma wf_fresh_fs : wf fresh_fs.
Proof.
  unfold fresh_fs, fs_ramdisk_init. simpl.
  set (s1 := set_rootdir (fresh_addr boot) (set_dirs (<[fresh_addr boot := NULL]> (dirs boot)) boot)).
  destruct (fresh_addr_spec boot) as (Hd & _).
  destruct (fresh_addr_spec s1) as (Hr & _ & Hrd & _).
  set (d := fresh_addr boot) in *. set (r := fresh_addr s1) in *.
  split; [|split]; simpl.
  - split; [done|]. split; [done|].
    eexists _, NULL, []. split; [apply lookup_insert_eq|].
    split; [done|]. split; [done|]. split; [apply lookup_insert_eq|].
    split; [constructor|]. split; [constructor|]. split; [by intros ?%elem_of_nil|].
    split.
    { intros a. rewrite lookup_insert. case_decide.
      - split; [by left | eauto].
      - rewrite lookup_empty. split; [by intros [? ?]|].
        intros [? | []%elem_of_nil]; congruence. }
    split; [by intros ?? ?%elem_of_nil|].
    by intros ???? ?%elem_of_nil.
  - split; [by rewrite length_replicate|]. split.
    + intros a n. rewrite lookup_insert. case_decide; [|by rewrite lookup_empty].
      intros [= <-]. simpl. subst a. rewrite handles_on_zero by done. done.
    + intros i h Hi. apply lookup_replicate in Hi as [-> _]. done.
  - intros rn. rewrite lookup_insert_eq. by intros [= <-].
Qed.

(** Every call keeps the state well formed. *)
Lemma wf_run c s s' : attach_flags_plain → wf s → run c s = Ok s' → wf s'.
Proof.
  intros Hflags Hwf H. destruct c; simpl in H;
    try (apply fmap_Ok in H as ([v s1] & H & ->); simpl).
  - injection H as <-. by apply wf_init.
  - by eapply wf_open.
  - by eapply wf_close.
  - by eapply wf_read.
  - by eapply wf_write.
  - by eapply wf_seek.
  - by eapply wf_tell.
  - by eapply wf_total.
  - by eapply wf_readdir.
  - by eapply wf_unlink.
  - by eapply wf_mmap.
  - by eapply wf_stat.
  - by eapply wf_fcntl.
  - by eapply wf_rewinddir.
  - by eapply wf_fstat.
  - by eapply wf_attach.
  - by eapply wf_detach.
  - injection H as <-. done.
Qed.

(** Every reachable state is well formed. *)
Lemma reachable_wf s : attach_flags_plain → reachable s → wf s.
Proof.
  intros Hflags. induction 1 as [|c s s' _ IH Hrun].
  - apply wf_fresh_fs.
  - by eapply wf_run.
Qed.

End Preservation.

(** ** The exclusion of writers *)

Section Exclusion.
Context {opts : kos_opts}.

Lemma same_but_free_slots_refl s : same_but_free_slots s s.
Proof. unfold same_but_free_slots. split_and!; try done. eauto. Qed.

(** A free slot is overwritten with a free slot. *)
Lemma same_but_free_slots_store s fd h0 hX :
  fh_at s fd = Ok h0 → fh_file h0 = NULL → fh_file hX = NULL →
  same_but_free_slots s (fh_store fd hX s).
Proof.
  intros Hh0 H0 HX. apply fh_at_Ok in Hh0 as [_ Hl].
  unfold same_but_free_slots. simpl. split_and!; try done.
  - by rewrite length_insert.
  - intros i h Hi. destruct (decide (i = Z.to_nat fd)) as [->|Hne].
    + exists hX. rewrite list_lookup_insert_eq by (by eapply lookup_lt_Some).
      assert (h = h0) as -> by congruence. split; [done|]. split; [congruence|done].
    + exists h. by rewrite list_lookup_insert_ne.
Qed.

(** An open that meets the lock of the node returns [NULL] and leaves
    nodes, blocks and handles as they were. *)
Lemma open_busy al fn mode s f n :
  wf s → open_target s fn mode f → files s !! f = Some n →
  f_openfor n = OPENFOR_WRITE ∨ (f_openfor n = OPENFOR_READ ∧ writable_mode mode) →
  ∃ s', ramdisk_open al fn mode s = Ok (NULL, s') ∧ same_but_free_slots s s'.
Proof.
  intros Hwf Htarget Hn Hbusy. unfold ramdisk_open.
  pose proof Hwf as (Ht & (Hlen & _) & _).
  pose proof Ht as (Hr & _).
  set (mm := Z.land mode O_MODE_MASK).
  destruct (negb (Z.land mode O_DIR =? 0) && negb (mm =? O_RDONLY)) eqn:Eg.
  { eexists. split; [done|]. apply same_but_free_slots_refl. }
  replace (root s =? NULL) with false by (unfold NULL in *; lia).
  assert (Hf : f ≠ NULL).
  { unfold open_target in Htarget.
    destruct (strip_slash fn); [by subst f | by destruct Htarget]. }
  match goal with
  | |- ∃ s', ?m ≫= _ = _ ∧ _ => assert (Hlook : m = Ok (f, s))
  end.
  { unfold open_target, strip_slash in Htarget.
    destruct (match fn with String "/" fn' => fn' | _ => fn end) as [|c fn'].
    - by subst f.
    - destruct Htarget as [Hfp _]. rewrite Hfp. simpl.
      by replace (f =? NULL) with false by (unfold NULL in *; lia). }
  rewrite Hlook. simpl.
  replace (f =? NULL) with false by (unfold NULL in *; lia).
  unfold file_at. rewrite Hn. simpl.
  destruct (bool_decide (f_type n = STAT_TYPE_DIR) && _).
  { eexists. split; [done|]. apply same_but_free_slots_refl. }
  destruct (find_free_fd_total s Hlen) as (fd & Hfd). rewrite Hfd. simpl.
  destruct (FS_RAMDISK_MAX_FILES <=? fd) eqn:Efull.
  { eexists. split; [done|]. apply same_but_free_slots_refl. }
  apply find_free_fd_spec in Hfd as (Hfd1 & Hfree & _).
  destruct Hfree as (h0 & Hh0 & Hfile0); [lia|].
  unfold error_out.
  destruct Hbusy as [Hw | [Hrd (Hmm & Hbits)]].
  - rewrite Hw. rewrite bool_decide_eq_true_2 by done.
    rewrite Hh0. simpl. eexists. split; [done|].
    by eapply same_but_free_slots_store.
  - rewrite Hrd. rewrite bool_decide_eq_false_2 by done.
    rewrite Hh0. simpl. fold mm in Hmm, Hbits.
    replace (mm =? O_RDONLY) with false by lia.
    assert (negb (Z.land mm O_RDWR =? 0) || negb (Z.land mm O_WRONLY =? 0) = true) as ->.
    { apply orb_true_iff. destruct Hbits as [Hb | Hb]; [left | right];
        apply negb_true_iff, Z.eqb_neq; done. }
    simpl.
    rewrite (fh_at_store_eq _ _ _ _ Hh0). simpl.
    eexists. split; [done|].
    pose proof (same_but_free_slots_store s fd h0
      (set_fh_file NULL (set_fh_omode mode (set_fh_dir (Z.land mode O_DIR)
         (set_fh_file f h0)))) Hh0 Hfile0 eq_refl) as Hsame.
    unfold fh_store in *. simpl in *. by rewrite list_insert_insert_eq.
Qed.

Lemma handles_on_two a (H : list fh_t) i j hi hj :
  H !! i = Some hi → H !! j = Some hj → i ≠ j →
  fh_file hi = a → fh_file hj = a → a ≠ NULL → (2 ≤ handles_on a H)%nat.
Proof.
  intros Hi Hj Hne Hai Haj Ha.
  pose proof (handles_on_insert a H i hi fh_zero Hi) as Hc.
  rewrite decide_True in Hc by done.
  rewrite decide_False in Hc by (simpl; congruence).
  assert (Hj' : <[i := fh_zero]> H !! j = Some hj) by (by rewrite list_lookup_insert_ne).
  pose proof (handles_on_slot a _ j hj Hj' Haj). lia.
Qed.

(** C1.  In every state reachable from a freshly initialized file system,
    a slot opened in a writable mode is the only slot on its node: there
    is no second writer and no reader beside it.  And an open returns
    [NULL] when the node it finds is locked for writing, or is locked for
    reading and the open asks for a writable mode. *)
Theorem writer_is_exclusive s :
  attach_flags_plain → reachable s →
  (∀ fd1 fd2 h1 h2,
     fh_at s fd1 = Ok h1 → fh_at s fd2 = Ok h2 →
     fh_file h1 ≠ NULL → fh_file h2 = fh_file h1 → writer_slot h1 → fd2 = fd1)
  ∧ (∀ al fn mode f n,
       open_target s fn mode f → files s !! f = Some n →
       f_openfor n = OPENFOR_WRITE
       ∨ (f_openfor n = OPENFOR_READ ∧ writable_mode mode) →
       ∃ s', ramdisk_open al fn mode s = Ok (NULL, s')).
Proof.
  intros Hflags Hreach. pose proof (reachable_wf s Hflags Hreach) as Hwf. split.
  - intros fd1 fd2 h1 h2 Hh1 Hh2 Hf1 Hf2 Hw.
    destruct Hwf as (_ & (_ & Hnodes & Hslots) & _).
    apply fh_at_Ok in Hh1 as [Hr1 Hl1]. apply fh_at_Ok in Hh2 as [Hr2 Hl2].
    destruct (Hslots _ _ Hl1 Hf1) as (n & Hn & Ho).
    unfold writer_slot in Hw.
    replace (Z.land (fh_omode h1) O_MODE_MASK =? O_RDONLY) with false in Ho by lia.
    destruct (Hnodes _ _ Hn) as (Hu & _ & Hone). specialize (Hone Ho).
    destruct (decide (fd2 = fd1)) as [|Hne]; [done|].
    pose proof (handles_on_two (fh_file h1) (fh s) _ _ h1 h2 Hl1 Hl2) as Htwo.
    assert ((2 ≤ handles_on (fh_file h1) (fh s))%nat) by (apply Htwo; [lia|done..]).
    lia.
  - intros al fn mode f n Ht Hn Hbusy.
    destruct (open_busy al fn mode s f n Hwf Ht Hn Hbusy) as (s' & Hs' & _). eauto.
Qed.

(** C10.  When the node at the path is open, for reading or for writing,
    [fs_ramdisk_attach] returns [-1]: the nodes (so the buffer pointer,
    capacity and logical size of that node), the list heads and the byte
    blocks (so the buffer of the caller, which is not freed) are as they
    were, and so is every handle; only the scratch fields of a free slot
    of the handle table can differ. *)
Theorem attach_refused_when_open s al fn obj size f n :
  attach_flags_plain → writable_mode (Z.lor O_WRONLY O_TRUNC) → reachable s →
  open_target s fn (Z.lor O_WRONLY O_TRUNC) f → files s !! f = Some n →
  f_openfor n ≠ OPENFOR_NOTHING →
  ∃ s', fs_ramdisk_attach al fn obj size s = Ok (-1, s') ∧ same_but_free_slots s s'.
Proof.
  intros Hflags Hwr Hreach Ht Hn Hopen.
  pose proof (reachable_wf s Hflags Hreach) as Hwf.
  destruct (open_busy al fn _ s f n Hwf Ht Hn) as (s' & Hs' & Hsame).
  { destruct (f_openfor n); [done | by right | by left]. }
  exists s'. unfold fs_ramdisk_attach. rewrite Hs'. done.
Qed.

End Exclusion.

Section ExclusionWitness.
#[local] Existing Instance kos_default_opts.

(** The theorem at work: with [f] open for writing through handle 1, no
    other slot is on its node, and an open for reading returns [NULL]. *)
Lemma writer_is_exclusive_witness :
  let s := after [Open all_ok "f" O_WRONLY] in
  (∀ fd2 h2, fh_at s fd2 = Ok h2 → fh_file h2 = fh_file (slot_of s 1) → fd2 = 1)
  ∧ ∃ s', ramdisk_open all_ok "f" O_RDONLY s = Ok (NULL, s').
Proof.
  intros s.
  assert (Hflags : attach_flags_plain) by (vm_compute; reflexivity).
  assert (Hreach : reachable s)
    by (apply (after_reachable _ s); vm_compute; reflexivity).
  pose (f := fh_file (slot_of s 1)).
  assert (H1 : fh_at s 1 = Ok (slot_of s 1)) by (vm_compute; reflexivity).
  assert (H2 : fh_file (slot_of s 1) ≠ NULL) by (vm_compute; congruence).
  assert (H3 : writer_slot (slot_of s 1)) by (vm_compute; congruence).
  assert (H4 : open_target s "f" O_RDONLY f)
    by (vm_compute; split; congruence).
  assert (H5 : files s !! f = Some (node_of s f)) by (vm_compute; reflexivity).
  assert (H6 : f_openfor (node_of s f) = OPENFOR_WRITE) by (vm_compute; reflexivity).
  split.
  - intros fd2 h2 Hh2 Hf2.
    exact (proj1 (writer_is_exclusive s Hflags Hreach) 1 fd2 _ h2 H1 Hh2 H2 Hf2 H3).
  - exact (proj2 (writer_is_exclusive s Hflags Hreach) all_ok "f"%string O_RDONLY f _
             H4 H5 (or_introl H6)).
Defined.

(** The theorem at work: [hello.txt] is open for reading through handle
    1, and attaching a block to it is refused. *)
Lemma attach_refused_when_open_witness :
  let s := after hello_calls in
  ∃ s', fs_ramdisk_attach all_ok "hello.txt" 4096 10 s = Ok (-1, s')
        ∧ same_but_free_slots s s'.
Proof.
  intros s.
  assert (Hflags : attach_flags_plain) by (vm_compute; reflexivity).
  assert (Hwr : writable_mode (Z.lor O_WRONLY O_TRUNC))
    by (vm_compute; split; [|right]; congruence).
  assert (Hreach : reachable s)
    by (apply (after_reachable _ s); vm_compute; reflexivity).
  pose (f := fh_file (slot_of s 1)).
  assert (H4 : open_target s "hello.txt" (Z.lor O_WRONLY O_TRUNC) f)
    by (vm_compute; split; congruence).
  assert (H5 : files s !! f = Some (node_of s f)) by (vm_compute; reflexivity).
  assert (H6 : f_openfor (node_of s f) ≠ OPENFOR_NOTHING) by (vm_compute; congruence).
  exact (attach_refused_when_open s all_ok "hello.txt"%string 4096 10 f _
           Hflags Hwr Hreach H4 H5 H6).
Defined.

End ExclusionWitness.

(** ** The size reported by stat *)

Section Stat.
Context {opts : kos_opts}.

(** A path looked up without the directory flag never resolves to a
    directory. *)
Lemma find_path_loop_file fuel : ∀ s parent fn f0 f n,
  ramdisk_find_path_loop fuel s parent fn f0 0 = Ok f → f ≠ NULL →
  files s !! f = Some n → f_type n = STAT_TYPE_FILE.
Proof.
  induction fuel as [|fuel IH]; intros s parent fn f0 f n H Hf Hn; simpl in H;
    [discriminate|].
  destruct (strchr fn "/") as [cur|].
  - destruct (negb (cur =? 0)%nat); [|by eauto].
    ok_step H. ok_step H; [by ok_step H|].
    ok_step H. ok_step H; [by ok_step H|].
    ok_step H; [discriminate|]. eauto.
  - destruct fn as [|c fn]; [by ok_step H|].
    ok_step H. ok_step H; [by ok_step H|].
    ok_step H. ok_step H; [by ok_step H|]. ok_step H.
    unfold file_at in Ha0. rewrite Hn in Ha0. injection Ha0 as <-.
    destruct (f_type n); [done|]. by rewrite bool_decide_eq_true_2 in E0.
Qed.

(** C6.  In a reachable state, [stat] on a path that resolves to a node
    finds a file and reports as size the capacity [datasize] of its data
    block (as a signed 32-bit number: the capacity itself below 2^31),
    whatever its logical size; [total] on a valid file handle returns
    the logical size [size] of the node; and a directory node is the
    root, for whose paths [stat] reports the size [-1]. *)
Theorem stat_reports_capacity s :
  attach_flags_plain → reachable s →
  (∀ path f n,
     path ≠ EmptyString → path ≠ "/"%string →
     ramdisk_find_path s (rootdir s) path 0 = Ok f → f ≠ NULL →
     files s !! f = Some n →
     f_type n = STAT_TYPE_FILE
     ∧ ∃ st, ramdisk_stat path s = Ok (0, Some st, s)
             ∧ st_size st = s32 (f_datasize n)
             ∧ (0 ≤ f_datasize n < 2^31 → st_size st = f_datasize n))
  ∧ (∀ fd h n, file_handle s fd h n → ramdisk_total fd s = Ok (f_size n, s))
  ∧ (∀ a n, files s !! a = Some n → f_type n = STAT_TYPE_DIR →
       a = root s
       ∧ ∀ path, path = EmptyString ∨ path = "/"%string →
           ∃ st, ramdisk_stat path s = Ok (0, Some st, s) ∧ st_size st = -1).
Proof.
  intros Hflags Hreach. pose proof (reachable_wf s Hflags Hreach) as Hwf.
  split; [|split].
  - intros path f n Hp1 Hp2 Hfp Hf Hn.
    assert (Hty : f_type n = STAT_TYPE_FILE)
      by (by eapply find_path_loop_file).
    split; [done|]. unfold ramdisk_stat.
    rewrite !bool_decide_eq_false_2 by done. simpl. rewrite Hfp. simpl.
    replace (f =? NULL) with false by (unfold NULL in *; lia).
    unfold file_at. rewrite Hn. simpl.
    rewrite Hty. rewrite bool_decide_eq_false_2 by done.
    eexists. split; [done|]. simpl. split; [done|].
    intros Hr. apply s32_small. lia.
  - intros fd h n (Hh & Hf & Hd & Hn). unfold ramdisk_total.
    pose proof Hh as [Hfd _]%fh_at_Ok.
    replace (fd <? FS_RAMDISK_MAX_FILES) with true by lia.
    rewrite Hh. simpl.
    replace (fh_file h =? NULL) with false by (unfold NULL in *; lia).
    rewrite Hd. simpl. unfold file_at. by rewrite Hn.
  - intros a n Ha Hty.
    destruct Hwf as ((_ & _ & rn & first & l & _ & _ & _ & _ & _ & _ & _
                      & Hall & Hfile & _) & _).
    split.
    + destruct (proj1 (Hall a)) as [-> | Hin]; [by eexists | done |].
      by rewrite (Hfile _ _ Hin Ha) in Hty.
    + intros path [-> | ->]; (eexists; split; [done|done]).
Qed.

End Stat.

Section StatWitness.
#[local] Existing Instance kos_default_opts.

(** The theorem at work: after two bytes are written to a new file [f],
    [stat] reports the size 1024 and [total] the size 2; [stat] on the
    root reports [-1]. *)
Lemma stat_reports_capacity_witness :
  let s := after [Open all_ok "f" O_WRONLY; Write true 1 ["h"%byte; "i"%byte] 2] in
  (∃ st, ramdisk_stat "f" s = Ok (0, Some st, s) ∧ st_size st = 1024)
  ∧ ramdisk_total 1 s = Ok (2, s)
  ∧ (∃ st, ramdisk_stat "/" s = Ok (0, Some st, s) ∧ st_size st = -1).
Proof.
  intros s.
  assert (Hflags : attach_flags_plain) by (vm_compute; reflexivity).
  assert (Hreach : reachable s)
    by (apply (after_reachable _ s); vm_compute; reflexivity).
  pose (h := slot_of s 1). pose (f := fh_file h). pose (n := node_of s f).
  destruct (stat_reports_capacity s Hflags Hreach) as (Hstat & Htotal & Hdir).
  split; [|split].
  - assert (H1 : "f"%string ≠ EmptyString) by discriminate.
    assert (H2 : "f"%string ≠ "/"%string) by discriminate.
    assert (H3 : ramdisk_find_path s (rootdir s) "f" 0 = Ok f)
      by (vm_compute; reflexivity).
    assert (H4 : f ≠ NULL) by (vm_compute; congruence).
    assert (H5 : files s !! f = Some n) by (vm_compute; reflexivity).
    assert (H6 : 0 ≤ f_datasize n < 2^31) by (vm_compute; split; congruence).
    destruct (Hstat "f"%string f n H1 H2 H3 H4 H5) as (_ & st & Hst & _ & Hsz).
    exists st. split; [exact Hst|]. exact (Hsz H6).
  - assert (H1 : file_handle s 1 h n)
      by (split; [|split; [|split]]; vm_compute; congruence).
    exact (Htotal 1 h n H1).
  - assert (H1 : files s !! root s = Some (node_of s (root s)))
      by (vm_compute; reflexivity).
    assert (H2 : f_type (node_of s (root s)) = STAT_TYPE_DIR)
      by (vm_compute; reflexivity).
    exact (proj2 (Hdir _ _ H1 H2) "/"%string (or_intror eq_refl)).
Defined.

End StatWitness.

(** ** Reading a directory *)

Section Readdir.
Context {opts : kos_opts}.

(** Every node of a list has its entry. *)
Lemma entries_lookup F prev p l :
  chain F prev p l →
  length (entries F l) = length l
  ∧ ∀ i a, l !! i = Some a →
      ∃ c, F !! a = Some c ∧ entries F l !! i = Some (entry_of c).
Proof.
  induction 1 as [|prev a n l Ha Hn Hp Hc [IHlen IH]]; [done|].
  unfold entries in *. simpl. rewrite Hn. simpl.
  split; [f_equal; exact IHlen|].
  intros [|i] b Hb; [injection Hb as <-; eauto | exact (IH i b Hb)].
Qed.

(** From a cursor at the head of the list [l], [ramdisk_readdir] walks
    [l] to its end. *)
Lemma readdir_walk F l : ∀ s fd h prev,
  files s = F → fh_at s fd = Ok h → fh_file h ≠ NULL → fh_dir h ≠ 0 →
  chain F prev (fh_ptr h) l →
  lists_children fd F l s.
Proof.
  induction l as [|a l IH]; intros s fd h prev HF Hh Hf Hd Hc;
    pose proof Hh as [Hfd _]%fh_at_Ok; unfold lists_children.
  - apply chain_nil_inv in Hc. simpl. unfold ramdisk_readdir.
    replace (fd <? FS_RAMDISK_MAX_FILES) with true by lia.
    rewrite Hh. simpl. rewrite Hc. simpl. rewrite andb_false_r. simpl.
    eexists. split; [done|]. done.
  - apply chain_cons_inv in Hc as (Hp & Ha & n & Hn & _ & Hc).
    set (d := entry_of n).
    set (h1 := set_fh_dirent d (set_fh_ptr (le_next n) h)).
    destruct (IH (fh_store fd h1 s) fd h1 (LNode a)) as (s' & Hs' & He & HF' & HD' & HM');
      [done | by eapply fh_at_store_eq | done | done | done |].
    exists s'. split_and!; [|done|by rewrite HF'|by rewrite HD'|by rewrite HM'].
    change (readdir_n (S (length (a :: l))) fd s)
      with ('(d, s) ← ramdisk_readdir fd s;
            '(ds, s) ← readdir_n (S (length l)) fd s; Ok (d :: ds, s)).
    assert (Hrd : ramdisk_readdir fd s = Ok (Some d, fh_store fd h1 s)).
    { unfold ramdisk_readdir.
      replace (fd <? FS_RAMDISK_MAX_FILES) with true by lia.
      rewrite Hh. simpl.
      replace (fh_file h =? NULL) with false by (unfold NULL in *; lia).
      replace (fh_ptr h =? 0) with false by (unfold NULL in *; lia).
      replace (fh_dir h =? 0) with false by lia. simpl.
      unfold file_at. rewrite HF, Hp, Hn. simpl. unfold h1, d, entry_of.
      by destruct (f_type n). }
    rewrite Hrd, bind_Ok_l, Hs', bind_Ok_l.
    unfold entries. simpl. by rewrite Hn.
Qed.

Lemma chain_cons_at F prev a n l nx :
  a ≠ NULL → F !! a = Some n → le_prev n = prev → le_next n = nx →
  chain F (LNode a) nx l → chain F prev a (a :: l).
Proof. intros ? ? ? <- ?. by eapply chain_cons. Qed.

(** C8.  Let [fd] be a valid directory handle on the node [n], and [l]
    the children of [n]: the nodes linked in its list, first to last.
    They are pairwise distinct and each has its entry, with the name of
    the child, the attribute [O_DIR] and the size [-1] for a directory,
    the attribute [0] and the logical size for a file.  After
    [ramdisk_rewinddir], and in a state that [ramdisk_open] has just
    returned [fd] in for a directory, successive calls of
    [ramdisk_readdir] yield these entries in order, one per child, and
    the call after the last returns [NULL] with [errno] set to
    [EBADF]. *)
Theorem readdir_enumerates s fd h n first l :
  dir_handle s fd h n → dirs s !! f_data n = Some first →
  chain (files s) (LHead (f_data n)) first l →
  NoDup l
  ∧ length (entries (files s) l) = length l
  ∧ (∀ i a, l !! i = Some a →
       ∃ c, files s !! a = Some c ∧ entries (files s) l !! i = Some (entry_of c))
  ∧ (∃ s1, ramdisk_rewinddir fd s = Ok (0, s1) ∧ lists_children fd (files s) l s1)
  ∧ (∀ al fn mode s0,
       attach_flags_plain → reachable s0 →
       ramdisk_open al fn mode s0 = Ok (fd, s) → fd ≠ NULL →
       Z.land mode O_DIR ≠ 0 →
       lists_children fd (files s) l s).
Proof.
  intros (Hh & Hf & Hd & Hn) Hfirst Hc.
  pose proof Hh as [Hfd _]%fh_at_Ok.
  destruct (entries_lookup _ _ _ _ Hc) as [Hlen Hent].
  split_and!; [by eapply chain_NoDup | done | done | |].
  - exists (fh_store fd (set_fh_ptr first h) s). split.
    + unfold ramdisk_rewinddir.
      replace (FS_RAMDISK_MAX_FILES <=? fd) with false by lia.
      rewrite Hh. simpl.
      replace (fh_file h =? NULL) with false by (unfold NULL in *; lia).
      replace (fh_dir h =? 0) with false by lia. simpl.
      unfold file_at, dir_at. rewrite Hn. simpl. by rewrite Hfirst.
    + eapply (readdir_walk _ _ _ _ (set_fh_ptr first h));
        [done | by eapply fh_at_store_eq | done | done | done].
  - intros al fn mode s0 Hflags Hreach Hopen Hfd0 Hdir.
    pose proof (reachable_wf s0 Hflags Hreach) as Hwf.
    destruct (open_result _ _ _ _ _ _ Hwf Hopen) as (_ & Hres).
    destruct (Hres Hfd0) as (h' & n' & Hh' & _ & Hn' & _ & _ & _ & Hptr).
    assert (h' = h) as -> by congruence.
    assert (n' = n) as -> by congruence.
    specialize (Hptr Hdir).
    assert (fh_ptr h = first) as Hp by congruence.
    eapply (readdir_walk _ _ _ _ h); [done..|]. by rewrite Hp.
Qed.

End Readdir.

Section ReaddirWitness.
#[local] Existing Instance kos_default_opts.

(** The theorem at work: with the files [a] (two bytes) and [b] (empty)
    in the root, opened as a directory through handle 1, a rewind and
    three calls of [ramdisk_readdir] yield [b], [a] and [NULL]. *)
Lemma readdir_enumerates_witness :
  let s := after [Open all_ok "a" O_WRONLY; Write true 1 ["h"%byte; "i"%byte] 2;
                  Close 1; Open all_ok "b" O_WRONLY; Close 1;
                  Open all_ok "/" (Z.lor O_RDONLY O_DIR)] in
  entries (files s) [5; 3]
  = [ {| de_size := 0; de_name := "b"; de_time := 0; de_attr := 0 |};
      {| de_size := 2; de_name := "a"; de_time := 0; de_attr := 0 |} ]
  ∧ ∃ s1, ramdisk_rewinddir 1 s = Ok (0, s1) ∧ lists_children 1 (files s) [5; 3] s1.
Proof.
  intros s. split; [vm_compute; reflexivity|].
  pose (h := slot_of s 1). pose (n := node_of s (fh_file h)).
  assert (H1 : dir_handle s 1 h n)
    by (split; [|split; [|split]]; vm_compute; congruence).
  assert (H2 : dirs s !! f_data n = Some 5) by (vm_compute; reflexivity).
  assert (H3 : chain (files s) (LHead (f_data n)) 5 [5; 3]).
  { apply (chain_cons_at _ _ 5 (node_of s 5) _ 3);
      [vm_compute; congruence | vm_compute; reflexivity ..|].
    apply (chain_cons_at _ _ 3 (node_of s 3) _ 0);
      [vm_compute; congruence | vm_compute; reflexivity ..|].
    apply chain_nil. }
  exact (proj1 (proj2 (proj2 (proj2 (readdir_enumerates s 1 h n 5 [5; 3] H1 H2 H3))))).
Defined.

End ReaddirWitness.

(** ** The node an open leaves behind when the handle table is full *)

Section Leftover.
Context {opts : kos_opts}.

(** With its allocations successful, [ramdisk_create_file] makes a node
    for a name without a slash and returns it. *)
Lemma create_file_ok al s l fn :
  tree_ok (files s) (dirs s) (root s) (rootdir s) → root_children s l →
  strchr fn "/" = None →
  node_ok al = true → name_ok al = true → data_ok al = true →
  ∃ s', ramdisk_create_file al (rootdir s) fn 0 s = Ok (fresh_addr s, s').
Proof.
  intros Ht (first & Hfirst & Hc) Hno Hnode Hname Hdata.
  unfold ramdisk_create_file, ramdisk_get_parent.
  rewrite (proj2 (strrchr_None fn "/") Hno). simpl.
  rewrite Hnode, Hname. simpl. unfold malloc_mem. rewrite Hdata.
  destruct (fresh_addr_spec s) as (Hf0 & Hff & _ & _).
  set (f0 := fresh_addr s) in *.
  match goal with
  | |- context [fresh_addr ?x] =>
      destruct (fresh_addr_spec x) as (Hd0 & _ & _ & _); set (d := fresh_addr x) in *
  end.
  replace (d =? NULL) with false by (unfold NULL in *; lia).
  assert (Hfl : f0 ∉ l).
  { intros Hin. destruct (chain_lookup _ _ _ _ _ Hc Hin) as (_ & ? & ?). congruence. }
  match goal with
  | |- ∃ s', LIST_INSERT_HEAD _ _ ?x ≫= _ = _ => set (sx := x)
  end.
  destruct (LIST_INSERT_HEAD_spec sx (rootdir s) f0 first (new_file fn d) l)
    as (s3 & Hins & _).
  - done.
  - simpl. by rewrite lookup_insert_eq.
  - simpl. apply chain_insert_fresh; [done|]. by apply chain_insert_fresh.
  - done.
  - done.
  - exists s3. by rewrite Hins.
Qed.

(** The scan for a free slot of a full table ends at the size of the
    table. *)
Lemma find_free_fd_full s :
  length (fh s) = Z.to_nat FS_RAMDISK_MAX_FILES →
  (∀ fd, 1 ≤ fd < FS_RAMDISK_MAX_FILES → ∃ h, fh_at s fd = Ok h ∧ fh_file h ≠ NULL) →
  ∃ fd, find_free_fd s = Ok fd ∧ FS_RAMDISK_MAX_FILES ≤ fd.
Proof.
  intros Hlen Hfull. destruct (find_free_fd_total s Hlen) as (fd & Hfd).
  exists fd. split; [done|].
  apply find_free_fd_spec in Hfd as (Hfd1 & Hfree & _).
  destruct (decide (fd < FS_RAMDISK_MAX_FILES)) as [Hlt|]; [|lia].
  destruct (Hfree Hlt) as (h & Hh & Hnull).
  destruct (Hfull fd) as (h' & Hh' & Hused); [lia|]. congruence.
Qed.

(** C9.  In a reachable state in which every slot from 1 on is in use,
    an open in a writable mode, without [O_DIR], of a name that is not
    in the root directory returns [NULL] when the allocations of the new
    node succeed; but the node stays: an empty file of that name with a
    block of 1024 bytes, unused and unlocked, at the head of the list of
    the root directory.  The handle table is as it was.  Afterwards the
    lookup of [ramdisk_open] finds the node at this path, and [stat]
    succeeds on it. *)
Theorem open_full_table_leaves_node s al fn mode :
  attach_flags_plain → reachable s →
  strip_slash fn ≠ EmptyString → strchr (strip_slash fn) "/" = None →
  Z.land mode O_MODE_MASK ≠ O_RDONLY → Z.land mode O_DIR = 0 →
  ramdisk_find_path s (rootdir s) (strip_slash fn) 0 = Ok NULL →
  (∀ fd, 1 ≤ fd < FS_RAMDISK_MAX_FILES → ∃ h, fh_at s fd = Ok h ∧ fh_file h ≠ NULL) →
  node_ok al = true → name_ok al = true → data_ok al = true →
  ∃ s' f n,
    ramdisk_open al fn mode s = Ok (NULL, s')
    ∧ f ≠ NULL ∧ files s !! f = None ∧ files s' !! f = Some n
    ∧ f_name n = strip_slash fn ∧ f_type n = STAT_TYPE_FILE
    ∧ f_size n = 0 ∧ f_datasize n = 1024
    ∧ f_usage n = 0 ∧ f_openfor n = OPENFOR_NOTHING
    ∧ mem s' !! f_data n = Some (zeros 1024)
    ∧ dirs s' !! rootdir s' = Some f
    ∧ fh s' = fh s
    ∧ (∀ mode', Z.land mode' O_DIR = 0 → open_target s' fn mode' f)
    ∧ ∃ st, ramdisk_stat (strip_slash fn) s' = Ok (0, Some st, s')
            ∧ st_size st = 1024.
Proof.
  intros Hflags Hreach Hne Hno Hmm Hdir Hfind Hfull Hnode Hname Hdata.
  pose proof (reachable_wf s Hflags Hreach) as Hwf.
  pose proof Hwf as (Ht & (Hlen & _) & _). pose proof Ht as (Hr & _).
  destruct (tree_has_children s Ht) as (l & Hl).
  destruct (create_file_ok al s l _ Ht Hl Hno Hnode Hname Hdata) as (s1 & Hcreate).
  destruct (fresh_addr_spec s) as (Hf0 & Hff & _ & _).
  set (f := fresh_addr s) in *.
  destruct (wf_create al s _ f s1 Hwf Hne Hfind Hcreate) as (Hwf1 & Hnew).
  destruct (Hnew Hf0) as (d0 & n & Hn & Hpay).
  destruct (create_file_spec al s l _ f s1 Ht Hl Hcreate)
    as [[? _] | (_ & _ & d & Hd & Hdm & HR & Hc & HD & HM & HH & HRt & HRd & HE)];
    [done|].
  destruct (relinked_forward _ _ f (new_file (strip_slash fn) d) HR)
    as (n' & Hn' & Hpay'); [apply lookup_insert_eq|].
  assert (n' = n) as -> by congruence. clear Hpay d0.
  destruct Hpay' as (Hnm & Hsz & Hty & Hof & Hus & Hda & Hds). simpl in *.
  assert (Hl1 : root_children s1 (f :: l)).
  { exists f. rewrite HRd, HD. split; [apply lookup_insert_eq | done]. }
  pose proof Hwf1 as (Ht1 & _).
  assert (Hfp : ramdisk_find_path s1 (rootdir s1) (strip_slash fn) 0 = Ok f).
  { rewrite (find_path_plain s1 (f :: l) _ Ht1 Hl1 Hno Hne). simpl.
    rewrite Hn, Hnm. by rewrite name_match_self. }
  exists s1, f, n. split_and!; try done.
  - unfold ramdisk_open. change (match fn with String "/" fn' => fn' | _ => fn end)
      with (strip_slash fn).
    rewrite Hdir. simpl.
    replace (root s =? NULL) with false by (unfold NULL in *; lia).
    destruct (strip_slash fn) as [|c fn'] eqn:Efn; [done|].
    rewrite Hfind. simpl.
    replace (Z.land mode O_MODE_MASK =? O_RDONLY) with false by lia. simpl.
    rewrite Hcreate. simpl.
    replace (f =? NULL) with false by (unfold NULL in *; lia).
    unfold file_at. rewrite Hn. simpl. rewrite Hty.
    rewrite bool_decide_eq_false_2 by done. simpl.
    destruct (find_free_fd_full s1) as (fd & Hfd & Hge).
    { by rewrite HH. }
    { intros j Hj. unfold fh_at. rewrite HH. apply (Hfull j Hj). }
    rewrite Hfd. simpl. by replace (FS_RAMDISK_MAX_FILES <=? fd) with true by lia.
  - by rewrite Hda, HM, lookup_insert_eq.
  - by rewrite HRd, HD, lookup_insert_eq.
  - intros mode' Hdir'. unfold open_target. rewrite Hdir'.
    destruct (strip_slash fn); done.
  - unfold ramdisk_stat.
    rewrite bool_decide_eq_false_2 by done.
    rewrite bool_decide_eq_false_2
      by (intros E; rewrite E in Hno; discriminate).
    simpl. rewrite Hfp. simpl.
    replace (f =? NULL) with false by (unfold NULL in *; lia).
    unfold file_at. rewrite Hn. simpl. rewrite Hty.
    rewrite bool_decide_eq_false_2 by done.
    eexists. split; [done|]. simpl. rewrite Hds. done.
Qed.

End Leftover.

Section LeftoverWitness.
#[local] Existing Instance kos_default_opts.

(** The theorem at work: with the root opened seven times as a
    directory the table is full; opening [x] for writing then returns
    [NULL] and leaves the empty file [x], which [stat] finds. *)
Lemma open_full_table_leaves_node_witness :
  let s := after (replicate 7 (Open all_ok "/" (Z.lor O_RDONLY O_DIR))) in
  ∃ s' f n,
    ramdisk_open all_ok "x" O_WRONLY s = Ok (NULL, s')
    ∧ files s !! f = None ∧ files s' !! f = Some n
    ∧ f_name n = "x"%string ∧ f_size n = 0 ∧ f_datasize n = 1024
    ∧ ∃ st, ramdisk_stat "x" s' = Ok (0, Some st, s') ∧ st_size st = 1024.
Proof.
  intros s.
  assert (Hflags : attach_flags_plain) by (vm_compute; reflexivity).
  assert (Hreach : reachable s)
    by (apply (after_reachable _ s); vm_compute; reflexivity).
  assert (H1 : strip_slash "x" ≠ EmptyString) by (simpl; discriminate).
  assert (H2 : strchr (strip_slash "x") "/" = None) by (vm_compute; reflexivity).
  assert (H3 : Z.land O_WRONLY O_MODE_MASK ≠ O_RDONLY) by (vm_compute; congruence).
  assert (H4 : Z.land O_WRONLY O_DIR = 0) by (vm_compute; reflexivity).
  assert (H5 : ramdisk_find_path s (rootdir s) (strip_slash "x") 0 = Ok NULL)
    by (vm_compute; reflexivity).
  assert (H6 : ∀ fd, 1 ≤ fd < FS_RAMDISK_MAX_FILES →
                 ∃ h, fh_at s fd = Ok h ∧ fh_file h ≠ NULL).
  { intros fd Hfd. assert (Hmax : FS_RAMDISK_MAX_FILES = 8) by reflexivity.
    rewrite Hmax in Hfd.
    assert (fd = 1 ∨ fd = 2 ∨ fd = 3 ∨ fd = 4 ∨ fd = 5 ∨ fd = 6 ∨ fd = 7)
      as [-> | [-> | [-> | [-> | [-> | [-> | ->]]]]]] by lia;
      (eexists; split; [vm_compute; reflexivity | vm_compute; congruence]). }
  destruct (open_full_table_leaves_node s all_ok "x" O_WRONLY
              Hflags Hreach H1 H2 H3 H4 H5 H6 eq_refl eq_refl eq_refl)
    as (s' & f & n & Hopen & _ & Hold & Hn & Hnm & _ & Hsz & Hds & _ & _ & _ & _ & _
        & _ & Hstat).
  exists s', f, n. split; [exact Hopen|]. split; [exact Hold|].
  split; [exact Hn|]. split; [exact Hnm|]. split; [exact Hsz|].
  split; [exact Hds|]. exact Hstat.
Defined.

End LeftoverWitness.

(** ** Attach, then detach *)

Section Roundtrip.
Context {opts : kos_opts}.

(** The scan for a free slot finds one when there is one. *)
Lemma first_free_slot s :
  length (fh s) = Z.to_nat FS_RAMDISK_MAX_FILES →
  (∃ fd h, 1 ≤ fd < FS_RAMDISK_MAX_FILES ∧ fh_at s fd = Ok h ∧ fh_file h = NULL) →
  ∃ fd h, find_free_fd s = Ok fd ∧ 1 ≤ fd < FS_RAMDISK_MAX_FILES
          ∧ fh_at s fd = Ok h ∧ fh_file h = NULL.
Proof.
  intros Hlen (fd0 & h0 & Hfd0 & Hh0 & Hnull).
  destruct (find_free_fd_total s Hlen) as (fd & Hfd). exists fd.
  pose proof Hfd as (Hfd1 & Hfree & Hbelow)%find_free_fd_spec.
  assert (Hlt : fd < FS_RAMDISK_MAX_FILES).
  { destruct (decide (fd0 < fd)) as [Hlt|]; [|lia].
    destruct (Hbelow fd0) as (h & Hh & Hused); [lia|]. congruence. }
  destruct (Hfree Hlt) as (h & Hh & Hhnull). exists h. split_and!; done || lia.
Qed.

(** The lookup of [ramdisk_open] on a path that names a node. *)
Lemma open_lookup_found al fn mode s f :
  open_target s fn mode f → root s ≠ NULL →
  match strip_slash fn with
  | EmptyString => Ok (root s, s)
  | String _ _ =>
      f ← ramdisk_find_path s (rootdir s) (strip_slash fn) (Z.land mode O_DIR);
      if f =? NULL then
        if negb (Z.land mode O_MODE_MASK =? O_RDONLY) && (Z.land mode O_DIR =? 0)
        then ramdisk_create_file al (rootdir s) (strip_slash fn) (Z.land mode O_DIR) s
        else Ok (NULL, s)
      else Ok (f, s)
  end = Ok (f, s).
Proof.
  unfold open_target. intros Ht Hr.
  destruct (strip_slash fn) as [|c fn']; [by subst f|].
  destruct Ht as [-> Hf]. simpl.
  by replace (f =? NULL) with false by (unfold NULL in *; lia).
Qed.

(** The nodes other than [f], the list heads and the globals of [s'] are
    those of [s]; the node [f] is [n'], with the name, type and links it
    had. *)
Lemma open_trunc_forward al fn s f n :
  attach_flags_plain → writable_mode (Z.lor O_WRONLY O_TRUNC) → wf s →
  open_target s fn (Z.lor O_WRONLY O_TRUNC) f → files s !! f = Some n →
  f_type n = STAT_TYPE_FILE → f_usage n = 0 →
  (f_data n = NULL ∨ is_Some (mem s !! f_data n)) →
  (∃ fd h, 1 ≤ fd < FS_RAMDISK_MAX_FILES ∧ fh_at s fd = Ok h ∧ fh_file h = NULL) →
  ∃ fd h0 d s',
    ramdisk_open al fn (Z.lor O_WRONLY O_TRUNC) s = Ok (fd, s')
    ∧ 1 ≤ fd < FS_RAMDISK_MAX_FILES ∧ fh_at s fd = Ok h0 ∧ fh_file h0 = NULL
    ∧ files s'
      = <[f := set_usage 1 (set_size 0 (set_datasize 1024
                 (set_data d (set_openfor OPENFOR_WRITE n))))]> (files s)
    ∧ fh s'
      = <[Z.to_nat fd := set_fh_ptr 0 (set_fh_omode (Z.lor O_WRONLY O_TRUNC)
                           (set_fh_dir 0 (set_fh_file f h0)))]> (fh s)
    ∧ dirs s' = dirs s ∧ root s' = root s ∧ rootdir s' = rootdir s
    ∧ (d = NULL ∨ is_Some (mem s' !! d))
    ∧ (∀ p b, p ≠ f_data n → p ≠ NULL → mem s !! p = Some b →
         mem s' !! p = Some b ∧ p ≠ d).
Proof.
  intros Hflags (Hmm & Hbits) Hwf Ht Hn Hty Hus Hdata Hslot.
  pose proof Hwf as (Htree & (Hlen & Hnodes & _) & _). pose proof Htree as (Hr & _).
  destruct (first_free_slot s Hlen Hslot) as (fd & h0 & Hfd & Hfd1 & Hh0 & Hnull).
  destruct (Hnodes _ _ Hn) as (_ & Hunl & _).
  assert (Hof : f_openfor n = OPENFOR_NOTHING) by (by apply Hunl).
  assert (Hf : f ≠ NULL).
  { intros ->. by rewrite (tree_null _ _ _ _ Htree) in Hn. }
  unfold ramdisk_open.
  change (match fn with String "/" fn' => fn' | _ => fn end) with (strip_slash fn).
  unfold attach_flags_plain in Hflags. rewrite Hflags. simpl.
  replace (root s =? NULL) with false by (unfold NULL in *; lia).
  match goal with
  | |- ∃ fd h d s', ?m ≫= _ = _ ∧ _ => assert (Hlook : m = Ok (f, s))
  end.
  { pose proof (open_lookup_found al fn _ s f Ht Hr) as H.
    rewrite Hflags in H. exact H. }
  rewrite Hlook. simpl.
  replace (f =? NULL) with false by (unfold NULL in *; lia).
  unfold file_at. rewrite Hn. simpl. rewrite Hty.
  rewrite bool_decide_eq_false_2 by done. simpl.
  rewrite Hfd. simpl.
  replace (FS_RAMDISK_MAX_FILES <=? fd) with false by lia.
  rewrite Hof. rewrite bool_decide_eq_false_2 by done.
  rewrite Hh0. simpl.
  replace (Z.land (Z.lor O_WRONLY O_TRUNC) O_MODE_MASK =? O_RDONLY) with false by lia.
  match goal with
  | |- context [negb ?a || negb ?b] =>
      replace (negb a || negb b) with true
        by (symmetry; apply orb_true_iff; destruct Hbits; [left | right];
            by apply negb_true_iff, Z.eqb_neq)
  end.
  set (h1 := set_fh_omode (Z.lor O_WRONLY O_TRUNC) (set_fh_dir 0 (set_fh_file f h0))).
  set (sa := store_file f (set_openfor OPENFOR_WRITE n) (fh_store fd h1 s)).
  assert (Hfree : ∃ sb, free_mem (f_data n) sa = Ok sb
            ∧ files sb = files sa ∧ dirs sb = dirs sa ∧ fh sb = fh sa
            ∧ root sb = root sa ∧ rootdir sb = rootdir sa
            ∧ ∀ p b, p ≠ f_data n → mem s !! p = Some b → mem sb !! p = Some b).
  { unfold free_mem. destruct (f_data n =? NULL) eqn:Ed.
    - exists sa. split_and!; done.
    - destruct Hdata as [Hd | [b Hb]]; [unfold NULL in *; lia|].
      simpl. rewrite Hb. eexists. split_and!; try done.
      intros p b' Hp Hb'. simpl. by rewrite lookup_delete_ne. }
  destruct Hfree as (sb & -> & HFb & HDb & HHb & HRb & HRdb & HMb). simpl.
  unfold malloc_mem.
  destruct (fresh_addr_spec sb) as (Hd0 & _ & _ & Hdm).
  exists fd, h0, (if trunc_ok al then fresh_addr sb else NULL).
  destruct (trunc_ok al); simpl; rewrite HFb; simpl; rewrite lookup_insert_eq; simpl;
    rewrite Hus; simpl; (eexists; split; [reflexivity|]); simpl;
    rewrite ?HFb, ?HDb, ?HHb, ?HRb, ?HRdb; simpl;
    rewrite ?insert_insert_eq, ?list_insert_insert_eq.
  - split_and!; try done; try lia.
    + right. rewrite lookup_insert_eq. by eexists.
    + intros p b Hp Hp0 Hb. specialize (HMb p b Hp Hb).
      assert (p ≠ fresh_addr sb) by congruence.
      by rewrite lookup_insert_ne.
  - split_and!; try done; try lia.
    intros p b Hp Hp0 Hb. split; [by apply HMb | done].
Qed.

(** [free] of [NULL] or of a live block returns, and keeps the other
    blocks. *)
Lemma free_mem_forward p s :
  p = NULL ∨ is_Some (mem s !! p) →
  ∃ s', free_mem p s = Ok s'
        ∧ files s' = files s ∧ dirs s' = dirs s ∧ fh s' = fh s
        ∧ root s' = root s ∧ rootdir s' = rootdir s
        ∧ ∀ q b, q ≠ p → mem s !! q = Some b → mem s' !! q = Some b.
Proof.
  intros Hp. unfold free_mem. destruct (p =? NULL) eqn:Ed.
  - exists s. split_and!; done.
  - destruct Hp as [Hd | [b Hb]]; [unfold NULL in *; lia|].
    rewrite Hb. eexists. split_and!; try done.
    intros q b' Hq Hb'. simpl. by rewrite lookup_delete_ne.
Qed.

(** A slot that was just stored. *)
Lemma fh_at_inserted s s' fd h0 h :
  fh_at s fd = Ok h0 → fh s' = <[Z.to_nat fd := h]> (fh s) → fh_at s' fd = Ok h.
Proof.
  intros [Hfd Hl]%fh_at_Ok Hfh. apply fh_at_Ok. split; [done|].
  rewrite Hfh. apply list_lookup_insert_eq. by eapply lookup_lt_Some.
Qed.

(** Closing the only handle of a node unlocks it. *)
Lemma close_forward s fd h n :
  fh_at s fd = Ok h → fh_file h ≠ NULL → files s !! fh_file h = Some n →
  f_usage n = 1 →
  ramdisk_close fd s
  = Ok (0, store_file (fh_file h) (set_openfor OPENFOR_NOTHING (set_usage 0 n))
             (fh_store fd (set_fh_file NULL h) s)).
Proof.
  intros Hh Hf Hn Hus. pose proof Hh as [Hfd _]%fh_at_Ok. unfold ramdisk_close.
  replace (fd <? FS_RAMDISK_MAX_FILES) with true by lia.
  rewrite Hh. simpl.
  replace (fh_file h =? NULL) with false by (unfold NULL in *; lia). simpl.
  unfold file_at. simpl. rewrite Hn. simpl. rewrite Hus. done.
Qed.

(** [fs_ramdisk_attach] on an unused file, with a free slot: it returns
    0 and the node holds the block of the caller. *)
Lemma attach_forward al fn obj size s f n :
  attach_flags_plain → writable_mode (Z.lor O_WRONLY O_TRUNC) → wf s →
  open_target s fn (Z.lor O_WRONLY O_TRUNC) f → files s !! f = Some n →
  f_type n = STAT_TYPE_FILE → f_usage n = 0 →
  (f_data n = NULL ∨ is_Some (mem s !! f_data n)) →
  (∃ fd, free_slot s fd) →
  ∃ fd nA s1,
    fs_ramdisk_attach al fn obj size s = Ok (0, s1)
    ∧ node_updated s s1 f n nA
    ∧ f_data nA = obj ∧ f_size nA = size ∧ f_datasize nA = size ∧ f_usage nA = 0
    ∧ free_slot s1 fd
    ∧ keeps_blocks s s1 (f_data n).
Proof.
  intros Hflags Hwr Hwf Ht Hn Hty Hus Hdata (fd0 & Hfd0 & h & Hh & Hnull).
  destruct (open_trunc_forward al fn s f n Hflags Hwr Hwf Ht Hn Hty Hus Hdata)
    as (fd & h0 & d & s' & Hopen & Hfd & Hh0 & Hnull0 & HF & HH & HD & HR & HRd
        & Hd & HM); [by eauto|].
  assert (Hf : f ≠ NULL).
  { destruct Hwf as (Htree & _). intros ->.
    by rewrite (tree_null _ _ _ _ Htree) in Hn. }
  unfold fs_ramdisk_attach. rewrite Hopen. simpl.
  replace (fd =? NULL) with false by (unfold NULL; lia).
  rewrite (fh_at_inserted s s' fd h0 _ Hh0 HH). simpl.
  unfold file_at. rewrite HF, lookup_insert_eq. simpl.
  destruct (free_mem_forward d s' Hd) as (s2 & -> & HF2 & HD2 & HH2 & HR2 & HRd2 & HM2).
  simpl.
  match goal with
  | |- context [ramdisk_close fd ?x] => set (sx := x)
  end.
  assert (Hhx : fh_at sx fd = Ok (set_fh_ptr 0 (set_fh_omode (Z.lor O_WRONLY O_TRUNC)
                                    (set_fh_dir 0 (set_fh_file f h0))))).
  { apply (fh_at_inserted s sx fd h0 _ Hh0). simpl. by rewrite HH2. }
  erewrite (close_forward sx fd);
    [|exact Hhx|done|simpl; apply lookup_insert_eq|done].
  simpl.
  exists fd, (set_openfor OPENFOR_NOTHING (set_usage 0 (set_size size
                (set_datasize size (set_data obj n))))).
  eexists. split; [reflexivity|]. split_and!; try done.
  - split_and!; try done; simpl.
    + by rewrite HF2, HF, !insert_insert_eq.
    + by rewrite HD2.
    + by rewrite HR2.
    + by rewrite HRd2.
  - split; [lia|]. eexists. split.
    + eapply (fh_at_inserted s _ fd h0); [done|]. simpl.
      by rewrite HH2, HH, list_insert_insert_eq.
    + done.
  - intros p b Hp Hp0 Hb. simpl. destruct (HM p b Hp Hp0 Hb) as [Hb' Hpd].
    by apply HM2.
Qed.

(** A change of a node that keeps its name, type and links keeps the
    tree, the list of the root and what a name resolves to. *)
Lemma node_updated_tree s s' f n n' :
  node_updated s s' f n n' → f_type n = STAT_TYPE_FILE →
  tree_ok (files s) (dirs s) (root s) (rootdir s) →
  tree_ok (files s') (dirs s') (root s') (rootdir s').
Proof.
  intros (Hn & -> & -> & -> & -> & Hnm & Hty & Hnx & Hpv) Hfile Ht.
  eapply tree_ok_insert_same; try done. by rewrite Hfile.
Qed.

Lemma node_updated_children s s' f n n' l :
  node_updated s s' f n n' → root_children s l → root_children s' l.
Proof.
  unfold root_children.
  intros (Hn & -> & -> & _ & -> & _ & _ & Hnx & Hpv) (first & Hfirst & Hc).
  exists first. split; [done|]. by eapply chain_insert_links.
Qed.

Lemma find_in_insert_name F a n n' l name namelen :
  F !! a = Some n → f_name n' = f_name n →
  find_in (<[a := n']> F) l name namelen = find_in F l name namelen.
Proof.
  intros Hn Hnm. induction l as [|b l IH]; [done|]. simpl.
  destruct (decide (b = a)) as [->|Hne].
  - rewrite lookup_insert_eq, Hn, Hnm. by rewrite IH.
  - rewrite lookup_insert_ne by done. by rewrite IH.
Qed.

Lemma node_updated_find s s' f n n' fn :
  node_updated s s' f n n' → f_type n = STAT_TYPE_FILE →
  tree_ok (files s) (dirs s) (root s) (rootdir s) →
  strchr fn "/" = None → fn ≠ EmptyString →
  ramdisk_find_path s' (rootdir s') fn 0 = ramdisk_find_path s (rootdir s) fn 0.
Proof.
  intros Hup Hfile Ht Hno Hne.
  destruct (tree_has_children s Ht) as (l & Hl).
  rewrite (find_path_plain s l fn Ht Hl Hno Hne).
  rewrite (find_path_plain s' l fn); [|by eapply node_updated_tree
                                      |by eapply node_updated_children|done|done].
  destruct Hup as (Hn & -> & _ & _ & _ & Hnm & _).
  by rewrite (find_in_insert_name _ _ n).
Qed.

(** The path given to [ramdisk_unlink] and [ramdisk_stat] resolves as
    the path without its leading slash. *)
Lemma find_path_strip s parent fn dir :
  ramdisk_find_path s parent fn dir
  = ramdisk_find_path s parent (strip_slash fn) dir.
Proof.
  destruct fn as [|[[] [] [] [] [] [] [] []] fn]; reflexivity.
Qed.

(** An open for reading of an unused file, with a free slot. *)
Lemma open_rdonly_forward al fn s f n :
  wf s → open_target s fn O_RDONLY f → files s !! f = Some n →
  f_type n = STAT_TYPE_FILE → f_usage n = 0 →
  (∃ fd, free_slot s fd) →
  ∃ fd h0 s',
    ramdisk_open al fn O_RDONLY s = Ok (fd, s')
    ∧ 1 ≤ fd < FS_RAMDISK_MAX_FILES ∧ fh_at s fd = Ok h0 ∧ fh_file h0 = NULL
    ∧ files s' = <[f := set_usage 1 (set_openfor OPENFOR_READ n)]> (files s)
    ∧ fh s' = <[Z.to_nat fd := set_fh_ptr 0 (set_fh_omode O_RDONLY
                                  (set_fh_dir 0 (set_fh_file f h0)))]> (fh s)
    ∧ dirs s' = dirs s ∧ root s' = root s ∧ rootdir s' = rootdir s
    ∧ mem s' = mem s.
Proof.
  intros Hwf Ht Hn Hty Hus (fd0 & Hfd0 & h & Hh & Hnull).
  pose proof Hwf as (Htree & (Hlen & Hnodes & _) & _). pose proof Htree as (Hr & _).
  destruct (first_free_slot s Hlen) as (fd & h0 & Hfd & Hfd1 & Hh0 & Hnull0);
    [by eauto|].
  destruct (Hnodes _ _ Hn) as (_ & Hunl & _).
  assert (Hof : f_openfor n = OPENFOR_NOTHING) by (by apply Hunl).
  assert (Hf : f ≠ NULL).
  { intros ->. by rewrite (tree_null _ _ _ _ Htree) in Hn. }
  pose proof (open_lookup_found al fn _ s f Ht Hr) as Hlook.
  unfold ramdisk_open.
  change (match fn with String "/" fn' => fn' | _ => fn end) with (strip_slash fn).
  simpl.
  replace (root s =? NULL) with false by (unfold NULL in *; lia).
  simpl in Hlook. rewrite Hlook. simpl.
  replace (f =? NULL) with false by (unfold NULL in *; lia).
  unfold file_at. rewrite Hn. simpl. rewrite Hty.
  rewrite bool_decide_eq_false_2 by done. simpl.
  rewrite Hfd. simpl.
  replace (FS_RAMDISK_MAX_FILES <=? fd) with false by lia.
  rewrite Hof. rewrite bool_decide_eq_false_2 by done.
  rewrite Hh0. simpl. rewrite lookup_insert_eq. simpl. rewrite Hus. simpl.
  exists fd, h0. eexists. split; [reflexivity|]. simpl.
  rewrite ?insert_insert_eq, ?list_insert_insert_eq.
  split_and!; try done; lia.
Qed.

(** [malloc] keeps the live blocks, and returns none of them. *)
Lemma malloc_mem_forward ok size s :
  ∃ d s', malloc_mem ok size s = (d, s')
    ∧ files s' = files s ∧ dirs s' = dirs s ∧ fh s' = fh s
    ∧ root s' = root s ∧ rootdir s' = rootdir s
    ∧ (d = NULL ∨ is_Some (mem s' !! d))
    ∧ ∀ p b, p ≠ NULL → mem s !! p = Some b → mem s' !! p = Some b ∧ p ≠ d.
Proof.
  unfold malloc_mem. destruct (fresh_addr_spec s) as (Hd0 & _ & _ & Hdm).
  destruct ok; eexists _, _; (split; [reflexivity|]); simpl; split_and!; try done.
  - right. rewrite lookup_insert_eq. by eexists.
  - intros p b Hp Hb. assert (p ≠ fresh_addr s) by congruence.
    by rewrite lookup_insert_ne.
  - by left.
Qed.

(** No node of the list passes the test of [ramdisk_find]. *)
Lemma find_in_none F l name namelen :
  (∀ a n, a ∈ l → F !! a = Some n → name_match name namelen (f_name n) = false) →
  find_in F l name namelen = NULL.
Proof.
  induction l as [|a l IH]; intros Hall; [done|]. simpl.
  destruct (F !! a) as [n|] eqn:Hn; [|done].
  rewrite (Hall a n); [|by left|done].
  apply IH. intros b nb Hb. apply Hall. by right.
Qed.

(** [ramdisk_unlink] on an unused file of the root: it returns 0, and
    the name no longer resolves. *)
Lemma unlink_forward fn s f n :
  tree_ok (files s) (dirs s) (root s) (rootdir s) →
  strip_slash fn ≠ EmptyString → strchr (strip_slash fn) "/" = None →
  ramdisk_find_path s (rootdir s) (strip_slash fn) 0 = Ok f → f ≠ NULL →
  files s !! f = Some n → f_usage n = 0 →
  (f_data n = NULL ∨ is_Some (mem s !! f_data n)) →
  ∃ s', ramdisk_unlink fn s = Ok (0, s')
        ∧ keeps_blocks s s' (f_data n)
        ∧ ramdisk_find_path s' (rootdir s') (strip_slash fn) 0 = Ok NULL.
Proof.
  intros Ht Hne Hno Hfind Hf Hn Hus Hdata.
  set (fn' := strip_slash fn) in *.
  destruct (tree_has_children s Ht) as (l & Hl).
  destruct (tree_children s l Ht Hl)
    as (rn & first & Hrn & _ & _ & Hfirst & Hc & Hnd & Hrl & _ & _ & Huniq).
  pose proof Hfind as Hfind'.
  rewrite (find_path_plain s l fn' Ht Hl Hno Hne) in Hfind'. injection Hfind' as Hfi.
  destruct (find_in_spec (files s) _ _ l fn' (String.length fn') Hc)
    as [(Hnull & _) | (l1 & l2 & n0 & Hsplit & _ & Hn0 & Hmatch & _)];
    [congruence|].
  rewrite Hfi in Hsplit, Hn0. assert (n0 = n) as -> by congruence.
  unfold ramdisk_unlink. rewrite find_path_strip. fold fn'. rewrite Hfind. simpl.
  replace (f =? NULL) with false by (unfold NULL in *; lia). simpl.
  unfold file_at. rewrite Hn. simpl. rewrite Hus. simpl.
  destruct (free_mem_forward (f_data n) s Hdata)
    as (s3 & -> & HF3 & HD3 & HH3 & HR3 & HRd3 & HM3). simpl.
  destruct (LIST_REMOVE_spec s3 (rootdir s) first f n l1 l2)
    as (s4 & first' & -> & HD4 & Hc4 & HR4 & HM4 & HH4 & HRt4 & HRd4 & HE4).
  { by rewrite HD3. }
  { by rewrite HF3. }
  { rewrite HF3, <- Hsplit. done. }
  simpl. eexists. split; [reflexivity|]. split.
  { intros p b Hp Hp0 Hb. simpl. rewrite HM4. by apply HM3. }
  simpl. rewrite HRd4, HRd3.
  match goal with |- ramdisk_find_path ?x _ _ _ = _ => set (s5 := x) end.
  assert (Hnot : f ∉ l1 ++ l2).
  { rewrite Hsplit in Hnd. apply NoDup_app in Hnd as (Hnd1 & Hnd2 & Hnd3).
    apply NoDup_cons in Hnd3 as (Hnd3 & _).
    intros [Hin | Hin]%elem_of_app; [|done]. apply (Hnd2 f Hin). by left. }
  assert (Ht5 : tree_ok (files s5) (dirs s5) (root s5) (rootdir s5)).
  { simpl. rewrite HD4, HD3, HRt4, HR3, HRd4, HRd3.
    eapply (tree_ok_remove (files s) (files s4) _ _ _ first first' l1 f l2);
      try done; [by rewrite <- Hsplit | by rewrite <- HF3]. }
  assert (Hl5 : root_children s5 (l1 ++ l2)).
  { exists first'. simpl. rewrite HD4, HRd4, HRd3, HD3, lookup_insert_eq.
    split; [done|]. by apply chain_delete_fresh. }
  assert (Hrd5 : rootdir s = rootdir s5) by (simpl; by rewrite HRd4, HRd3).
  rewrite Hrd5, (find_path_plain s5 (l1 ++ l2) fn' Ht5 Hl5 Hno Hne). f_equal.
  apply find_in_none. intros a na Ha Hna. simpl in Hna.
  assert (Haf : a ≠ f) by congruence.
  rewrite lookup_delete_ne in Hna by done.
  destruct (relinked_lookup _ _ _ _ HR4 Hna) as (nb & Hnb & Hpay).
  rewrite HF3 in Hnb. destruct Hpay as (Hnm & _).
  destruct (name_match fn' (String.length fn') (f_name na)) eqn:Em; [|done].
  exfalso. apply Haf. apply (Huniq a f nb n); try done.
  - rewrite Hsplit. apply elem_of_app in Ha as [Ha | Ha];
      apply elem_of_app; [by left | right; by right].
  - rewrite Hsplit. apply elem_of_app. right. by left.
  - apply name_match_lower in Em as [_ Em]; [|done].
    apply name_match_lower in Hmatch as [_ Hmatch]; [|done]. congruence.
Qed.

(** [fs_ramdisk_detach] on an unused file of the root, with a free
    slot: it returns 0 and hands out the block and the size of the node;
    the blocks stay, and the name no longer resolves. *)
Lemma detach_forward fake_ok fn s f n :
  wf s → strip_slash fn ≠ EmptyString → strchr (strip_slash fn) "/" = None →
  ramdisk_find_path s (rootdir s) (strip_slash fn) 0 = Ok f → f ≠ NULL →
  files s !! f = Some n → f_usage n = 0 →
  (∃ fd, free_slot s fd) →
  ∃ s2, fs_ramdisk_detach fake_ok fn s = Ok (0, Some (f_data n, f_size n), s2)
        ∧ keeps_blocks s s2 NULL
        ∧ ramdisk_find_path s2 (rootdir s2) (strip_slash fn) 0 = Ok NULL.
Proof.
  intros Hwf Hne Hno Hfind Hf Hn Hus Hslot. pose proof Hwf as (Htree & _).
  assert (Hty : f_type n = STAT_TYPE_FILE)
    by (by eapply find_path_loop_file).
  assert (Ht : open_target s fn O_RDONLY f).
  { unfold open_target. destruct (strip_slash fn); [done|]. by split. }
  destruct (open_rdonly_forward all_ok fn s f n Hwf Ht Hn Hty Hus Hslot)
    as (fd & h0 & s' & Hopen & Hfd & Hh0 & Hnull0 & HF & HH & HD & HR & HRd & HM).
  unfold fs_ramdisk_detach. rewrite Hopen. simpl.
  replace (fd =? NULL) with false by (unfold NULL; lia).
  rewrite (fh_at_inserted s s' fd h0 _ Hh0 HH). simpl.
  unfold file_at. rewrite HF, lookup_insert_eq. simpl.
  destruct (malloc_mem_forward fake_ok 64 s')
    as (d & s2 & -> & HF2 & HD2 & HH2 & HR2 & HRd2 & Hd & HM2).
  match goal with
  | |- context [ramdisk_close fd ?x] => set (sx := x)
  end.
  assert (Hhx : fh_at sx fd = Ok (set_fh_ptr 0 (set_fh_omode O_RDONLY
                                    (set_fh_dir 0 (set_fh_file f h0))))).
  { apply (fh_at_inserted s sx fd h0 _ Hh0). simpl. by rewrite HH2. }
  erewrite (close_forward sx fd);
    [|exact Hhx|done|simpl; apply lookup_insert_eq|done].
  simpl.
  match goal with
  | |- context [ramdisk_unlink fn ?x] => set (sc := x)
  end.
  set (nC := set_openfor OPENFOR_NOTHING (set_usage 0 (set_size 64
               (set_datasize 64 (set_data d n))))).
  assert (Hup : node_updated s sc f n nC).
  { split_and!; try done; simpl.
    - rewrite HF2, HF, !insert_insert_eq. done.
    - by rewrite HD2.
    - by rewrite HR2.
    - by rewrite HRd2. }
  destruct (unlink_forward fn sc f nC) as (s5 & -> & HM5 & Hgone).
  - by eapply node_updated_tree.
  - done.
  - done.
  - by rewrite (node_updated_find s sc f n nC).
  - done.
  - destruct Hup as (_ & -> & _). apply lookup_insert_eq.
  - done.
  - done.
  - simpl. exists s5. split; [done|]. split; [|done].
    intros p b _ Hp Hb. rewrite <- HM in Hb.
    destruct (HM2 p b Hp Hb) as [Hb2 Hpd]. apply HM5; done.
Qed.

(** Attach and detach on an unused file of the root. *)
Lemma attach_detach_existing al fake_ok fn B size blk s f n :
  attach_flags_plain → writable_mode (Z.lor O_WRONLY O_TRUNC) → wf s →
  strip_slash fn ≠ EmptyString → strchr (strip_slash fn) "/" = None →
  ramdisk_find_path s (rootdir s) (strip_slash fn) 0 = Ok f → f ≠ NULL →
  files s !! f = Some n → f_usage n = 0 →
  (f_data n = NULL ∨ is_Some (mem s !! f_data n)) → f_data n ≠ B →
  B ≠ NULL → mem s !! B = Some blk →
  (∃ fd, free_slot s fd) →
  ∃ s1 s2,
    fs_ramdisk_attach al fn B size s = Ok (0, s1)
    ∧ fs_ramdisk_detach fake_ok fn s1 = Ok (0, Some (B, size), s2)
    ∧ mem s2 !! B = Some blk
    ∧ ramdisk_find_path s2 (rootdir s2) (strip_slash fn) 0 = Ok NULL.
Proof.
  intros Hflags Hwr Hwf Hne Hno Hfind Hf Hn Hus Hdata HnB HB HBlk Hslot.
  pose proof Hwf as (Htree & _).
  assert (Hty : f_type n = STAT_TYPE_FILE)
    by (by eapply find_path_loop_file).
  assert (Ht : open_target s fn (Z.lor O_WRONLY O_TRUNC) f).
  { unfold open_target. destruct (strip_slash fn); [done|].
    unfold attach_flags_plain in Hflags. rewrite Hflags. by split. }
  destruct (attach_forward al fn B size s f n Hflags Hwr Hwf Ht Hn Hty Hus Hdata Hslot)
    as (fd & nA & s1 & Hatt & Hup & HdA & HsA & _ & HuA & Hslot1 & Hkeep).
  pose proof (wf_attach _ _ _ _ _ _ _ Hflags Hwf Hatt) as Hwf1.
  destruct (detach_forward fake_ok fn s1 f nA) as (s2 & Hdet & Hkeep2 & Hgone);
    try done.
  - by rewrite (node_updated_find s s1 f n nA).
  - destruct Hup as (_ & -> & _). apply lookup_insert_eq.
  - by eauto.
  - exists s1, s2. rewrite HdA, HsA in Hdet. split_and!; try done.
    apply Hkeep2; [done..|]. apply Hkeep; done.
Qed.

(** An open that creates the node goes on as an open of the node. *)
Lemma open_created al fn mode s f sL :
  Z.land mode O_DIR = 0 → Z.land mode O_MODE_MASK ≠ O_RDONLY →
  strip_slash fn ≠ EmptyString →
  ramdisk_find_path s (rootdir s) (strip_slash fn) 0 = Ok NULL →
  ramdisk_create_file al (rootdir s) (strip_slash fn) 0 s = Ok (f, sL) →
  f ≠ NULL → root sL = root s →
  ramdisk_find_path sL (rootdir sL) (strip_slash fn) 0 = Ok f →
  ramdisk_open al fn mode s = ramdisk_open al fn mode sL.
Proof.
  intros Hdir Hmm Hne Hfind Hcreate Hf Hroot Hfind'. unfold ramdisk_open.
  change (match fn with String "/" fn' => fn' | _ => fn end) with (strip_slash fn).
  rewrite Hdir, Hroot. simpl. destruct (root s =? NULL); [done|].
  destruct (strip_slash fn) as [|c fn'] eqn:Efn; [done|].
  rewrite Hfind, Hfind'. simpl.
  replace (Z.land mode O_MODE_MASK =? O_RDONLY) with false by lia. simpl.
  rewrite Hcreate. simpl.
  replace (f =? NULL) with false by (unfold NULL in *; lia). simpl.
  by replace (f =? NULL) with false by (unfold NULL in *; lia).
Qed.

(** C4, amended.  In a reachable state with a free slot in the handle
    table, take a name of the root directory (after one leading slash:
    not empty, without a slash) whose node, if there is one, is unused,
    with a data pointer that is [NULL] or a live block other than [B];
    and a live block [B] of the caller, with contents [blk].  When the
    allocations of a new node succeed, [fs_ramdisk_attach] with [B] and
    the length of [blk] returns 0, and [fs_ramdisk_detach] right after it
    returns 0 with the pointer [B] and that length; the block [B] still
    holds [blk], and the name no longer resolves. *)
Theorem attach_detach_roundtrip s al fake_ok fn B blk :
  attach_flags_plain → writable_mode (Z.lor O_WRONLY O_TRUNC) → reachable s →
  strip_slash fn ≠ EmptyString → strchr (strip_slash fn) "/" = None →
  (∃ fd, free_slot s fd) →
  node_ok al = true → name_ok al = true → data_ok al = true →
  B ≠ NULL → mem s !! B = Some blk →
  (∀ f n,
     ramdisk_find_path s (rootdir s) (strip_slash fn) 0 = Ok f →
     files s !! f = Some n →
     f_usage n = 0 ∧ (f_data n = NULL ∨ is_Some (mem s !! f_data n)) ∧ f_data n ≠ B) →
  ∃ s1 s2,
    fs_ramdisk_attach al fn B (Z.of_nat (length blk)) s = Ok (0, s1)
    ∧ fs_ramdisk_detach fake_ok fn s1 = Ok (0, Some (B, Z.of_nat (length blk)), s2)
    ∧ mem s2 !! B = Some blk
    ∧ ramdisk_find_path s2 (rootdir s2) (strip_slash fn) 0 = Ok NULL.
Proof.
  intros Hflags Hwr Hreach Hne Hno Hslot Hnode Hname Hdata HB HBlk Hold.
  pose proof (reachable_wf s Hflags Hreach) as Hwf.
  pose proof Hwf as (Ht & _).
  destruct (tree_has_children s Ht) as (l & Hl).
  destruct (tree_children s l Ht Hl) as (_ & first & _ & _ & _ & _ & Hc & _).
  pose proof (find_path_plain s l _ Ht Hl Hno Hne) as Hfind.
  set (f := find_in (files s) l (strip_slash fn) (String.length (strip_slash fn))) in *.
  destruct (decide (f = NULL)) as [Hnull | Hf].
  - (* the node is created *)
    rewrite Hnull in Hfind.
    destruct (create_file_ok al s l _ Ht Hl Hno Hnode Hname Hdata) as (sL & Hcreate).
    destruct (fresh_addr_spec s) as (Hf0 & Hff & _ & _).
    destruct (wf_create al s _ _ sL Hwf Hne Hfind Hcreate) as (HwfL & Hnew).
    destruct (Hnew Hf0) as (d0 & n & Hn & Hpay).
    destruct (create_file_spec al s l _ _ sL Ht Hl Hcreate)
      as [[? _] | (_ & _ & d & Hd & Hdm & HR & HcL & HD & HM & HH & HRt & HRd & HE)];
      [done|].
    destruct (relinked_forward _ _ (fresh_addr s) (new_file (strip_slash fn) d) HR)
      as (n' & Hn' & Hpay'); [apply lookup_insert_eq|].
    assert (n' = n) as -> by congruence. clear Hpay d0.
    destruct Hpay' as (Hnm & _ & _ & _ & Hus & Hda & _). simpl in *.
    assert (HlL : root_children sL (fresh_addr s :: l)).
    { exists (fresh_addr s). rewrite HRd, HD. split; [apply lookup_insert_eq | done]. }
    pose proof HwfL as (HtL & _).
    assert (HfindL : ramdisk_find_path sL (rootdir sL) (strip_slash fn) 0
                     = Ok (fresh_addr s)).
    { rewrite (find_path_plain sL _ _ HtL HlL Hno Hne). simpl.
      rewrite Hn, Hnm. by rewrite name_match_self. }
    assert (HdB : d ≠ B) by congruence.
    destruct (attach_detach_existing al fake_ok fn B (Z.of_nat (length blk)) blk
                sL (fresh_addr s) n) as (s1 & s2 & Hatt & Hrest); try done.
    + rewrite Hda, HM. right. rewrite lookup_insert_eq. by eexists.
    + by rewrite Hda.
    + rewrite HM. by rewrite lookup_insert_ne.
    + destruct Hslot as (fd & Hfd & h & Hh & Hnull'). exists fd. split; [done|].
      exists h. split; [|done]. unfold fh_at in *. by rewrite HH.
    + exists s1, s2. split; [|done]. rewrite <- Hatt. unfold fs_ramdisk_attach.
      destruct Hwr as (Hmm & _).
      by rewrite (open_created al fn _ s (fresh_addr s) sL).
  - (* the node exists *)
    assert (Hin : f ∈ l) by (by eapply find_in_elem).
    destruct (chain_lookup _ _ _ _ _ Hc Hin) as (_ & n & Hn).
    destruct (Hold f n Hfind Hn) as (Hus & Hdat & HnB).
    by eapply (attach_detach_existing al fake_ok fn B _ blk s f n).
Qed.

End Roundtrip.

Section RoundtripWitness.
#[local] Existing Instance kos_default_opts.

(** C4 as stated fails when the handle table is full.  The root is open
    seven times as a directory, so no slot is free; the root directory
    exists and is empty, so the path [x] has a parent and no node; the
    caller owns the two-byte block at address 3.  [fs_ramdisk_attach]
    returns [-1], not [0]. *)
Lemma attach_fails_on_full_table :
  let s := after (replicate 7 (Open all_ok "/" (Z.lor O_RDONLY O_DIR))
                  ++ [ClientMalloc ["h"%byte; "i"%byte]]) in
  reachable s
  ∧ root_children s []
  ∧ ramdisk_find_path s (rootdir s) "x" 0 = Ok NULL
  ∧ mem s !! 3 = Some ["h"%byte; "i"%byte]
  ∧ fst <$> fs_ramdisk_attach all_ok "x" 3 2 s = Ok (-1)
  ∧ ∀ s1, fs_ramdisk_attach all_ok "x" 3 2 s ≠ Ok (0, s1).
Proof.
  intros s.
  assert (Hatt : fst <$> fs_ramdisk_attach all_ok "x" 3 2 s = Ok (-1))
    by (vm_compute; reflexivity).
  split; [apply (after_reachable _ s); vm_compute; reflexivity|].
  split; [exists 0; split; [vm_compute; reflexivity | apply chain_nil]|].
  split; [vm_compute; reflexivity|].
  split; [vm_compute; reflexivity|].
  split; [exact Hatt|].
  intros s1 H. rewrite H in Hatt. discriminate Hatt.
Qed.

(** The theorem at work: in a fresh file system the caller allocates a
    two-byte block, at address 3; attached to [x] and detached again, it
    comes back with its address, its size and its contents. *)
Lemma attach_detach_roundtrip_witness :
  let s := after [ClientMalloc ["h"%byte; "i"%byte]] in
  ∃ s1 s2,
    fs_ramdisk_attach all_ok "x" 3 2 s = Ok (0, s1)
    ∧ fs_ramdisk_detach true "x" s1 = Ok (0, Some (3, 2), s2)
    ∧ mem s2 !! 3 = Some ["h"%byte; "i"%byte]
    ∧ ramdisk_find_path s2 (rootdir s2) "x" 0 = Ok NULL.
Proof.
  intros s.
  assert (Hflags : attach_flags_plain) by (vm_compute; reflexivity).
  assert (Hwr : writable_mode (Z.lor O_WRONLY O_TRUNC))
    by (vm_compute; split; [|right]; congruence).
  assert (Hreach : reachable s)
    by (apply (after_reachable _ s); vm_compute; reflexivity).
  assert (H1 : strip_slash "x" ≠ EmptyString) by (simpl; discriminate).
  assert (H2 : strchr (strip_slash "x") "/" = None) by (vm_compute; reflexivity).
  assert (H3 : ∃ fd, free_slot s fd).
  { exists 1. split; [vm_compute; split; congruence|].
    exists (slot_of s 1). split; vm_compute; reflexivity. }
  assert (H4 : (3 : Z) ≠ NULL) by (vm_compute; congruence).
  assert (H5 : mem s !! 3 = Some ["h"%byte; "i"%byte]) by (vm_compute; reflexivity).
  assert (H6 : ∀ f n,
             ramdisk_find_path s (rootdir s) (strip_slash "x") 0 = Ok f →
             files s !! f = Some n →
             f_usage n = 0 ∧ (f_data n = NULL ∨ is_Some (mem s !! f_data n))
             ∧ f_data n ≠ 3).
  { intros f n Hf Hn. assert (f = 0) as -> by (vm_compute in Hf; congruence).
    vm_compute in Hn. discriminate Hn. }
  exact (attach_detach_roundtrip s all_ok true "x" 3 ["h"%byte; "i"%byte]
           Hflags Hwr Hreach H1 H2 H3 eq_refl eq_refl eq_refl H4 H5 H6).
Defined.

End RoundtripWitness.

(** * Further properties of the operations *)

(** ** The handle table and the tree in reachable states *)

Section Consistency.
Context {opts : kos_opts}.

(** The usage count of a node is the number of slots of the handle table
    that refer to it; the node is unlocked exactly when there is none,
    and a node locked for writing has exactly one. *)
Theorem usage_counts_open_handles s a n :
  attach_flags_plain → reachable s → files s !! a = Some n →
  f_usage n = Z.of_nat (handles_on a (fh s))
  ∧ (f_openfor n = OPENFOR_NOTHING ↔ handles_on a (fh s) = 0%nat)
  ∧ (f_openfor n = OPENFOR_WRITE → handles_on a (fh s) = 1%nat).
Proof.
  intros Hflags Hreach Hn.
  destruct (reachable_wf s Hflags Hreach) as (_ & (_ & Hnodes & _) & _).
  destruct (Hnodes a n Hn) as (Hu & Hunl & Hone).
  split; [done|]. split; [|intros Hw; specialize (Hone Hw); lia].
  rewrite Hunl. lia.
Qed.

(** A slot in use never dangles: it refers to a node of the store, in
    use, locked for reading if the slot was opened read-only and for
    writing if not. *)
Theorem open_handles_are_live s fd h :
  attach_flags_plain → reachable s → fh_at s fd = Ok h → fh_file h ≠ NULL →
  ∃ n, files s !! fh_file h = Some n
       ∧ 0 < f_usage n
       ∧ f_openfor n = if Z.land (fh_omode h) O_MODE_MASK =? O_RDONLY
                       then OPENFOR_READ else OPENFOR_WRITE.
Proof.
  intros Hflags Hreach Hh Hf.
  destruct (reachable_wf s Hflags Hreach) as (_ & (_ & Hnodes & Hslots) & _).
  apply fh_at_Ok in Hh as [_ Hl].
  destruct (Hslots _ _ Hl Hf) as (n & Hn & Ho). exists n. split_and!; try done.
  destruct (Hnodes _ _ Hn) as (Hu & _).
  pose proof (handles_on_slot (fh_file h) (fh s) _ h Hl eq_refl). lia.
Qed.

(** The store is a root directory and, in its list, files: there is no
    other node, no file is listed twice, and no two files have names
    that are equal when the case of the letters is ignored. *)
Theorem root_directory_is_flat s :
  attach_flags_plain → reachable s →
  ∃ rn l,
    files s !! root s = Some rn ∧ f_type rn = STAT_TYPE_DIR
    ∧ f_data rn = rootdir s
    ∧ root_children s l ∧ NoDup l
    ∧ (∀ a, is_Some (files s !! a) ↔ a = root s ∨ a ∈ l)
    ∧ (∀ a n, a ∈ l → files s !! a = Some n → f_type n = STAT_TYPE_FILE)
    ∧ (∀ a b na nb, a ∈ l → b ∈ l →
         files s !! a = Some na → files s !! b = Some nb →
         lower (f_name na) = lower (f_name nb) → a = b).
Proof.
  intros Hflags Hreach.
  destruct (reachable_wf s Hflags Hreach) as (Ht & _).
  destruct (tree_has_children s Ht) as (l & Hl).
  destruct (tree_children s l Ht Hl)
    as (rn & first & Hrn & Hty & Hd & _ & _ & Hnd & _ & Hall & Hfile & Huniq).
  exists rn, l. split_and!; done.
Qed.

(** [ramdisk_unlink] refuses a file that a handle is open on: it returns
    [-1] and changes nothing. *)
Theorem unlink_refuses_open_file s fd h fn :
  attach_flags_plain → reachable s → fh_at s fd = Ok h → fh_file h ≠ NULL →
  ramdisk_find_path s (rootdir s) fn 0 = Ok (fh_file h) →
  ramdisk_unlink fn s = Ok (-1, s).
Proof.
  intros Hflags Hreach Hh Hf Hfind.
  destruct (reachable_wf s Hflags Hreach) as (_ & (_ & Hnodes & Hslots) & _).
  apply fh_at_Ok in Hh as [_ Hl].
  destruct (Hslots _ _ Hl Hf) as (n & Hn & _).
  destruct (Hnodes _ _ Hn) as (Hu & _).
  pose proof (handles_on_slot (fh_file h) (fh s) _ h Hl eq_refl).
  unfold ramdisk_unlink. rewrite Hfind. simpl.
  replace (fh_file h =? NULL) with false by (unfold NULL in *; lia). simpl.
  unfold file_at. rewrite Hn. simpl.
  by replace (f_usage n =? 0) with false by lia.
Qed.

(** [fcntl(F_GETFL)] on a handle that [ramdisk_open] has just returned
    gives back the flags of the open; the other three commands return 0.
    None of them changes the state. *)
Theorem fcntl_getfl_returns_open_flags s al fn mode fd s' :
  attach_flags_plain → reachable s →
  ramdisk_open al fn mode s = Ok (fd, s') → fd ≠ NULL →
  ramdisk_fcntl fd F_GETFL s' = Ok (mode, s')
  ∧ ramdisk_fcntl fd F_SETFL s' = Ok (0, s')
  ∧ ramdisk_fcntl fd F_GETFD s' = Ok (0, s')
  ∧ ramdisk_fcntl fd F_SETFD s' = Ok (0, s').
Proof.
  intros Hflags Hreach Hopen Hfd.
  pose proof (reachable_wf s Hflags Hreach) as Hwf.
  destruct (open_result _ _ _ _ _ _ Hwf Hopen) as (_ & Hres).
  destruct (Hres Hfd) as (h & n & Hh & Hf & _ & Hmode & _).
  pose proof Hh as [Hr _]%fh_at_Ok.
  unfold ramdisk_fcntl.
  replace (FS_RAMDISK_MAX_FILES <=? fd) with false by lia.
  rewrite Hh. simpl.
  replace (fh_file h =? NULL) with false by (unfold NULL in *; lia).
  by rewrite Hmode.
Qed.

End Consistency.

Section ConsistencyWitness.
#[local] Existing Instance kos_default_opts.

(** In the example state the node of [hello.txt] has one handle and is
    locked for reading. *)
Lemma usage_counts_open_handles_witness :
  let s := after hello_calls in
  let a := fh_file (slot_of s 1) in
  f_usage (node_of s a) = Z.of_nat (handles_on a (fh s))
  ∧ (f_openfor (node_of s a) = OPENFOR_NOTHING ↔ handles_on a (fh s) = 0%nat)
  ∧ (f_openfor (node_of s a) = OPENFOR_WRITE → handles_on a (fh s) = 1%nat).
Proof.
  intros s a.
  assert (Hflags : attach_flags_plain) by (vm_compute; reflexivity).
  assert (Hreach : reachable s)
    by (apply (after_reachable _ s); vm_compute; reflexivity).
  assert (Hn : files s !! a = Some (node_of s a)) by (vm_compute; reflexivity).
  exact (usage_counts_open_handles s a (node_of s a) Hflags Hreach Hn).
Defined.

Lemma open_handles_are_live_witness :
  let s := after hello_calls in
  let h := slot_of s 1 in
  ∃ n, files s !! fh_file h = Some n
       ∧ 0 < f_usage n
       ∧ f_openfor n = if Z.land (fh_omode h) O_MODE_MASK =? O_RDONLY
                       then OPENFOR_READ else OPENFOR_WRITE.
Proof.
  intros s h.
  assert (Hflags : attach_flags_plain) by (vm_compute; reflexivity).
  assert (Hreach : reachable s)
    by (apply (after_reachable _ s); vm_compute; reflexivity).
  assert (H1 : fh_at s 1 = Ok h) by (vm_compute; reflexivity).
  assert (H2 : fh_file h ≠ NULL) by (vm_compute; congruence).
  exact (open_handles_are_live s 1 h Hflags Hreach H1 H2).
Defined.

Lemma root_directory_is_flat_witness :
  let s := after hello_calls in
  ∃ rn l,
    files s !! root s = Some rn ∧ f_type rn = STAT_TYPE_DIR
    ∧ f_data rn = rootdir s
    ∧ root_children s l ∧ NoDup l
    ∧ (∀ a, is_Some (files s !! a) ↔ a = root s ∨ a ∈ l)
    ∧ (∀ a n, a ∈ l → files s !! a = Some n → f_type n = STAT_TYPE_FILE)
    ∧ (∀ a b na nb, a ∈ l → b ∈ l →
         files s !! a = Some na → files s !! b = Some nb →
         lower (f_name na) = lower (f_name nb) → a = b).
Proof.
  intros s.
  assert (Hflags : attach_flags_plain) by (vm_compute; reflexivity).
  assert (Hreach : reachable s)
    by (apply (after_reachable _ s); vm_compute; reflexivity).
  exact (root_directory_is_flat s Hflags Hreach).
Defined.

(** [hello.txt] is open through handle 1 and cannot be unlinked. *)
Lemma unlink_refuses_open_file_witness :
  let s := after hello_calls in
  ramdisk_unlink "hello.txt" s = Ok (-1, s).
Proof.
  intros s.
  assert (Hflags : attach_flags_plain) by (vm_compute; reflexivity).
  assert (Hreach : reachable s)
    by (apply (after_reachable _ s); vm_compute; reflexivity).
  assert (H1 : fh_at s 1 = Ok (slot_of s 1)) by (vm_compute; reflexivity).
  assert (H2 : fh_file (slot_of s 1) ≠ NULL) by (vm_compute; congruence).
  assert (H3 : ramdisk_find_path s (rootdir s) "hello.txt" 0
               = Ok (fh_file (slot_of s 1))) by (vm_compute; reflexivity).
  exact (unlink_refuses_open_file s 1 (slot_of s 1) "hello.txt" Hflags Hreach H1 H2 H3).
Defined.

(** A file opened for appending reports the flags of the open. *)
Lemma fcntl_getfl_returns_open_flags_witness :
  let s := after [] in
  let s' := after [Open all_ok "f" (Z.lor O_WRONLY O_APPEND)] in
  ramdisk_fcntl 1 F_GETFL s' = Ok (Z.lor O_WRONLY O_APPEND, s').
Proof.
  intros s s'.
  assert (Hflags : attach_flags_plain) by (vm_compute; reflexivity).
  assert (Hreach : reachable s)
    by (apply (after_reachable _ s); vm_compute; reflexivity).
  assert (H1 : ramdisk_open all_ok "f" (Z.lor O_WRONLY O_APPEND) s = Ok (1, s'))
    by (vm_compute; reflexivity).
  assert (H2 : (1 : Z) ≠ NULL) by (vm_compute; congruence).
  exact (proj1 (fcntl_getfl_returns_open_flags s all_ok "f" _ 1 s'
                  Hflags Hreach H1 H2)).
Defined.

End ConsistencyWitness.

(** ** Names: case, and paths below the root *)

Section Lookup.
Context {opts : kos_opts}.

Lemma name_match_case a b nm :
  lower a = lower b →
  name_match a (String.length a) nm = name_match b (String.length b) nm.
Proof.
  intros Hab.
  assert (Hlen : String.length a = String.length b).
  { apply (f_equal length) in Hab. by rewrite !lower_length in Hab. }
  apply Bool.eq_iff_eq_true.
  rewrite !name_match_lower by done. rewrite !strtake_length, Hlen, Hab. done.
Qed.

Lemma find_in_case F l a b :
  lower a = lower b →
  find_in F l a (String.length a) = find_in F l b (String.length b).
Proof.
  intros Hab. induction l as [|x l IH]; [done|]. simpl.
  destruct (F !! x) as [n|]; [|done].
  by rewrite (name_match_case a b _ Hab), IH.
Qed.

(** Names are looked up without regard to the case of their letters: two
    names of the root directory that differ in case only resolve to the
    same node, and [stat] answers the same for both. *)
Theorem lookup_ignores_case s fn1 fn2 :
  attach_flags_plain → reachable s →
  fn1 ≠ EmptyString → strchr fn1 "/" = None → strchr fn2 "/" = None →
  lower fn1 = lower fn2 →
  ramdisk_find_path s (rootdir s) fn1 0 = ramdisk_find_path s (rootdir s) fn2 0
  ∧ ramdisk_stat fn1 s = ramdisk_stat fn2 s.
Proof.
  intros Hflags Hreach Hne1 Hno1 Hno2 Hlow.
  destruct (reachable_wf s Hflags Hreach) as (Ht & _).
  destruct (tree_has_children s Ht) as (l & Hl).
  assert (Hne2 : fn2 ≠ EmptyString).
  { intros ->. by destruct fn1. }
  assert (Hfind : ramdisk_find_path s (rootdir s) fn1 0
                  = ramdisk_find_path s (rootdir s) fn2 0).
  { rewrite !(find_path_plain s l) by done. f_equal. by apply find_in_case. }
  split; [done|]. unfold ramdisk_stat.
  rewrite !(bool_decide_eq_false_2 (_ = EmptyString)) by done.
  rewrite (bool_decide_eq_false_2 (fn1 = "/"%string))
    by (intros ->; discriminate).
  rewrite (bool_decide_eq_false_2 (fn2 = "/"%string))
    by (intros ->; discriminate).
  simpl. by rewrite Hfind.
Qed.

(** A path with a slash after its first component resolves to nothing:
    there is no directory below the root. *)
Lemma find_path_nested s fn cur dir :
  tree_ok (files s) (dirs s) (root s) (rootdir s) →
  strchr fn "/" = Some cur → cur ≠ 0%nat →
  ramdisk_find_path s (rootdir s) fn dir = Ok NULL.
Proof.
  intros Ht Hcur Hnz. destruct (tree_has_children s Ht) as (l & Hl).
  destruct (tree_children s l Ht Hl)
    as (rn & first & _ & _ & _ & _ & Hc & _ & _ & _ & Hfile & _).
  unfold ramdisk_find_path. simpl. rewrite Hcur.
  replace (cur =? 0)%nat with false by (symmetry; by apply Nat.eqb_neq). simpl.
  rewrite (ramdisk_find_root s l) by done. simpl.
  destruct (find_in (files s) l fn cur =? NULL) eqn:E; [done|].
  assert (Hin : find_in (files s) l fn cur ∈ l).
  { eapply find_in_elem; [done|]. unfold NULL in *. lia. }
  destruct (chain_lookup _ _ _ _ _ Hc Hin) as (_ & n & Hn).
  unfold file_at. rewrite Hn. simpl. by rewrite (Hfile _ _ Hin Hn).
Qed.

(** Nothing can be opened or created below the root: for a path with a
    slash after its first component [ramdisk_open] returns [NULL] in
    every mode and changes nothing (when a new file is asked for, the
    copy of the directory part has to be allocated first). *)
Theorem open_below_root_fails s al fn mode cur :
  attach_flags_plain → reachable s →
  strchr (strip_slash fn) "/" = Some cur → cur ≠ 0%nat → pname_ok al = true →
  ramdisk_open al fn mode s = Ok (NULL, s).
Proof.
  intros Hflags Hreach Hcur Hnz Hpname.
  destruct (reachable_wf s Hflags Hreach) as (Ht & _). pose proof Ht as (Hr & _).
  destruct (tree_has_children s Ht) as (l & Hl).
  unfold ramdisk_open.
  change (match fn with String "/" fn' => fn' | _ => fn end) with (strip_slash fn).
  destruct (negb (Z.land mode O_DIR =? 0) && _); [done|].
  replace (root s =? NULL) with false by (unfold NULL in *; lia).
  destruct (strip_slash fn) as [|c fn'] eqn:Efn; [done|].
  rewrite (find_path_nested s _ cur _ Ht Hcur Hnz). simpl.
  destruct (negb (Z.land mode O_MODE_MASK =? O_RDONLY) && (Z.land mode O_DIR =? 0))
    eqn:Ecreate; [|done].
  apply andb_true_iff in Ecreate as [_ Hdir]. apply Z.eqb_eq in Hdir.
  rewrite Hdir. unfold ramdisk_create_file.
  rewrite Hpname, (get_parent_root s l) by done. rewrite Hcur. done.
Qed.

End Lookup.

Section LookupWitness.
#[local] Existing Instance kos_default_opts.

(** [HELLO.TXT] is [hello.txt]. *)
Lemma lookup_ignores_case_witness :
  let s := after hello_calls in
  ramdisk_find_path s (rootdir s) "hello.txt" 0
  = ramdisk_find_path s (rootdir s) "HELLO.TXT" 0
  ∧ ramdisk_stat "hello.txt" s = ramdisk_stat "HELLO.TXT" s.
Proof.
  intros s.
  assert (Hflags : attach_flags_plain) by (vm_compute; reflexivity).
  assert (Hreach : reachable s)
    by (apply (after_reachable _ s); vm_compute; reflexivity).
  assert (H1 : "hello.txt"%string ≠ EmptyString) by discriminate.
  assert (H2 : strchr "hello.txt" "/" = None) by (vm_compute; reflexivity).
  assert (H3 : strchr "HELLO.TXT" "/" = None) by (vm_compute; reflexivity).
  assert (H4 : lower "hello.txt" = lower "HELLO.TXT") by (vm_compute; reflexivity).
  exact (lookup_ignores_case s "hello.txt" "HELLO.TXT" Hflags Hreach H1 H2 H3 H4).
Defined.

(** No file [b] can be created in a directory [a]. *)
Lemma open_below_root_fails_witness :
  let s := after hello_calls in
  ramdisk_open all_ok "a/b" O_WRONLY s = Ok (NULL, s).
Proof.
  intros s.
  assert (Hflags : attach_flags_plain) by (vm_compute; reflexivity).
  assert (Hreach : reachable s)
    by (apply (after_reachable _ s); vm_compute; reflexivity).
  assert (H1 : strchr (strip_slash "a/b") "/" = Some 1%nat) by (vm_compute; reflexivity).
  assert (H2 : 1%nat ≠ 0%nat) by lia.
  exact (open_below_root_fails s all_ok "a/b" O_WRONLY 1 Hflags Hreach H1 H2 eq_refl).
Defined.

End LookupWitness.

(** ** What stat and fstat report for a file *)

Section StatFile.
Context {opts : kos_opts}.

(** The block count that [ramdisk_stat] and [ramdisk_fstat] report is
    the capacity in units of 1024 bytes, rounded up. *)
Theorem stat_blocks_rounds_up d :
  0 ≤ d →
  stat_blocks d = (d + 1023) / 1024
  ∧ d ≤ 1024 * stat_blocks d < d + 1024.
Proof.
  intros Hd. unfold stat_blocks.
  rewrite Z.shiftr_div_pow2 by lia.
  replace (Z.land d 0x3ff) with (d mod 1024)
    by (change 0x3ff with (Z.ones 10); by rewrite Z.land_ones by lia).
  change (2 ^ 10) with 1024.
  pose proof (Z.div_mod d 1024 ltac:(lia)) as Hdm.
  pose proof (Z.mod_pos_bound d 1024 ltac:(lia)) as Hm.
  destruct (d mod 1024 =? 0) eqn:E; simpl.
  - apply Z.eqb_eq in E.
    assert ((d + 1023) / 1024 = d / 1024).
    { symmetry. apply (Z.div_unique _ _ _ 1023); lia. }
    lia.
  - apply Z.eqb_neq in E.
    assert ((d + 1023) / 1024 = d / 1024 + 1).
    { symmetry. apply (Z.div_unique _ _ _ (d mod 1024 - 1)); lia. }
    lia.
Qed.

(** For a file, [fstat] on a handle and [stat] on a path to the same
    node report the same: a regular file that all may read and write,
    with the capacity as size. *)
Theorem fstat_agrees_with_stat_on_files s fd h n path :
  path ≠ EmptyString → path ≠ "/"%string →
  fh_at s fd = Ok h → fh_file h ≠ NULL → files s !! fh_file h = Some n →
  ramdisk_find_path s (rootdir s) path 0 = Ok (fh_file h) →
  ∃ st, ramdisk_stat path s = Ok (0, Some st, s)
        ∧ ramdisk_fstat fd s = Ok (0, Some st, s)
        ∧ st_mode st = Z.lor rw_bits S_IFREG
        ∧ st_size st = s32 (f_datasize n)
        ∧ st_nlink st = 1.
Proof.
  intros Hp1 Hp2 Hh Hf Hn Hfind.
  assert (Hty : f_type n = STAT_TYPE_FILE) by (by eapply find_path_loop_file).
  pose proof Hh as [Hr _]%fh_at_Ok.
  unfold ramdisk_stat, ramdisk_fstat.
  rewrite !bool_decide_eq_false_2 by done. simpl. rewrite Hfind. simpl.
  replace (FS_RAMDISK_MAX_FILES <=? fd) with false by lia.
  rewrite Hh. simpl.
  replace (fh_file h =? NULL) with false by (unfold NULL in *; lia).
  unfold file_at. rewrite Hn. simpl. rewrite Hty.
  rewrite bool_decide_eq_false_2 by done.
  eexists. split; [reflexivity|]. split; [reflexivity|]. done.
Qed.

End StatFile.

Section StatFileWitness.
#[local] Existing Instance kos_default_opts.

(** A block of 1025 bytes counts as two. *)
Lemma stat_blocks_rounds_up_witness :
  stat_blocks 1025 = (1025 + 1023) / 1024
  ∧ 1025 ≤ 1024 * stat_blocks 1025 < 1025 + 1024.
Proof.
  assert (H : 0 ≤ 1025) by lia.
  exact (stat_blocks_rounds_up 1025 H).
Defined.

Lemma fstat_agrees_with_stat_on_files_witness :
  let s := after hello_calls in
  ∃ st, ramdisk_stat "hello.txt" s = Ok (0, Some st, s)
        ∧ ramdisk_fstat 1 s = Ok (0, Some st, s)
        ∧ st_mode st = Z.lor rw_bits S_IFREG
        ∧ st_size st = 1024
        ∧ st_nlink st = 1.
Proof.
  intros s. pose (h := slot_of s 1). pose (n := node_of s (fh_file h)).
  assert (H1 : "hello.txt"%string ≠ EmptyString) by discriminate.
  assert (H2 : "hello.txt"%string ≠ "/"%string) by discriminate.
  assert (H3 : fh_at s 1 = Ok h) by (vm_compute; reflexivity).
  assert (H4 : fh_file h ≠ NULL) by (vm_compute; congruence).
  assert (H5 : files s !! fh_file h = Some n) by (vm_compute; reflexivity).
  assert (H6 : ramdisk_find_path s (rootdir s) "hello.txt" 0 = Ok (fh_file h))
    by (vm_compute; reflexivity).
  exact (fstat_agrees_with_stat_on_files s 1 h n "hello.txt" H1 H2 H3 H4 H5 H6).
Defined.

End StatFileWitness.

(** ** Reading, and the cursor *)

Section Reading.
Context {opts : kos_opts}.

(** What [ramdisk_read] returns on a valid file handle. *)
Lemma read_forward s fd h n blk bytes :
  file_handle s fd h n → mem s !! f_data n = Some blk →
  0 ≤ fh_ptr h ≤ f_size n → f_size n ≤ Z.of_nat (length blk) → f_size n < 2^31 →
  0 ≤ bytes → fh_ptr h + bytes < 2^32 →
  let k := Z.min bytes (f_size n - fh_ptr h) in
  ramdisk_read fd bytes s
  = Ok (k, take (Z.to_nat k) (drop (Z.to_nat (fh_ptr h)) blk),
        fh_store fd (set_fh_ptr (fh_ptr h + k) h) s).
Proof.
  intros (Hh & Hf & Hd & Hn) Hblk Hptr Hlen Hsize Hbytes Hrange k.
  pose proof Hh as [Hfd _]%fh_at_Ok. unfold ramdisk_read.
  replace (fd <? FS_RAMDISK_MAX_FILES) with true by lia.
  rewrite Hh. simpl.
  replace (fh_file h =? NULL) with false by (unfold NULL in *; lia).
  rewrite Hd. simpl. unfold file_at. rewrite Hn. simpl.
  rewrite (u32_small (fh_ptr h + bytes)) by lia.
  rewrite (u32_small (f_size n - fh_ptr h)) by lia.
  assert (Hk : (if f_size n <? fh_ptr h + bytes then f_size n - fh_ptr h else bytes) = k).
  { unfold k. destruct (f_size n <? fh_ptr h + bytes) eqn:E; lia. }
  rewrite Hk. unfold mem_read. rewrite Hblk.
  replace (fh_ptr h + k <=? Z.of_nat (length blk)) with true by lia.
  simpl. rewrite (u32_small (fh_ptr h + k)) by lia.
  by rewrite (s32_small k) by lia.
Qed.

(** [ramdisk_read] on a valid file handle whose cursor is within the
    file copies the bytes of the data block from the cursor on: as many
    as asked for, or those left before the logical size if they are
    fewer; it returns their number and advances the cursor by it.  The
    lock of the node plays no part: a handle opened for writing reads as
    well. *)
Theorem read_copies_from_cursor s fd h n blk bytes :
  file_handle s fd h n → mem s !! f_data n = Some blk →
  0 ≤ fh_ptr h ≤ f_size n → f_size n ≤ Z.of_nat (length blk) → f_size n < 2^31 →
  0 ≤ bytes → fh_ptr h + bytes < 2^32 →
  let k := Z.min bytes (f_size n - fh_ptr h) in
  ramdisk_read fd bytes s
  = Ok (k, take (Z.to_nat k) (drop (Z.to_nat (fh_ptr h)) blk),
        fh_store fd (set_fh_ptr (fh_ptr h + k) h) s).
Proof. apply read_forward. Qed.

(** After a seek that succeeds, [ramdisk_tell] returns what the seek
    returned, and changes nothing. *)
Theorem tell_after_seek s fd offset whence v s' :
  ramdisk_seek fd offset whence s = Ok (v, s') → 0 ≤ v →
  ramdisk_tell fd s' = Ok (v, s').
Proof.
  intros H Hv. unfold ramdisk_seek in H.
  destruct (FS_RAMDISK_MAX_FILES <=? fd) eqn:Efd; [injection H as <- <-; lia|].
  apply bind_Ok in H as (h & Hh & H).
  destruct ((fh_file h =? NULL) || negb (fh_dir h =? 0)) eqn:Ehd;
    [injection H as <- <-; lia|].
  apply orb_false_iff in Ehd as [Ef Ed]. apply negb_false_iff in Ed.
  apply bind_Ok in H as ([ptr|] & _ & H); [|injection H as <- <-; lia].
  apply bind_Ok in H as (n & _ & H). injection H as <- <-.
  unfold ramdisk_tell.
  replace (fd <? FS_RAMDISK_MAX_FILES) with true by lia.
  erewrite fh_at_store_eq by done. simpl. by rewrite Ef, Ed.
Qed.

End Reading.

Section ReadingWitness.
#[local] Existing Instance kos_default_opts.

(** Reading five bytes of the two-byte file [hello.txt] yields its two
    bytes. *)
Lemma read_copies_from_cursor_witness :
  let s := after hello_calls in
  let h := slot_of s 1 in
  ramdisk_read 1 5 s
  = Ok (2, ["h"%byte; "i"%byte], fh_store 1 (set_fh_ptr (fh_ptr h + 2) h) s).
Proof.
  intros s h. pose (n := node_of s (fh_file h)).
  assert (H1 : file_handle s 1 h n)
    by (split; [|split; [|split]]; vm_compute; congruence).
  assert (H2 : mem s !! f_data n = Some (block_of s (f_data n)))
    by (vm_compute; reflexivity).
  assert (H3 : 0 ≤ fh_ptr h ≤ f_size n) by (vm_compute; split; congruence).
  assert (H4 : f_size n ≤ Z.of_nat (length (block_of s (f_data n))))
    by (vm_compute; congruence).
  assert (H5 : f_size n < 2^31) by (vm_compute; reflexivity).
  assert (H6 : 0 ≤ 5) by lia.
  assert (H7 : fh_ptr h + 5 < 2^32) by (vm_compute; reflexivity).
  exact (read_copies_from_cursor s 1 h n _ 5 H1 H2 H3 H4 H5 H6 H7).
Defined.

Lemma tell_after_seek_witness :
  let s := after hello_calls in
  let s' := fh_store 1 (set_fh_ptr 1 (slot_of s 1)) s in
  ramdisk_tell 1 s' = Ok (1, s').
Proof.
  intros s s'.
  assert (H1 : ramdisk_seek 1 1 SEEK_SET s = Ok (1, s')) by (vm_compute; reflexivity).
  assert (H2 : 0 ≤ 1) by lia.
  exact (tell_after_seek s 1 1 SEEK_SET 1 s' H1 H2).
Defined.

End ReadingWitness.

(** ** Writing and reading back *)

Section WriteRead.
Context {opts : kos_opts}.

(** A write that finds room, or whose reallocation succeeds, returns the
    number of bytes and leaves them in the block of the node. *)
Lemma write_forward s fd buf (np_ok : bool) h n blk :
  let bytes := Z.of_nat (length buf) in
  let cur := fh_ptr h + bytes in
  file_handle s fd h n → f_openfor n = OPENFOR_WRITE →
  f_data n ≠ NULL → mem s !! f_data n = Some blk →
  0 ≤ f_datasize n ≤ Z.of_nat (length blk) →
  0 ≤ fh_ptr h → cur + 4096 < 2^32 → bytes < 2^31 →
  np_ok = true ∨ cur ≤ f_datasize n →
  ∃ s' d cap blk',
    ramdisk_write np_ok fd buf bytes s = Ok (bytes, s')
    ∧ written s fd h n buf d cap blk' s'
    ∧ cur ≤ Z.of_nat (length blk') ∧ f_datasize n ≤ Z.of_nat (length blk').
Proof.
  intros bytes cur (Hfh & Hfile & Hdir & Hn) Hw Hd Hblk Hcap Hptr Hrange Hbytes Hroom.
  pose proof Hfh as Hfh'. apply fh_at_Ok in Hfh' as [Hfd Hl].
  assert (Hcur : cur = fh_ptr h + bytes) by done.
  assert (Hsmall : u32 cur = cur) by (apply u32_small; lia).
  assert (Hsmall' : u32 (cur + 4096) = cur + 4096) by (apply u32_small; lia).
  assert (Hall : take (Z.to_nat bytes) buf = buf).
  { unfold bytes. by rewrite Nat2Z.id, firstn_all. }
  unfold ramdisk_write.
  replace (fd <? FS_RAMDISK_MAX_FILES) with true by lia.
  rewrite Hfh. simpl.
  replace (fh_file h =? NULL) with false by (unfold NULL in *; lia).
  rewrite Hdir. simpl. unfold file_at. rewrite Hn. simpl.
  rewrite Hw. rewrite bool_decide_eq_true_2 by done.
  fold bytes. rewrite <- !Hcur, !Hsmall, !Hsmall', Hall.
  replace (bytes <? bytes) with false by lia.
  rewrite (s32_small bytes) by lia.
  destruct (f_datasize n <? cur) eqn:Egrow.
  - destruct Hroom as [-> | ?]; [|lia].
    set (s1 := set_mem (delete (f_data n) (mem s)) s).
    set (blk' := take (Z.to_nat (cur + 4096))
                   (blk ++ zeros (cur + 4096 - Z.of_nat (length blk)))).
    destruct (fresh_addr_spec s1) as (Hq0 & _ & _ & Hqm).
    assert (Hlen : Z.of_nat (length blk') = cur + 4096).
    { unfold blk', zeros. rewrite length_take, length_app, length_replicate. lia. }
    exists (let s2 := set_mem (<[fresh_addr s1 := blk']> (mem s1)) s1 in
            let n2 := set_datasize (cur + 4096) (set_data (fresh_addr s1) n) in
            let s3 := store_file (fh_file h) n2 s2 in
            let s4 := set_mem (<[fresh_addr s1 := write_bytes blk' (fh_ptr h) buf]>
                                 (mem s3)) s3 in
            let s5 := fh_store fd (set_fh_ptr cur h) s4 in
            if f_size n <? cur
            then store_file (fh_file h) (set_size cur n2) s5 else s5),
           (fresh_addr s1), (cur + 4096), blk'.
    split; [|split; [|lia]].
    { unfold realloc_mem.
      replace (f_data n =? NULL) with false by (unfold NULL in *; lia).
      rewrite Hblk. simpl. fold s1. fold blk'.
      replace (fresh_addr s1 =? NULL) with false by (unfold NULL in *; lia).
      simpl. unfold mem_write. simpl. rewrite lookup_insert_eq.
      replace (fh_ptr h + Z.of_nat (length buf) <=? Z.of_nat (length blk'))
        with true by (fold bytes; lia).
      simpl. reflexivity. }
    unfold written. fold bytes. fold cur. simpl.
    split; [by destruct (f_size n <? cur)|].
    split.
    { destruct (f_size n <? cur) eqn:E; simpl.
      - rewrite insert_insert_eq. f_equal. unfold set_size. simpl.
        f_equal. lia.
      - f_equal. unfold set_size, set_datasize, set_data. simpl.
        f_equal. lia. }
    split.
    { destruct (f_size n <? cur); simpl; by rewrite lookup_insert_eq. }
    split.
    { intros p Hp1 Hp2.
      destruct (f_size n <? cur); simpl;
        rewrite insert_insert_eq, lookup_insert_ne by done;
        by rewrite lookup_delete_ne. }
    destruct (f_size n <? cur); simpl; done.
  - eexists _, (f_data n), (f_datasize n), blk. split; [|split; [|lia]].
    { simpl. unfold mem_write. rewrite Hblk.
      replace (fh_ptr h + Z.of_nat (length buf) <=? Z.of_nat (length blk))
        with true by (fold bytes; lia).
      simpl. reflexivity. }
    unfold written. fold bytes. fold cur. simpl.
    split; [by destruct (f_size n <? cur)|].
    split.
    { destruct (f_size n <? cur) eqn:E; simpl.
      - f_equal. destruct n; unfold set_size; simpl. f_equal. simpl in *. lia.
      - rewrite insert_id; [done|]. rewrite Hn. f_equal.
        destruct n; unfold set_size, set_datasize, set_data; simpl in *.
        f_equal. lia. }
    split.
    { destruct (f_size n <? cur); simpl; by rewrite lookup_insert_eq. }
    split.
    { intros p Hp1 Hp2.
      destruct (f_size n <? cur); simpl; by rewrite lookup_insert_ne. }
    destruct (f_size n <? cur); simpl; done.
Qed.

Lemma write_bytes_length blk off src :
  0 ≤ off → off + Z.of_nat (length src) ≤ Z.of_nat (length blk) →
  length (write_bytes blk off src) = length blk.
Proof.
  intros Hoff Hfit. unfold write_bytes.
  rewrite !length_app, length_take, length_drop. lia.
Qed.

Lemma write_bytes_read blk off src :
  0 ≤ off → off + Z.of_nat (length src) ≤ Z.of_nat (length blk) →
  take (length src) (drop (Z.to_nat off) (write_bytes blk off src)) = src.
Proof.
  intros Hoff Hfit. unfold write_bytes.
  rewrite drop_app_length' by (rewrite length_take; lia).
  by rewrite take_app_length.
Qed.

(** What is written is read back: after a write through a valid file
    handle whose node is in writing mode, a seek to where the cursor was
    and a read of as many bytes through the same handle return the bytes
    written. *)
Theorem write_then_read_back s fd buf (np_ok : bool) h n blk :
  let bytes := Z.of_nat (length buf) in
  file_handle s fd h n → f_openfor n = OPENFOR_WRITE →
  f_data n ≠ NULL → mem s !! f_data n = Some blk →
  0 ≤ f_size n ≤ f_datasize n → f_datasize n ≤ Z.of_nat (length blk) →
  f_size n < 2^31 →
  0 ≤ fh_ptr h → fh_ptr h + bytes + 4096 < 2^31 →
  np_ok = true ∨ fh_ptr h + bytes ≤ f_datasize n →
  ∃ s1 s2 s3,
    ramdisk_write np_ok fd buf bytes s = Ok (bytes, s1)
    ∧ ramdisk_seek fd (fh_ptr h) SEEK_SET s1 = Ok (fh_ptr h, s2)
    ∧ ramdisk_read fd bytes s2 = Ok (bytes, buf, s3).
Proof.
  intros bytes Hfile Hw Hd Hblk Hsize Hcap Hsz Hptr Hrange Hroom.
  destruct (write_forward s fd buf np_ok h n blk)
    as (s1 & d & cap & blk' & Hwrite & (HH & HF & HM & _) & Hlen & Hlen');
    [done|done|done|done|lia|done|lia|lia|done|].
  fold bytes in Hwrite, HH, HF, Hlen.
  destruct Hfile as (Hh & Hf & Hdir & Hn).
  pose proof Hh as [Hfd _]%fh_at_Ok.
  set (cur := fh_ptr h + bytes) in *.
  set (n1 := set_size (Z.max (f_size n) cur) (set_datasize cap (set_data d n))) in *.
  assert (Hh1 : fh_at s1 fd = Ok (set_fh_ptr cur h))
    by (by eapply fh_at_inserted).
  assert (Hn1 : files s1 !! fh_file h = Some n1)
    by (by rewrite HF, lookup_insert_eq).
  set (h2 := set_fh_ptr (fh_ptr h) (set_fh_ptr cur h)).
  exists s1, (fh_store fd h2 s1). eexists. split; [done|]. split.
  - unfold ramdisk_seek.
    replace (FS_RAMDISK_MAX_FILES <=? fd) with false by lia.
    rewrite Hh1. simpl.
    replace (fh_file h =? NULL) with false by (unfold NULL in *; lia).
    rewrite Hdir. simpl.
    replace (fh_ptr h <? 0) with false by lia. simpl.
    unfold file_at. rewrite Hn1. simpl.
    rewrite (u32_small (fh_ptr h)) by lia.
    replace (Z.max (f_size n) cur <? fh_ptr h) with false by lia.
    by rewrite (s32_small (fh_ptr h)) by lia.
  - rewrite (read_forward (fh_store fd h2 s1) fd h2 n1
               (write_bytes blk' (fh_ptr h) buf) bytes).
    + simpl. replace (Z.min bytes (Z.max (f_size n) cur - fh_ptr h)) with bytes by lia.
      unfold bytes at 2. rewrite Nat2Z.id.
      rewrite write_bytes_read by (fold bytes; lia). reflexivity.
    + split_and!; try done. by eapply fh_at_store_eq.
    + done.
    + simpl. lia.
    + simpl. rewrite write_bytes_length by (fold bytes; lia).
      lia.
    + simpl. lia.
    + lia.
    + simpl. lia.
Qed.

End WriteRead.

Section WriteReadWitness.
#[local] Existing Instance kos_default_opts.

(** Two bytes written to a new file are read back through the handle
    that wrote them. *)
Lemma write_then_read_back_witness :
  let s := after [Open all_ok "f" O_WRONLY] in
  let buf := ["h"%byte; "i"%byte] in
  ∃ s1 s2 s3,
    ramdisk_write true 1 buf 2 s = Ok (2, s1)
    ∧ ramdisk_seek 1 0 SEEK_SET s1 = Ok (0, s2)
    ∧ ramdisk_read 1 2 s2 = Ok (2, buf, s3).
Proof.
  intros s buf. pose (h := slot_of s 1). pose (n := node_of s (fh_file h)).
  assert (H1 : file_handle s 1 h n)
    by (split; [|split; [|split]]; vm_compute; congruence).
  assert (H2 : f_openfor n = OPENFOR_WRITE) by (vm_compute; reflexivity).
  assert (H3 : f_data n ≠ NULL) by (vm_compute; congruence).
  assert (H4 : mem s !! f_data n = Some (block_of s (f_data n)))
    by (vm_compute; reflexivity).
  assert (H5 : 0 ≤ f_size n ≤ f_datasize n) by (vm_compute; split; congruence).
  assert (H6 : f_datasize n ≤ Z.of_nat (length (block_of s (f_data n))))
    by (vm_compute; congruence).
  assert (H7 : f_size n < 2^31) by (vm_compute; reflexivity).
  assert (H8 : 0 ≤ fh_ptr h) by (vm_compute; congruence).
  assert (H9 : fh_ptr h + Z.of_nat (length buf) + 4096 < 2^31)
    by (vm_compute; reflexivity).
  exact (write_then_read_back s 1 buf true h n _ H1 H2 H3 H4 H5 H6 H7 H8 H9
           (or_introl eq_refl)).
Defined.

End WriteReadWitness.

(** ** Opening for reading, and closing *)

Section OpenClose.
Context {opts : kos_opts}.

(** An open for reading of a file that is not locked for writing, with a
    free slot. *)
Lemma open_shared_forward al fn s f n :
  wf s → open_target s fn O_RDONLY f → files s !! f = Some n →
  f_type n = STAT_TYPE_FILE → f_openfor n ≠ OPENFOR_WRITE →
  f_usage n + 1 < 2^31 →
  (∃ fd, free_slot s fd) →
  ∃ fd h0 s',
    ramdisk_open al fn O_RDONLY s = Ok (fd, s')
    ∧ 1 ≤ fd < FS_RAMDISK_MAX_FILES ∧ fh_at s fd = Ok h0 ∧ fh_file h0 = NULL
    ∧ files s' = <[f := set_usage (f_usage n + 1) (set_openfor OPENFOR_READ n)]> (files s)
    ∧ fh s' = <[Z.to_nat fd := set_fh_ptr 0 (set_fh_omode O_RDONLY
                                  (set_fh_dir 0 (set_fh_file f h0)))]> (fh s)
    ∧ dirs s' = dirs s ∧ root s' = root s ∧ rootdir s' = rootdir s
    ∧ mem s' = mem s ∧ errno s' = errno s.
Proof.
  intros Hwf Ht Hn Hty Hof Hus (fd0 & Hfd0 & h & Hh & Hnull).
  pose proof Hwf as (Htree & (Hlen & Hnodes & _) & _). pose proof Htree as (Hr & _).
  destruct (first_free_slot s Hlen) as (fd & h0 & Hfd & Hfd1 & Hh0 & Hnull0);
    [by eauto|].
  destruct (Hnodes _ _ Hn) as (Hu & _).
  assert (Hf : f ≠ NULL).
  { intros ->. by rewrite (tree_null _ _ _ _ Htree) in Hn. }
  pose proof (open_lookup_found al fn _ s f Ht Hr) as Hlook.
  unfold ramdisk_open.
  change (match fn with String "/" fn' => fn' | _ => fn end) with (strip_slash fn).
  simpl.
  replace (root s =? NULL) with false by (unfold NULL in *; lia).
  simpl in Hlook. rewrite Hlook. simpl.
  replace (f =? NULL) with false by (unfold NULL in *; lia).
  unfold file_at. rewrite Hn. simpl. rewrite Hty.
  rewrite bool_decide_eq_false_2 by done. simpl.
  rewrite Hfd. simpl.
  replace (FS_RAMDISK_MAX_FILES <=? fd) with false by lia.
  rewrite bool_decide_eq_false_2 by done.
  rewrite Hh0. simpl. rewrite lookup_insert_eq. simpl.
  unfold sint.
  replace ((- 2 ^ 31 <=? f_usage n + 1) && (f_usage n + 1 <? 2 ^ 31)) with true
    by (symmetry; apply andb_true_iff; lia).
  simpl. exists fd, h0. eexists. split; [reflexivity|]. simpl.
  rewrite ?insert_insert_eq, ?list_insert_insert_eq.
  split_and!; try done; lia.
Qed.

(** Closing a handle in use. *)
Lemma close_shared_forward s fd h n :
  fh_at s fd = Ok h → fh_file h ≠ NULL → files s !! fh_file h = Some n →
  1 ≤ f_usage n < 2^31 →
  ramdisk_close fd s
  = Ok (0, store_file (fh_file h)
             (if f_usage n - 1 =? 0
              then set_openfor OPENFOR_NOTHING (set_usage (f_usage n - 1) n)
              else set_usage (f_usage n - 1) n)
             (fh_store fd (set_fh_file NULL h) s)).
Proof.
  intros Hh Hf Hn Hus. pose proof Hh as [Hfd _]%fh_at_Ok. unfold ramdisk_close.
  replace (fd <? FS_RAMDISK_MAX_FILES) with true by lia.
  rewrite Hh. simpl.
  replace (fh_file h =? NULL) with false by (unfold NULL in *; lia). simpl.
  unfold file_at. simpl. rewrite Hn. simpl. unfold sint.
  replace ((- 2 ^ 31 <=? f_usage n - 1) && (f_usage n - 1 <? 2 ^ 31)) with true
    by (symmetry; apply andb_true_iff; lia).
  simpl. by replace (f_usage n - 1 <? 0) with false by lia.
Qed.

(** Opening a file for reading and closing the handle again restores
    the state: the nodes with their locks and usage counts, the list
    heads and the blocks are as before, and so is every handle in use.
    This holds whether or not other readers have the file open. *)
Theorem open_close_restores s al fn f n :
  attach_flags_plain → reachable s →
  open_target s fn O_RDONLY f → files s !! f = Some n →
  f_type n = STAT_TYPE_FILE → f_openfor n ≠ OPENFOR_WRITE →
  f_usage n + 1 < 2^31 →
  (∃ fd, free_slot s fd) →
  ∃ fd s1 s2,
    ramdisk_open al fn O_RDONLY s = Ok (fd, s1) ∧ fd ≠ NULL
    ∧ ramdisk_close fd s1 = Ok (0, s2)
    ∧ same_but_free_slots s s2.
Proof.
  intros Hflags Hreach Ht Hn Hty Hof Hus Hslot.
  pose proof (reachable_wf s Hflags Hreach) as Hwf.
  destruct (open_shared_forward al fn s f n Hwf Ht Hn Hty Hof Hus Hslot)
    as (fd & h0 & s1 & Hopen & Hfd & Hh0 & Hnull0 & HF & HH & HD & HR & HRd & HM & HE).
  destruct Hwf as (Htree & (_ & Hnodes & _) & _).
  destruct (Hnodes _ _ Hn) as (Hu & Hunl & _).
  assert (Hf : f ≠ NULL).
  { intros ->. by rewrite (tree_null _ _ _ _ Htree) in Hn. }
  set (h1 := set_fh_ptr 0 (set_fh_omode O_RDONLY (set_fh_dir 0 (set_fh_file f h0)))) in *.
  set (n1 := set_usage (f_usage n + 1) (set_openfor OPENFOR_READ n)) in *.
  assert (Hh1 : fh_at s1 fd = Ok h1) by (by eapply fh_at_inserted).
  exists fd, s1. eexists. split; [done|]. split; [unfold NULL; lia|].
  split.
  { apply (close_shared_forward s1 fd h1 n1 Hh1); [done| |simpl; lia].
    simpl. by rewrite HF, lookup_insert_eq. }
  simpl. replace (f_usage n + 1 - 1) with (f_usage n) by lia.
  match goal with |- same_but_free_slots s ?x => set (s2 := x) end.
  assert (Heq : s2 = fh_store fd (set_fh_file NULL h1) s).
  { apply state_eq; simpl; try done.
    - rewrite HF, insert_insert_eq. apply insert_id. rewrite Hn. f_equal.
      destruct (f_usage n =? 0) eqn:E.
      + apply Z.eqb_eq in E. apply Hunl in E as Hnot.
        destruct n; simpl in *. by subst.
      + assert (f_openfor n = OPENFOR_READ).
        { destruct (f_openfor n) eqn:Eo; [|done|done].
          assert (f_usage n = 0) by (by apply Hunl). lia. }
        destruct n; simpl in *. by subst.
    - by rewrite HH, list_insert_insert_eq. }
  rewrite Heq. by eapply same_but_free_slots_store.
Qed.

End OpenClose.

Section OpenCloseWitness.
#[local] Existing Instance kos_default_opts.

(** [hello.txt], open for reading through handle 1, is opened a second
    time and closed. *)
Lemma open_close_restores_witness :
  let s := after hello_calls in
  ∃ fd s1 s2,
    ramdisk_open all_ok "hello.txt" O_RDONLY s = Ok (fd, s1) ∧ fd ≠ NULL
    ∧ ramdisk_close fd s1 = Ok (0, s2)
    ∧ same_but_free_slots s s2.
Proof.
  intros s. pose (f := fh_file (slot_of s 1)). pose (n := node_of s f).
  assert (Hflags : attach_flags_plain) by (vm_compute; reflexivity).
  assert (Hreach : reachable s)
    by (apply (after_reachable _ s); vm_compute; reflexivity).
  assert (H1 : open_target s "hello.txt" O_RDONLY f)
    by (vm_compute; split; congruence).
  assert (H2 : files s !! f = Some n) by (vm_compute; reflexivity).
  assert (H3 : f_type n = STAT_TYPE_FILE) by (vm_compute; reflexivity).
  assert (H4 : f_openfor n ≠ OPENFOR_WRITE) by (vm_compute; congruence).
  assert (H5 : f_usage n + 1 < 2^31) by (vm_compute; reflexivity).
  assert (H6 : ∃ fd, free_slot s fd).
  { exists 2. split; [vm_compute; split; congruence|].
    exists (slot_of s 2). split; vm_compute; reflexivity. }
  exact (open_close_restores s all_ok "hello.txt" f n Hflags Hreach H1 H2 H3 H4 H5 H6).
Defined.

End OpenCloseWitness.

(** ** Unlinking *)

Section Unlink.
Context {opts : kos_opts}.

(** A node whose name does not pass the test is skipped. *)
Lemma find_in_skip F l1 f n l2 name namelen :
  F !! f = Some n → name_match name namelen (f_name n) = false →
  find_in F (l1 ++ f :: l2) name namelen = find_in F (l1 ++ l2) name namelen.
Proof.
  intros Hn Hno. induction l1 as [|x l1 IH]; simpl.
  - by rewrite Hn, Hno.
  - destruct (F !! x) as [nx|]; [|done]. by rewrite IH.
Qed.

(** The search sees the names of the nodes only. *)
Lemma find_in_names F F' l name namelen :
  (∀ a, a ∈ l → f_name <$> F' !! a = f_name <$> F !! a) →
  find_in F' l name namelen = find_in F l name namelen.
Proof.
  induction l as [|x l IH]; intros Hall; [done|]. simpl.
  pose proof (Hall x ltac:(by left)) as Hx.
  rewrite IH by (intros a Ha; apply Hall; by right).
  destruct (F' !! x) as [n'|], (F !! x) as [n|]; simpl in Hx; try done.
  by injection Hx as ->.
Qed.

(** What [ramdisk_unlink] leaves of an unused file. *)
Lemma unlink_result s fn f n :
  attach_flags_plain → reachable s →
  strip_slash fn ≠ EmptyString → strchr (strip_slash fn) "/" = None →
  ramdisk_find_path s (rootdir s) (strip_slash fn) 0 = Ok f → f ≠ NULL →
  files s !! f = Some n → f_usage n = 0 →
  (f_data n = NULL ∨ is_Some (mem s !! f_data n)) →
  ∃ s', ramdisk_unlink fn s = Ok (0, s')
        ∧ files s' !! f = None
        ∧ (f_data n ≠ NULL → mem s' !! f_data n = None)
        ∧ keeps_blocks s s' (f_data n)
        ∧ ramdisk_find_path s' (rootdir s') (strip_slash fn) 0 = Ok NULL
        ∧ (∀ fn2, strchr fn2 "/" = None → lower fn2 ≠ lower (strip_slash fn) →
             ramdisk_find_path s' (rootdir s') fn2 0
             = ramdisk_find_path s (rootdir s) fn2 0)
        ∧ fh s' = fh s.
Proof.
  intros Hflags Hreach Hne Hno Hfind Hf Hn Hus Hdata.
  destruct (reachable_wf s Hflags Hreach) as (Ht & _).
  set (fn' := strip_slash fn) in *.
  destruct (tree_has_children s Ht) as (l & Hl).
  destruct (tree_children s l Ht Hl)
    as (rn & first & Hrn & _ & _ & Hfirst & Hc & Hnd & Hrl & _ & _ & Huniq).
  pose proof Hfind as Hfind'.
  rewrite (find_path_plain s l fn' Ht Hl Hno Hne) in Hfind'. injection Hfind' as Hfi.
  destruct (find_in_spec (files s) _ _ l fn' (String.length fn') Hc)
    as [(Hnull & _) | (l1 & l2 & n0 & Hsplit & _ & Hn0 & Hmatch & _)];
    [congruence|].
  rewrite Hfi in Hsplit, Hn0. assert (n0 = n) as -> by congruence.
  unfold ramdisk_unlink. rewrite find_path_strip. fold fn'. rewrite Hfind. simpl.
  replace (f =? NULL) with false by (unfold NULL in *; lia). simpl.
  unfold file_at. rewrite Hn. simpl. rewrite Hus. simpl.
  assert (Hfree : ∃ s3, free_mem (f_data n) s = Ok s3
            ∧ files s3 = files s ∧ dirs s3 = dirs s ∧ fh s3 = fh s
            ∧ root s3 = root s ∧ rootdir s3 = rootdir s
            ∧ (f_data n ≠ NULL → mem s3 !! f_data n = None)
            ∧ ∀ q b, q ≠ f_data n → mem s !! q = Some b → mem s3 !! q = Some b).
  { unfold free_mem. destruct (f_data n =? NULL) eqn:Ed.
    - exists s. apply Z.eqb_eq in Ed. split_and!; done.
    - destruct Hdata as [Hd | [b Hb]]; [unfold NULL in *; lia|].
      rewrite Hb. eexists. split_and!; try done.
      + intros _. simpl. apply lookup_delete_eq.
      + intros q b' Hq Hb'. simpl. by rewrite lookup_delete_ne. }
  destruct Hfree as (s3 & -> & HF3 & HD3 & HH3 & HR3 & HRd3 & HM3' & HM3). simpl.
  destruct (LIST_REMOVE_spec s3 (rootdir s) first f n l1 l2)
    as (s4 & first' & -> & HD4 & Hc4 & HR4 & HM4 & HH4 & HRt4 & HRd4 & HE4).
  { by rewrite HD3. }
  { by rewrite HF3. }
  { rewrite HF3, <- Hsplit. done. }
  simpl. eexists. split; [reflexivity|]. simpl.
  assert (Hnot : f ∉ l1 ++ l2).
  { rewrite Hsplit in Hnd. apply NoDup_app in Hnd as (Hnd1 & Hnd2 & Hnd3).
    apply NoDup_cons in Hnd3 as (Hnd3 & _).
    intros [Hin | Hin]%elem_of_app; [|done]. apply (Hnd2 f Hin). by left. }
  match goal with |- context [ramdisk_find_path ?x _ _ _] => set (s5 := x) end.
  assert (Ht5 : tree_ok (files s5) (dirs s5) (root s5) (rootdir s5)).
  { simpl. rewrite HD4, HD3, HRt4, HR3, HRd4, HRd3.
    eapply (tree_ok_remove (files s) (files s4) _ _ _ first first' l1 f l2);
      try done; [by rewrite <- Hsplit | by rewrite <- HF3]. }
  assert (Hl5 : root_children s5 (l1 ++ l2)).
  { exists first'. simpl. rewrite HD4, HRd4, HRd3, HD3, lookup_insert_eq.
    split; [done|]. by apply chain_delete_fresh. }
  assert (Hnames : ∀ a, a ∈ l1 ++ l2 →
            f_name <$> files s5 !! a = f_name <$> files s !! a).
  { intros a Ha. simpl. assert (a ≠ f) by congruence.
    rewrite lookup_delete_ne by done.
    pose proof (HR4 a) as Ha4. rewrite HF3 in Ha4.
    destruct (files s !! a) as [na|].
    - destruct Ha4 as (na' & -> & Hnm & _). simpl. by rewrite Hnm.
    - by rewrite Ha4. }
  assert (Hother : ∀ fn2, strchr fn2 "/" = None → lower fn2 ≠ lower fn' →
            ramdisk_find_path s5 (rootdir s5) fn2 0
            = ramdisk_find_path s (rootdir s) fn2 0).
  { intros fn2 Hno2 Hlow. destruct (decide (fn2 = EmptyString)) as [->|Hne2]; [done|].
    rewrite (find_path_plain s5 (l1 ++ l2) fn2 Ht5 Hl5 Hno2 Hne2).
    rewrite (find_path_plain s l fn2 Ht Hl Hno2 Hne2). f_equal.
    rewrite (find_in_names (files s) _ _ _ _ Hnames), Hsplit.
    symmetry. apply (find_in_skip _ _ _ n); [done|].
    destruct (name_match fn2 (String.length fn2) (f_name n)) eqn:Em; [|done].
    apply name_match_lower in Em as [_ Em]; [|done].
    apply name_match_lower in Hmatch as [_ Hmatch]; [|done].
    rewrite strtake_length in Em, Hmatch. congruence. }
  split_and!.
  - apply lookup_delete_eq.
  - intros Hd. simpl. rewrite HM4. by apply HM3'.
  - intros p b Hp Hp0 Hb. simpl. rewrite HM4. by apply HM3.
  - change (ramdisk_find_path s5 (rootdir s5) fn' 0 = Ok NULL).
    rewrite (find_path_plain s5 (l1 ++ l2) fn' Ht5 Hl5 Hno Hne). f_equal.
    apply find_in_none. intros a na Ha Hna. simpl in Hna.
    assert (Haf : a ≠ f) by congruence.
    rewrite lookup_delete_ne in Hna by done.
    destruct (relinked_lookup _ _ _ _ HR4 Hna) as (nb & Hnb & Hpay).
    rewrite HF3 in Hnb. destruct Hpay as (Hnm & _).
    destruct (name_match fn' (String.length fn') (f_name na)) eqn:Em; [|done].
    exfalso. apply Haf. apply (Huniq a f nb n); try done.
    + rewrite Hsplit. apply elem_of_app in Ha as [Ha | Ha];
        apply elem_of_app; [by left | right; by right].
    + rewrite Hsplit. apply elem_of_app. right. by left.
    + apply name_match_lower in Em as [_ Em]; [|done].
      apply name_match_lower in Hmatch as [_ Hmatch]; [|done]. congruence.
  - exact Hother.
  - simpl. by rewrite HH4, HH3.
Qed.

(** [ramdisk_unlink] on an unused file of the root directory returns 0
    and removes exactly that file: its node is gone and its data block
    is released, its name no longer resolves, every name that differs
    from it, even without case, resolves as before, the other blocks
    stay, and the handle table is untouched. *)
Theorem unlink_removes_one_name s fn f n :
  attach_flags_plain → reachable s →
  strip_slash fn ≠ EmptyString → strchr (strip_slash fn) "/" = None →
  ramdisk_find_path s (rootdir s) (strip_slash fn) 0 = Ok f → f ≠ NULL →
  files s !! f = Some n → f_usage n = 0 →
  (f_data n = NULL ∨ is_Some (mem s !! f_data n)) →
  ∃ s', ramdisk_unlink fn s = Ok (0, s')
        ∧ files s' !! f = None
        ∧ (f_data n ≠ NULL → mem s' !! f_data n = None)
        ∧ keeps_blocks s s' (f_data n)
        ∧ ramdisk_find_path s' (rootdir s') (strip_slash fn) 0 = Ok NULL
        ∧ (∀ fn2, strchr fn2 "/" = None → lower fn2 ≠ lower (strip_slash fn) →
             ramdisk_find_path s' (rootdir s') fn2 0
             = ramdisk_find_path s (rootdir s) fn2 0)
        ∧ fh s' = fh s.
Proof. apply unlink_result. Qed.

(** The cursor of a directory handle is not protected against
    [ramdisk_unlink]: when the file it points at is unlinked, which the
    open directory does not prevent, the next [ramdisk_readdir] reads
    the freed node. *)
Theorem readdir_after_unlink_reads_freed_node s fd h nd fn n :
  attach_flags_plain → reachable s →
  dir_handle s fd h nd → fh_ptr h ≠ NULL →
  strip_slash fn ≠ EmptyString → strchr (strip_slash fn) "/" = None →
  ramdisk_find_path s (rootdir s) (strip_slash fn) 0 = Ok (fh_ptr h) →
  files s !! fh_ptr h = Some n → f_usage n = 0 →
  (f_data n = NULL ∨ is_Some (mem s !! f_data n)) →
  ∃ s', ramdisk_unlink fn s = Ok (0, s')
        ∧ ramdisk_readdir fd s' = Err Undefined.
Proof.
  intros Hflags Hreach (Hh & Hf & Hd & _) Hp Hne Hno Hfind Hn Hus Hdata.
  destruct (unlink_result s fn (fh_ptr h) n Hflags Hreach Hne Hno Hfind Hp Hn Hus Hdata)
    as (s' & Hun & Hgone & _ & _ & _ & _ & HH).
  exists s'. split; [done|].
  pose proof Hh as [Hfd Hl]%fh_at_Ok.
  assert (Hh' : fh_at s' fd = Ok h) by (apply fh_at_Ok; by rewrite HH).
  unfold ramdisk_readdir.
  replace (fd <? FS_RAMDISK_MAX_FILES) with true by lia.
  rewrite Hh'. simpl.
  replace (fh_file h =? NULL) with false by (unfold NULL in *; lia).
  replace (fh_ptr h =? 0) with false by (unfold NULL in *; lia).
  replace (fh_dir h =? 0) with false by lia. simpl.
  unfold file_at. by rewrite Hgone.
Qed.

End Unlink.

Section UnlinkWitness.
#[local] Existing Instance kos_default_opts.

(** Of the two files [a] and [b], [a] is unlinked and [b] stays. *)
Lemma unlink_removes_one_name_witness :
  let s := after [Open all_ok "a" O_WRONLY; Close 1;
                  Open all_ok "b" O_WRONLY; Close 1] in
  ∃ s', ramdisk_unlink "a" s = Ok (0, s')
        ∧ ramdisk_find_path s' (rootdir s') "a" 0 = Ok NULL
        ∧ ramdisk_find_path s' (rootdir s') "b" 0
          = ramdisk_find_path s (rootdir s) "b" 0.
Proof.
  intros s. pose (f := 3). pose (n := node_of s f).
  assert (Hflags : attach_flags_plain) by (vm_compute; reflexivity).
  assert (Hreach : reachable s)
    by (apply (after_reachable _ s); vm_compute; reflexivity).
  assert (H1 : strip_slash "a" ≠ EmptyString) by (simpl; discriminate).
  assert (H2 : strchr (strip_slash "a") "/" = None) by (vm_compute; reflexivity).
  assert (H3 : ramdisk_find_path s (rootdir s) (strip_slash "a") 0 = Ok f)
    by (vm_compute; reflexivity).
  assert (H4 : f ≠ NULL) by (vm_compute; congruence).
  assert (H5 : files s !! f = Some n) by (vm_compute; reflexivity).
  assert (H6 : f_usage n = 0) by (vm_compute; reflexivity).
  assert (H7 : f_data n = NULL ∨ is_Some (mem s !! f_data n)).
  { right. exists (block_of s (f_data n)). vm_compute. reflexivity. }
  destruct (unlink_removes_one_name s "a" f n Hflags Hreach H1 H2 H3 H4 H5 H6 H7)
    as (s' & Hun & _ & _ & _ & Hgone & Hother & _).
  exists s'. split; [exact Hun|]. split; [exact Hgone|].
  apply Hother; [vm_compute; reflexivity | vm_compute; congruence].
Defined.

(** The root is opened as a directory, its cursor on the file [a];
    [a] is unlinked; the next [readdir] faults. *)
Lemma readdir_after_unlink_reads_freed_node_witness :
  let s := after [Open all_ok "a" O_WRONLY; Close 1;
                  Open all_ok "/" (Z.lor O_RDONLY O_DIR)] in
  ∃ s', ramdisk_unlink "a" s = Ok (0, s')
        ∧ ramdisk_readdir 1 s' = Err Undefined.
Proof.
  intros s. pose (h := slot_of s 1). pose (nd := node_of s (fh_file h)).
  pose (n := node_of s (fh_ptr h)).
  assert (Hflags : attach_flags_plain) by (vm_compute; reflexivity).
  assert (Hreach : reachable s)
    by (apply (after_reachable _ s); vm_compute; reflexivity).
  assert (H0 : dir_handle s 1 h nd)
    by (split; [|split; [|split]]; vm_compute; congruence).
  assert (H0' : fh_ptr h ≠ NULL) by (vm_compute; congruence).
  assert (H1 : strip_slash "a" ≠ EmptyString) by (simpl; discriminate).
  assert (H2 : strchr (strip_slash "a") "/" = None) by (vm_compute; reflexivity).
  assert (H3 : ramdisk_find_path s (rootdir s) (strip_slash "a") 0 = Ok (fh_ptr h))
    by (vm_compute; reflexivity).
  assert (H5 : files s !! fh_ptr h = Some n) by (vm_compute; reflexivity).
  assert (H6 : f_usage n = 0) by (vm_compute; reflexivity).
  assert (H7 : f_data n = NULL ∨ is_Some (mem s !! f_data n)).
  { right. exists (block_of s (f_data n)). vm_compute. reflexivity. }
  exact (readdir_after_unlink_reads_freed_node s 1 h nd "a" n
           Hflags Hreach H0 H0' H1 H2 H3 H5 H6 H7).
Defined.

End UnlinkWitness.

(** ** The file that attach makes *)

Section Attached.
Context {opts : kos_opts}.

(** [fs_ramdisk_attach] on a name of the root directory whose node, if
    there is one, is unused: the node it leaves. *)
Lemma attach_result s al fn B size blk :
  attach_flags_plain → writable_mode (Z.lor O_WRONLY O_TRUNC) → wf s →
  strip_slash fn ≠ EmptyString → strchr (strip_slash fn) "/" = None →
  (∃ fd, free_slot s fd) →
  node_ok al = true → name_ok al = true → data_ok al = true →
  B ≠ NULL → mem s !! B = Some blk →
  (∀ f n,
     ramdisk_find_path s (rootdir s) (strip_slash fn) 0 = Ok f →
     files s !! f = Some n →
     f_usage n = 0 ∧ (f_data n = NULL ∨ is_Some (mem s !! f_data n)) ∧ f_data n ≠ B) →
  ∃ s1 f nA,
    fs_ramdisk_attach al fn B size s = Ok (0, s1)
    ∧ wf s1
    ∧ ramdisk_find_path s1 (rootdir s1) (strip_slash fn) 0 = Ok f ∧ f ≠ NULL
    ∧ files s1 !! f = Some nA ∧ f_type nA = STAT_TYPE_FILE
    ∧ f_data nA = B ∧ f_size nA = size ∧ f_datasize nA = size ∧ f_usage nA = 0
    ∧ (∃ fd, free_slot s1 fd)
    ∧ mem s1 !! B = Some blk.
Proof.
  intros Hflags Hwr Hwf Hne Hno Hslot Hnode Hname Hdata HB HBlk Hold.
  assert (Hex : ∀ sL f n,
    wf sL → ramdisk_find_path sL (rootdir sL) (strip_slash fn) 0 = Ok f → f ≠ NULL →
    files sL !! f = Some n → f_usage n = 0 →
    (f_data n = NULL ∨ is_Some (mem sL !! f_data n)) → f_data n ≠ B →
    mem sL !! B = Some blk → (∃ fd, free_slot sL fd) →
    ∃ s1 nA,
      fs_ramdisk_attach al fn B size sL = Ok (0, s1)
      ∧ wf s1
      ∧ ramdisk_find_path s1 (rootdir s1) (strip_slash fn) 0 = Ok f
      ∧ files s1 !! f = Some nA ∧ f_type nA = STAT_TYPE_FILE
      ∧ f_data nA = B ∧ f_size nA = size ∧ f_datasize nA = size ∧ f_usage nA = 0
      ∧ (∃ fd, free_slot s1 fd)
      ∧ mem s1 !! B = Some blk).
  { intros sL f n HwfL Hfind Hf Hn Hus Hdat HnB HBL HslotL.
    pose proof HwfL as (HtL & _).
    assert (Hty : f_type n = STAT_TYPE_FILE) by (by eapply find_path_loop_file).
    assert (Ht : open_target sL fn (Z.lor O_WRONLY O_TRUNC) f).
    { unfold open_target. destruct (strip_slash fn); [done|].
      unfold attach_flags_plain in Hflags. rewrite Hflags. by split. }
    destruct (attach_forward al fn B size sL f n Hflags Hwr HwfL Ht Hn Hty Hus Hdat HslotL)
      as (fd & nA & s1 & Hatt & Hup & HdA & HsA & HcA & HuA & Hslot1 & Hkeep).
    exists s1, nA. split_and!; try done.
    - by eapply wf_attach.
    - by rewrite (node_updated_find sL s1 f n nA).
    - destruct Hup as (_ & -> & _). apply lookup_insert_eq.
    - destruct Hup as (_ & _ & _ & _ & _ & _ & -> & _). done.
    - by eauto.
    - by apply Hkeep. }
  pose proof Hwf as (Ht & _).
  destruct (tree_has_children s Ht) as (l & Hl).
  destruct (tree_children s l Ht Hl) as (_ & first & _ & _ & _ & _ & Hc & _).
  pose proof (find_path_plain s l _ Ht Hl Hno Hne) as Hfind.
  set (f := find_in (files s) l (strip_slash fn) (String.length (strip_slash fn))) in *.
  destruct (decide (f = NULL)) as [Hnull | Hf].
  - rewrite Hnull in Hfind.
    destruct (create_file_ok al s l _ Ht Hl Hno Hnode Hname Hdata) as (sL & Hcreate).
    destruct (fresh_addr_spec s) as (Hf0 & Hff & _ & _).
    destruct (wf_create al s _ _ sL Hwf Hne Hfind Hcreate) as (HwfL & Hnew).
    destruct (Hnew Hf0) as (d0 & n & Hn & Hpay).
    destruct (create_file_spec al s l _ _ sL Ht Hl Hcreate)
      as [[? _] | (_ & _ & d & Hd & Hdm & HR & HcL & HD & HM & HH & HRt & HRd & HE)];
      [done|].
    destruct (relinked_forward _ _ (fresh_addr s) (new_file (strip_slash fn) d) HR)
      as (n' & Hn' & Hpay'); [apply lookup_insert_eq|].
    assert (n' = n) as -> by congruence. clear Hpay d0.
    destruct Hpay' as (Hnm & _ & _ & _ & Hus & Hda & _). simpl in *.
    assert (HlL : root_children sL (fresh_addr s :: l)).
    { exists (fresh_addr s). rewrite HRd, HD. split; [apply lookup_insert_eq | done]. }
    pose proof HwfL as (HtL & _).
    assert (HfindL : ramdisk_find_path sL (rootdir sL) (strip_slash fn) 0
                     = Ok (fresh_addr s)).
    { rewrite (find_path_plain sL _ _ HtL HlL Hno Hne). simpl.
      rewrite Hn, Hnm. by rewrite name_match_self. }
    assert (HdB : d ≠ B) by congruence.
    destruct (Hex sL (fresh_addr s) n) as (s1 & nA & Hatt & Hrest); try done.
    + rewrite Hda, HM. right. rewrite lookup_insert_eq. by eexists.
    + by rewrite Hda.
    + rewrite HM. by rewrite lookup_insert_ne.
    + destruct Hslot as (fd & Hfd & h & Hh & Hnull'). exists fd. split; [done|].
      exists h. split; [|done]. unfold fh_at in *. by rewrite HH.
    + exists s1, (fresh_addr s), nA. split.
      * rewrite <- Hatt. unfold fs_ramdisk_attach. destruct Hwr as (Hmm & _).
        by rewrite (open_created al fn _ s (fresh_addr s) sL).
      * destruct Hrest as (? & ? & ? & ? & ? & ? & ? & ? & ? & ?).
        split_and!; done.
  - assert (Hin : f ∈ l) by (by eapply find_in_elem).
    destruct (chain_lookup _ _ _ _ _ Hc Hin) as (_ & n & Hn).
    destruct (Hold f n Hfind Hn) as (Hus & Hdat & HnB).
    destruct (Hex s f n)
      as (s1 & nA & Hatt & ? & ? & ? & ? & ? & ? & ? & ? & ? & ?); try done.
    exists s1, f, nA. split_and!; done.
Qed.

(** A file made by [fs_ramdisk_attach] is the block of the caller,
    not a copy: opened for reading, [mmap] returns the address that was
    attached, [total] its length, and a read of that length returns its
    bytes. *)
Theorem attached_file_is_the_buffer s al fn B blk :
  let size := Z.of_nat (length blk) in
  attach_flags_plain → writable_mode (Z.lor O_WRONLY O_TRUNC) → reachable s →
  strip_slash fn ≠ EmptyString → strchr (strip_slash fn) "/" = None →
  (∃ fd, free_slot s fd) →
  node_ok al = true → name_ok al = true → data_ok al = true →
  B ≠ NULL → mem s !! B = Some blk → size < 2^31 →
  (∀ f n,
     ramdisk_find_path s (rootdir s) (strip_slash fn) 0 = Ok f →
     files s !! f = Some n →
     f_usage n = 0 ∧ (f_data n = NULL ∨ is_Some (mem s !! f_data n)) ∧ f_data n ≠ B) →
  ∃ s1 fd s2 s3,
    fs_ramdisk_attach al fn B size s = Ok (0, s1)
    ∧ ramdisk_open al fn O_RDONLY s1 = Ok (fd, s2) ∧ fd ≠ NULL
    ∧ ramdisk_mmap fd s2 = Ok (B, s2)
    ∧ ramdisk_total fd s2 = Ok (size, s2)
    ∧ ramdisk_read fd size s2 = Ok (size, blk, s3).
Proof.
  intros size Hflags Hwr Hreach Hne Hno Hslot Hnode Hname Hdata HB HBlk Hsize Hold.
  pose proof (reachable_wf s Hflags Hreach) as Hwf.
  destruct (attach_result s al fn B size blk Hflags Hwr Hwf Hne Hno Hslot
              Hnode Hname Hdata HB HBlk Hold)
    as (s1 & f & nA & Hatt & Hwf1 & Hfind1 & Hf & HnA & Hty & Hd & Hsz & _ & Hus
        & Hslot1 & HB1).
  assert (Ht : open_target s1 fn O_RDONLY f).
  { unfold open_target. destruct (strip_slash fn); [done|]. by split. }
  destruct (open_rdonly_forward al fn s1 f nA Hwf1 Ht HnA Hty Hus Hslot1)
    as (fd & h0 & s2 & Hopen & Hfd & Hh0 & Hnull0 & HF & HH & HD & HR & HRd & HM).
  set (h1 := set_fh_ptr 0 (set_fh_omode O_RDONLY (set_fh_dir 0 (set_fh_file f h0)))) in *.
  set (n2 := set_usage 1 (set_openfor OPENFOR_READ nA)) in *.
  assert (Hh1 : fh_at s2 fd = Ok h1) by (by eapply fh_at_inserted).
  assert (Hn2 : files s2 !! f = Some n2) by (by rewrite HF, lookup_insert_eq).
  exists s1, fd, s2. eexists.
  split; [done|]. split; [done|]. split; [unfold NULL; lia|].
  split; [|split].
  - unfold ramdisk_mmap.
    replace (fd <? FS_RAMDISK_MAX_FILES) with true by lia.
    rewrite Hh1. simpl.
    replace (f =? NULL) with false by (unfold NULL in *; lia). simpl.
    unfold file_at. rewrite Hn2. simpl. by rewrite Hd.
  - unfold ramdisk_total.
    replace (fd <? FS_RAMDISK_MAX_FILES) with true by lia.
    rewrite Hh1. simpl.
    replace (f =? NULL) with false by (unfold NULL in *; lia). simpl.
    unfold file_at. rewrite Hn2. simpl. by rewrite Hsz.
  - rewrite (read_forward s2 fd h1 n2 blk size).
    + simpl. rewrite Hsz. replace (Z.min size (size - 0)) with size by lia.
      unfold size at 2. rewrite Nat2Z.id, firstn_all. reflexivity.
    + split_and!; done.
    + simpl. by rewrite Hd, HM.
    + simpl. lia.
    + simpl. lia.
    + simpl. lia.
    + lia.
    + simpl. lia.
Qed.

End Attached.

Section AttachedWitness.
#[local] Existing Instance kos_default_opts.

(** The two-byte block at address 3, attached as [x], is what the file
    [x] maps to and reads as. *)
Lemma attached_file_is_the_buffer_witness :
  let s := after [ClientMalloc ["h"%byte; "i"%byte]] in
  ∃ s1 fd s2 s3,
    fs_ramdisk_attach all_ok "x" 3 2 s = Ok (0, s1)
    ∧ ramdisk_open all_ok "x" O_RDONLY s1 = Ok (fd, s2) ∧ fd ≠ NULL
    ∧ ramdisk_mmap fd s2 = Ok (3, s2)
    ∧ ramdisk_total fd s2 = Ok (2, s2)
    ∧ ramdisk_read fd 2 s2 = Ok (2, ["h"%byte; "i"%byte], s3).
Proof.
  intros s.
  assert (Hflags : attach_flags_plain) by (vm_compute; reflexivity).
  assert (Hwr : writable_mode (Z.lor O_WRONLY O_TRUNC))
    by (vm_compute; split; [|right]; congruence).
  assert (Hreach : reachable s)
    by (apply (after_reachable _ s); vm_compute; reflexivity).
  assert (H1 : strip_slash "x" ≠ EmptyString) by (simpl; discriminate).
  assert (H2 : strchr (strip_slash "x") "/" = None) by (vm_compute; reflexivity).
  assert (H3 : ∃ fd, free_slot s fd).
  { exists 1. split; [vm_compute; split; congruence|].
    exists (slot_of s 1). split; vm_compute; reflexivity. }
  assert (H4 : (3 : Z) ≠ NULL) by (vm_compute; congruence).
  assert (H5 : mem s !! 3 = Some ["h"%byte; "i"%byte]) by (vm_compute; reflexivity).
  assert (H6 : Z.of_nat (length ["h"%byte; "i"%byte]) < 2^31) by (vm_compute; reflexivity).
  assert (H7 : ∀ f n,
             ramdisk_find_path s (rootdir s) (strip_slash "x") 0 = Ok f →
             files s !! f = Some n →
             f_usage n = 0 ∧ (f_data n = NULL ∨ is_Some (mem s !! f_data n))
             ∧ f_data n ≠ 3).
  { intros f n Hf Hn. assert (f = 0) as -> by (vm_compute in Hf; congruence).
    vm_compute in Hn. discriminate Hn. }
  exact (attached_file_is_the_buffer s all_ok "x" 3 ["h"%byte; "i"%byte]
           Hflags Hwr Hreach H1 H2 H3 eq_refl eq_refl eq_refl H4 H5 H6 H7).
Defined.

End AttachedWitness.

(** ** Initialisation and shutdown *)

Section Lifecycle.
Context {opts : kos_opts}.

(** An initialisation that fails after the list head of the root was
    allocated cannot be retried: the list head is freed but [rootdir]
    keeps its address, so every later [fs_ramdisk_init] returns at once
    and leaves the state as it is.  No node was made.  When it was the
    allocation of the root node that failed, [root] is [NULL] and every
    [ramdisk_open] that gets past its first test fails the assertion. *)
Theorem failed_init_cannot_be_retried s (root_ok rname_ok : bool) :
  rootdir s = NULL → root_ok && rname_ok = false →
  let s1 := fs_ramdisk_init true root_ok rname_ok s in
  rootdir s1 ≠ NULL ∧ dirs s1 !! rootdir s1 = None ∧ files s1 = files s
  ∧ (∀ a b c, fs_ramdisk_init a b c s1 = s1)
  ∧ (root_ok = false →
     root s1 = NULL
     ∧ ∀ al fn mode,
         negb (Z.land mode O_DIR =? 0) && negb (Z.land mode O_MODE_MASK =? O_RDONLY)
         = false →
         ramdisk_open al fn mode s1 = Err AssertFailed).
Proof.
  intros Hrd Hfail s1.
  destruct (fresh_addr_spec s) as (Hd0 & _ & Hdd & _).
  assert (Hrd1 : rootdir s1 = fresh_addr s).
  { unfold s1, fs_ramdisk_init. rewrite Hrd. simpl.
    destruct root_ok; simpl; [|done]. destruct rname_ok; [done|]. done. }
  assert (Hnz : rootdir s1 ≠ NULL) by (by rewrite Hrd1).
  split; [done|]. split.
  { rewrite Hrd1. unfold s1, fs_ramdisk_init. rewrite Hrd. simpl.
    destruct root_ok; simpl; [|apply lookup_delete_eq].
    destruct rname_ok; [done|]. simpl. apply lookup_delete_eq. }
  split.
  { unfold s1, fs_ramdisk_init. rewrite Hrd. simpl.
    destruct root_ok; simpl; [|done]. destruct rname_ok; [done|]. done. }
  split.
  { intros a b c. unfold fs_ramdisk_init at 1.
    by replace (rootdir s1 =? NULL) with false by (unfold NULL in *; lia). }
  intros ->.
  assert (Hroot : root s1 = NULL).
  { unfold s1, fs_ramdisk_init. by rewrite Hrd. }
  split; [done|]. intros al fn mode Hmode. unfold ramdisk_open.
  rewrite Hmode, Hroot. done.
Qed.

End Lifecycle.

Section LifecycleWitness.
#[local] Existing Instance kos_default_opts.

(** At boot, with no memory for the root node. *)
Lemma failed_init_cannot_be_retried_witness :
  let s1 := fs_ramdisk_init true false true boot in
  fs_ramdisk_init true true true s1 = s1
  ∧ ramdisk_open all_ok "f" O_WRONLY s1 = Err AssertFailed.
Proof.
  intros s1.
  assert (H1 : rootdir boot = NULL) by reflexivity.
  assert (H2 : false && true = false) by reflexivity.
  destruct (failed_init_cannot_be_retried boot false true H1 H2)
    as (_ & _ & _ & Hinit & Hopen).
  split; [exact (Hinit true true true)|].
  exact (proj2 (Hopen eq_refl) all_ok "f"%string O_WRONLY eq_refl).
Defined.

End LifecycleWitness.

Section Shutdown.
Context {opts : kos_opts}.

Lemma blocks_live_files F F' l : ∀ M,
  (∀ a, a ∈ l → F' !! a = F !! a) → blocks_live F M l → blocks_live F' M l.
Proof.
  induction l as [|a l IH]; intros M Hsame; [done|]. simpl.
  intros (n & Hn & Hd & Hrest). exists n. split; [|split; [done|]].
  - rewrite Hsame; [done | by left].
  - apply IH; [|done]. intros b Hb. apply Hsame. by right.
Qed.

(** The loop of [fs_ramdisk_shutdown] on a list of files whose blocks
    can be freed: it ends, the files are gone and their blocks are
    released; nothing else is touched and nothing is allocated. *)
Lemma shutdown_from_chain l : ∀ fuel s prev p,
  chain (files s) prev p l →
  (∀ a n, a ∈ l → files s !! a = Some n → f_type n = STAT_TYPE_FILE) →
  blocks_live (files s) (mem s) l → (length l < fuel)%nat →
  ∃ s', shutdown_from fuel p s = Ok s'
    ∧ (∀ x, files s' !! x = if decide (x ∈ l) then None else files s !! x)
    ∧ dirs s' = dirs s ∧ fh s' = fh s ∧ root s' = root s
    ∧ rootdir s' = rootdir s ∧ errno s' = errno s
    ∧ (∀ a n, a ∈ l → files s !! a = Some n → f_data n ≠ NULL →
         mem s' !! f_data n = None)
    ∧ (∀ q, is_Some (mem s' !! q) → is_Some (mem s !! q)).
Proof.
  induction l as [|a l IH]; intros fuel s prev p Hc Hfile Hlive Hfuel;
    (destruct fuel as [|fuel]; [simpl in Hfuel; lia|]).
  - apply chain_nil_inv in Hc as ->. exists s. simpl. split_and!; try done.
    intros a n Ha. by apply elem_of_nil in Ha.
  - pose proof (chain_NoDup _ _ _ _ Hc) as Hnd.
    apply NoDup_cons in Hnd as [Hal _].
    apply chain_cons_inv in Hc as (-> & Ha & n & Hn & _ & Hc).
    destruct Hlive as (n' & Hn' & Hd & Hlive).
    assert (n' = n) as -> by congruence.
    assert (Hty : f_type n = STAT_TYPE_FILE) by (eapply Hfile; [by left | done]).
    set (M' := if decide (f_data n = NULL) then mem s else delete (f_data n) (mem s)) in *.
    set (s1 := set_files (delete a (files s)) (set_mem M' s)).
    assert (Hstep : shutdown_from (S fuel) a s = shutdown_from fuel (le_next n) s1).
    { simpl. replace (a =? NULL) with false by (unfold NULL in *; lia).
      unfold file_at. rewrite Hn. simpl. rewrite Hty.
      rewrite bool_decide_eq_false_2 by done.
      unfold free_mem, s1. subst M'. destruct (decide (f_data n = NULL)) as [E | E].
      - rewrite E. simpl. unfold free_file.
        replace (a =? NULL) with false by (unfold NULL in *; lia).
        by rewrite Hn.
      - replace (f_data n =? NULL) with false by (unfold NULL in *; lia).
        destruct Hd as [Hd | [b Hb]]; [done|]. rewrite Hb. simpl.
        unfold free_file. simpl.
        replace (a =? NULL) with false by (unfold NULL in *; lia).
        by rewrite Hn. }
    destruct (IH fuel s1 (LNode a) (le_next n))
      as (s' & Hrun & HF & HD & HH & HR & HRd & HE & Hfreed & Hsub).
    { simpl. by apply chain_delete_fresh. }
    { intros b nb Hb Hnb. simpl in Hnb.
      assert (b ≠ a) by congruence. rewrite lookup_delete_ne in Hnb by done.
      eapply Hfile; [by right | done]. }
    { simpl. apply (blocks_live_files (files s)); [|done].
      intros b Hb. assert (b ≠ a) by congruence. by rewrite lookup_delete_ne. }
    { simpl in Hfuel. lia. }
    exists s'. rewrite Hstep. split; [done|]. split_and!; try done.
    + intros x. rewrite HF. simpl.
      destruct (decide (x = a)) as [->|Hxa].
      * rewrite (decide_True (P := a ∈ a :: l)) by (by left).
        destruct (decide (a ∈ l)); [done | apply lookup_delete_eq].
      * rewrite lookup_delete_ne by done.
        destruct (decide (x ∈ l)) as [Hx | Hx].
        -- by rewrite decide_True by (by right).
        -- rewrite decide_False; [done|].
           intros [? | ?]%elem_of_cons; done.
    + intros b nb Hb Hnb Hdb.
      apply elem_of_cons in Hb as [-> | Hb].
      * assert (nb = n) as -> by congruence.
        destruct (mem s' !! f_data n) eqn:E; [|done].
        destruct (Hsub (f_data n)) as [b' Hb']; [by eexists|].
        simpl in Hb'. unfold M' in Hb'. rewrite decide_False in Hb' by done.
        by rewrite lookup_delete_eq in Hb'.
      * apply (Hfreed b nb Hb); [|done]. simpl.
        assert (b ≠ a) by congruence. by rewrite lookup_delete_ne.
    + intros q Hq. apply Hsub in Hq. simpl in Hq. unfold M' in Hq.
      destruct (decide (f_data n = NULL)); [done|].
      destruct (decide (q = f_data n)) as [->|Hne].
      * rewrite lookup_delete_eq in Hq. by destruct Hq.
      * by rewrite lookup_delete_ne in Hq.
Qed.

(** [fs_ramdisk_shutdown] in a reachable state whose file blocks can be
    freed returns with every node released, the data block of every
    file released, and the list head of the root released.  But [root]
    and [rootdir] keep their addresses and the handle table keeps its
    slots: a later [fs_ramdisk_init] sees [rootdir] set and does
    nothing, and a [ramdisk_open] of the root or of a name in it reads
    freed memory. *)
Theorem shutdown_frees_all_and_stays_initialised s l :
  attach_flags_plain → reachable s →
  root_children s l → blocks_live (files s) (mem s) l →
  ∃ s', fs_ramdisk_shutdown s = Ok s'
    ∧ files s' = ∅
    ∧ (∀ a n, files s !! a = Some n → f_type n = STAT_TYPE_FILE →
         f_data n ≠ NULL → mem s' !! f_data n = None)
    ∧ rootdir s' = rootdir s ∧ rootdir s' ≠ NULL ∧ dirs s' !! rootdir s' = None
    ∧ root s' = root s ∧ fh s' = fh s
    ∧ (∀ a b c, fs_ramdisk_init a b c s' = s')
    ∧ (∀ al fn mode,
         negb (Z.land mode O_DIR =? 0) && negb (Z.land mode O_MODE_MASK =? O_RDONLY)
         = false →
         strchr (strip_slash fn) "/" = None →
         ramdisk_open al fn mode s' = Err Undefined).
Proof.
  intros Hflags Hreach Hl Hlive.
  destruct (reachable_wf s Hflags Hreach) as (Ht & _).
  pose proof Ht as (Hr & Hrd & _).
  destruct (tree_children s l Ht Hl)
    as (rn & first & Hrn & Hrty & _ & Hfirst & Hc & _ & Hrl & Hall & Hfile & _).
  pose proof (children_size s l Ht Hl) as Hsize.
  destruct (shutdown_from_chain l (S (size (files s))) s _ _ Hc Hfile Hlive Hsize)
    as (s1 & Hrun & HF & HD & HH & HR & HRd & HE & Hfreed & _).
  set (s2 := set_dirs (delete (rootdir s) (dirs s1)) s1).
  set (s3 := set_files (delete (root s) (files s2)) s2).
  assert (Hroot1 : files s1 !! root s = Some rn).
  { rewrite HF. by rewrite decide_False. }
  exists s3. split.
  { unfold fs_ramdisk_shutdown.
    replace (rootdir s =? NULL) with false by (unfold NULL in *; lia).
    unfold dir_at. rewrite Hfirst, bind_Ok_l, Hrun, bind_Ok_l.
    unfold free_dir. rewrite HRd, HD.
    replace (rootdir s =? NULL) with false by (unfold NULL in *; lia).
    rewrite Hfirst. simpl. unfold file_at. simpl. rewrite HR, Hroot1. simpl.
    unfold free_file. simpl.
    replace (root s =? NULL) with false by (unfold NULL in *; lia).
    rewrite Hroot1. unfold s3, s2. by rewrite HD. }
  assert (Hempty : files s3 = ∅).
  { apply map_empty. intros x. simpl.
    destruct (decide (x = root s)) as [->|Hx]; [apply lookup_delete_eq|].
    rewrite lookup_delete_ne by done. rewrite HF.
    destruct (decide (x ∈ l)) as [|Hxl]; [done|].
    destruct (files s !! x) eqn:E; [|done].
    destruct (proj1 (Hall x)) as [? | ?]; [by eexists | done | done]. }
  assert (Hrd3 : rootdir s3 = rootdir s) by done.
  assert (Hdirs3 : dirs s3 !! rootdir s3 = None).
  { simpl. rewrite HRd. apply lookup_delete_eq. }
  split; [done|]. split.
  { intros a n Hn Hty Hd. simpl. apply (Hfreed a n); [|done|done].
    destruct (proj1 (Hall a)) as [-> | ?]; [by eexists| |done].
    rewrite Hrn in Hn. injection Hn as <-. by rewrite Hrty in Hty. }
  split; [done|]. split; [by rewrite Hrd3|]. split; [done|].
  split; [done|]. split; [done|]. split.
  { intros a b c. unfold fs_ramdisk_init.
    by replace (rootdir s3 =? NULL) with false by (rewrite Hrd3; unfold NULL in *; lia). }
  intros al fn mode Hmode Hno. unfold ramdisk_open.
  change (match fn with String "/" fn' => fn' | _ => fn end) with (strip_slash fn).
  rewrite Hmode.
  replace (root s3 =? NULL) with false by (simpl; rewrite HR; unfold NULL in *; lia).
  destruct (strip_slash fn) as [|c fn'] eqn:Efn.
  - simpl. rewrite HR.
    replace (root s =? NULL) with false by (unfold NULL in *; lia).
    unfold file_at. by rewrite Hempty.
  - unfold ramdisk_find_path. cbn [ramdisk_find_path_loop String.length].
    rewrite Hno. unfold ramdisk_find, dir_at. by rewrite Hdirs3.
Qed.

End Shutdown.

Section ShutdownWitness.
#[local] Existing Instance kos_default_opts.

(** The file system with the file [hello.txt] is shut down: its node
    and its block are released, and it cannot be initialised again. *)
Lemma shutdown_frees_all_and_stays_initialised_witness :
  let s := after hello_calls in
  ∃ s', fs_ramdisk_shutdown s = Ok s'
    ∧ files s' = ∅
    ∧ fs_ramdisk_init true true true s' = s'
    ∧ ramdisk_open all_ok "hello.txt" O_RDONLY s' = Err Undefined.
Proof.
  intros s.
  assert (Hflags : attach_flags_plain) by (vm_compute; reflexivity).
  assert (Hreach : reachable s)
    by (apply (after_reachable _ s); vm_compute; reflexivity).
  assert (H1 : root_children s [3]).
  { exists 3. split; [vm_compute; reflexivity|].
    apply (chain_cons_at _ _ 3 (node_of s 3) _ 0);
      [vm_compute; congruence | vm_compute; reflexivity ..|].
    apply chain_nil. }
  assert (H2 : blocks_live (files s) (mem s) [3]).
  { exists (node_of s 3). split; [vm_compute; reflexivity|].
    split; [|exact I]. right. exists (block_of s 4). vm_compute. reflexivity. }
  destruct (shutdown_frees_all_and_stays_initialised s [3] Hflags Hreach H1 H2)
    as (s' & Hrun & Hempty & _ & _ & _ & _ & _ & _ & Hinit & Hopen).
  exists s'. split; [exact Hrun|]. split; [exact Hempty|].
  split; [exact (Hinit true true true)|].
  exact (Hopen all_ok "hello.txt"%string O_RDONLY eq_refl eq_refl).
Defined.

End ShutdownWitness.

(** ** Opening for writing: append and truncate *)

Section OpenWrite.
Context {opts : kos_opts}.

(** An open in a writable mode of an unused file, with a free slot: the
    handle and the node it leaves, by the flags [O_APPEND] and
    [O_TRUNC]. *)
Lemma open_write_forward al fn mode s f n :
  Z.land mode O_DIR = 0 → writable_mode mode → wf s →
  open_target s fn mode f → files s !! f = Some n →
  f_type n = STAT_TYPE_FILE → f_usage n = 0 →
  (f_data n = NULL ∨ is_Some (mem s !! f_data n)) →
  (∃ fd, free_slot s fd) →
  ∃ fd h1 n1 s',
    ramdisk_open al fn mode s = Ok (fd, s')
    ∧ 1 ≤ fd < FS_RAMDISK_MAX_FILES
    ∧ fh_at s' fd = Ok h1 ∧ fh_file h1 = f ∧ fh_dir h1 = 0
    ∧ files s' !! f = Some n1 ∧ f_openfor n1 = OPENFOR_WRITE
    ∧ (mem s !! NULL = None → mem s' !! NULL = None)
    ∧ if negb (Z.land mode O_APPEND =? 0)
      then fh_ptr h1 = f_size n ∧ f_size n1 = f_size n ∧ f_data n1 = f_data n
           ∧ f_datasize n1 = f_datasize n ∧ mem s' = mem s
      else if negb (Z.land mode O_TRUNC =? 0)
      then fh_ptr h1 = 0 ∧ f_size n1 = 0 ∧ f_datasize n1 = 1024
           ∧ if trunc_ok al
             then f_data n1 ≠ NULL ∧ mem s' !! f_data n1 = Some (zeros 1024)
             else f_data n1 = NULL
      else fh_ptr h1 = 0 ∧ f_size n1 = f_size n ∧ f_data n1 = f_data n
           ∧ f_datasize n1 = f_datasize n ∧ mem s' = mem s.
Proof.
  intros Hdir (Hmm & Hbits) Hwf Ht Hn Hty Hus Hdata (fd0 & Hfd0 & h & Hh & Hnull').
  pose proof Hwf as (Htree & (Hlen & Hnodes & _) & _). pose proof Htree as (Hr & _).
  destruct (first_free_slot s Hlen) as (fd & h0 & Hfd & Hfd1 & Hh0 & Hnull);
    [by eauto|].
  destruct (Hnodes _ _ Hn) as (_ & Hunl & _).
  assert (Hof : f_openfor n = OPENFOR_NOTHING) by (by apply Hunl).
  assert (Hf : f ≠ NULL).
  { intros ->. by rewrite (tree_null _ _ _ _ Htree) in Hn. }
  pose proof Hh0 as [_ Hl0]%fh_at_Ok.
  pose proof (lookup_lt_Some _ _ _ Hl0) as Hlt.
  unfold ramdisk_open.
  change (match fn with String "/" fn' => fn' | _ => fn end) with (strip_slash fn).
  rewrite Hdir. simpl.
  replace (root s =? NULL) with false by (unfold NULL in *; lia).
  match goal with
  | |- ∃ fd h1 n1 s', ?m ≫= _ = _ ∧ _ => assert (Hlook : m = Ok (f, s))
  end.
  { pose proof (open_lookup_found al fn _ s f Ht Hr) as H.
    rewrite Hdir in H. exact H. }
  rewrite Hlook. simpl.
  replace (f =? NULL) with false by (unfold NULL in *; lia).
  unfold file_at. rewrite Hn. simpl. rewrite Hty.
  rewrite bool_decide_eq_false_2 by done. simpl.
  rewrite Hfd. simpl.
  replace (FS_RAMDISK_MAX_FILES <=? fd) with false by lia.
  rewrite Hof. rewrite bool_decide_eq_false_2 by done.
  rewrite Hh0. simpl.
  replace (Z.land mode O_MODE_MASK =? O_RDONLY) with false by lia.
  match goal with
  | |- context [negb ?a || negb ?b] =>
      replace (negb a || negb b) with true
        by (symmetry; apply orb_true_iff; destruct Hbits; [left | right];
            by apply negb_true_iff, Z.eqb_neq)
  end.
  assert (Hat : ∀ (s0 : ramdisk) (hx : fh_t),
            fh s0 = <[Z.to_nat fd := hx]> (fh s) → fh_at s0 fd = Ok hx).
  { intros s0 hx Hfh. apply fh_at_Ok. split; [lia|].
    rewrite Hfh. by apply list_lookup_insert_eq. }
  exists fd.
  destruct (negb (Z.land mode O_APPEND =? 0)) eqn:Eapp; simpl.
  { rewrite lookup_insert_eq. simpl. rewrite Hus. simpl.
    eexists _, _, _. split; [reflexivity|]. simpl.
    rewrite lookup_insert_eq. split; [lia|]. split.
    { apply Hat. simpl. by rewrite list_insert_insert_eq. }
    split_and!; done. }
  destruct (negb (Z.land mode O_TRUNC =? 0)) eqn:Etr; simpl.
  2:{ rewrite lookup_insert_eq. simpl. rewrite Hus. simpl.
      eexists _, _, _. split; [reflexivity|]. simpl.
      rewrite lookup_insert_eq. split; [lia|]. split.
      { apply Hat. simpl. by rewrite list_insert_insert_eq. }
      split_and!; done. }
  match goal with
  | |- context [free_mem (f_data n) ?x] => set (sa := x)
  end.
  assert (Hfree : ∃ sb, free_mem (f_data n) sa = Ok sb
            ∧ files sb = files sa ∧ fh sb = fh sa
            ∧ (mem s !! NULL = None → mem sb !! NULL = None)).
  { unfold free_mem. destruct (f_data n =? NULL) eqn:Ed.
    - exists sa. split_and!; done.
    - destruct Hdata as [Hd | [b Hb]]; [unfold NULL in *; lia|].
      simpl. rewrite Hb. eexists. split_and!; try done.
      intros H0. simpl. rewrite lookup_delete_ne; [done|].
      unfold NULL in *. lia. }
  destruct Hfree as (sb & -> & HFb & HHb & HMb). simpl.
  unfold malloc_mem.
  destruct (fresh_addr_spec sb) as (Hd0 & _ & _ & Hdm).
  destruct (trunc_ok al); simpl; rewrite HFb; simpl; rewrite lookup_insert_eq; simpl;
    rewrite Hus; simpl; (eexists _, _, _; split; [reflexivity|]); simpl;
    rewrite lookup_insert_eq; (split; [lia|]);
    (split; [apply Hat; simpl; rewrite HHb; simpl; by rewrite list_insert_insert_eq|]).
  - split_and!; try done.
    + intros H0. rewrite lookup_insert_ne; [by apply HMb|]. done.
    + by rewrite lookup_insert_eq.
  - split_and!; done.
Qed.

(** An open with [O_TRUNC] (and without [O_APPEND]) of an existing file
    empties it: the logical size and the cursor are 0 and a read
    returns no bytes. *)
Theorem open_trunc_empties_file s al fn mode f n :
  attach_flags_plain → reachable s →
  Z.land mode O_DIR = 0 → writable_mode mode →
  Z.land mode O_APPEND = 0 → Z.land mode O_TRUNC ≠ 0 → trunc_ok al = true →
  open_target s fn mode f → files s !! f = Some n →
  f_type n = STAT_TYPE_FILE → f_usage n = 0 →
  (f_data n = NULL ∨ is_Some (mem s !! f_data n)) →
  (∃ fd, free_slot s fd) →
  ∃ fd s',
    ramdisk_open al fn mode s = Ok (fd, s') ∧ fd ≠ NULL
    ∧ ramdisk_total fd s' = Ok (0, s')
    ∧ ramdisk_tell fd s' = Ok (0, s')
    ∧ ∀ bytes, 0 ≤ bytes < 2^32 →
        ∃ s'', ramdisk_read fd bytes s' = Ok (0, [], s'').
Proof.
  intros Hflags Hreach Hdir Hwr Happ Htr Hok Ht Hn Hty Hus Hdata Hslot.
  pose proof (reachable_wf s Hflags Hreach) as Hwf.
  assert (Hf : f ≠ NULL).
  { destruct Hwf as (Htree & _). intros ->.
    by rewrite (tree_null _ _ _ _ Htree) in Hn. }
  destruct (open_write_forward al fn mode s f n Hdir Hwr Hwf Ht Hn Hty Hus Hdata Hslot)
    as (fd & h1 & n1 & s' & Hopen & Hfd & Hh1 & Hf1 & Hd1 & Hn1 & _ & _ & Hres).
  rewrite Happ in Hres. simpl in Hres.
  replace (Z.land mode O_TRUNC =? 0) with false in Hres by lia. simpl in Hres.
  rewrite Hok in Hres. destruct Hres as (Hp & Hsz & Hcap & Hdn & Hblk).
  exists fd, s'. split; [done|]. split; [unfold NULL; lia|].
  split; [|split].
  - unfold ramdisk_total.
    replace (fd <? FS_RAMDISK_MAX_FILES) with true by lia.
    rewrite Hh1. simpl. rewrite Hf1, Hd1.
    replace (f =? NULL) with false by (unfold NULL in *; lia). simpl.
    unfold file_at. rewrite Hn1. simpl. by rewrite Hsz.
  - unfold ramdisk_tell.
    replace (fd <? FS_RAMDISK_MAX_FILES) with true by lia.
    rewrite Hh1. simpl. rewrite Hf1, Hd1, Hp.
    by replace (f =? NULL) with false by (unfold NULL in *; lia).
  - intros bytes Hb. eexists.
    rewrite (read_forward s' fd h1 n1 (zeros 1024) bytes).
    + rewrite Hsz, Hp. replace (Z.min bytes (0 - 0)) with 0 by lia. reflexivity.
    + split_and!; try done; by rewrite Hf1.
    + done.
    + lia.
    + rewrite Hsz. unfold zeros. rewrite length_replicate. lia.
    + rewrite Hsz. lia.
    + lia.
    + lia.
Qed.

(** [ramdisk_open] does not check the [malloc] of its [O_TRUNC] branch.
    When that allocation fails the open still returns a handle; the node
    is left with a [NULL] data pointer and a capacity of 1024, so that a
    following write of up to 1024 bytes is copied to [NULL]. *)
Theorem open_trunc_unchecked_malloc s al fn mode f n :
  attach_flags_plain → reachable s →
  Z.land mode O_DIR = 0 → writable_mode mode →
  Z.land mode O_APPEND = 0 → Z.land mode O_TRUNC ≠ 0 → trunc_ok al = false →
  open_target s fn mode f → files s !! f = Some n →
  f_type n = STAT_TYPE_FILE → f_usage n = 0 →
  (f_data n = NULL ∨ is_Some (mem s !! f_data n)) →
  (∃ fd, free_slot s fd) → mem s !! NULL = None →
  ∃ fd n1 s',
    ramdisk_open al fn mode s = Ok (fd, s') ∧ fd ≠ NULL
    ∧ files s' !! f = Some n1 ∧ f_data n1 = NULL ∧ f_datasize n1 = 1024
    ∧ ∀ buf (np_ok : bool), Z.of_nat (length buf) ≤ 1024 →
        ramdisk_write np_ok fd buf (Z.of_nat (length buf)) s' = Err Undefined.
Proof.
  intros Hflags Hreach Hdir Hwr Happ Htr Hok Ht Hn Hty Hus Hdata Hslot Hnull.
  pose proof (reachable_wf s Hflags Hreach) as Hwf.
  assert (Hf : f ≠ NULL).
  { destruct Hwf as (Htree & _). intros ->.
    by rewrite (tree_null _ _ _ _ Htree) in Hn. }
  destruct (open_write_forward al fn mode s f n Hdir Hwr Hwf Ht Hn Hty Hus Hdata Hslot)
    as (fd & h1 & n1 & s' & Hopen & Hfd & Hh1 & Hf1 & Hd1 & Hn1 & Hw & Hnull' & Hres).
  rewrite Happ in Hres. simpl in Hres.
  replace (Z.land mode O_TRUNC =? 0) with false in Hres by lia. simpl in Hres.
  rewrite Hok in Hres. destruct Hres as (Hp & Hsz & Hcap & Hdn).
  exists fd, n1, s'. split; [done|]. split; [unfold NULL; lia|].
  split; [done|]. split; [done|]. split; [done|].
  intros buf np_ok Hlen. unfold ramdisk_write.
  replace (fd <? FS_RAMDISK_MAX_FILES) with true by lia.
  rewrite Hh1. simpl. rewrite Hf1, Hd1.
  replace (f =? NULL) with false by (unfold NULL in *; lia). simpl.
  unfold file_at. rewrite Hn1. simpl. rewrite Hw.
  rewrite bool_decide_eq_true_2 by done. rewrite Hp, Hcap.
  rewrite (u32_small (0 + Z.of_nat (length buf))) by lia.
  replace (1024 <? 0 + Z.of_nat (length buf)) with false by lia. simpl.
  replace (Z.of_nat (length buf) <? Z.of_nat (length buf)) with false by lia.
  unfold mem_write. rewrite Hdn. by rewrite (Hnull' Hnull).
Qed.

(** An open with [O_APPEND] of an existing file keeps its contents and
    puts the cursor at its logical size. *)
Theorem open_append_starts_at_end s al fn mode f n :
  attach_flags_plain → reachable s →
  Z.land mode O_DIR = 0 → writable_mode mode → Z.land mode O_APPEND ≠ 0 →
  open_target s fn mode f → files s !! f = Some n →
  f_type n = STAT_TYPE_FILE → f_usage n = 0 →
  (f_data n = NULL ∨ is_Some (mem s !! f_data n)) →
  (∃ fd, free_slot s fd) → 0 ≤ f_size n < 2^31 →
  ∃ fd s',
    ramdisk_open al fn mode s = Ok (fd, s') ∧ fd ≠ NULL
    ∧ ramdisk_tell fd s' = Ok (f_size n, s')
    ∧ ramdisk_total fd s' = Ok (f_size n, s')
    ∧ ramdisk_mmap fd s' = Ok (f_data n, s')
    ∧ mem s' = mem s.
Proof.
  intros Hflags Hreach Hdir Hwr Happ Ht Hn Hty Hus Hdata Hslot Hsize.
  pose proof (reachable_wf s Hflags Hreach) as Hwf.
  assert (Hf : f ≠ NULL).
  { destruct Hwf as (Htree & _). intros ->.
    by rewrite (tree_null _ _ _ _ Htree) in Hn. }
  destruct (open_write_forward al fn mode s f n Hdir Hwr Hwf Ht Hn Hty Hus Hdata Hslot)
    as (fd & h1 & n1 & s' & Hopen & Hfd & Hh1 & Hf1 & Hd1 & Hn1 & _ & _ & Hres).
  replace (Z.land mode O_APPEND =? 0) with false in Hres by lia. simpl in Hres.
  destruct Hres as (Hp & Hsz & Hdn & _ & HM).
  exists fd, s'. split; [done|]. split; [unfold NULL; lia|].
  split_and!; try done.
  - unfold ramdisk_tell.
    replace (fd <? FS_RAMDISK_MAX_FILES) with true by lia.
    rewrite Hh1. simpl. rewrite Hf1, Hd1, Hp.
    replace (f =? NULL) with false by (unfold NULL in *; lia). simpl.
    by rewrite s32_small by lia.
  - unfold ramdisk_total.
    replace (fd <? FS_RAMDISK_MAX_FILES) with true by lia.
    rewrite Hh1. simpl. rewrite Hf1, Hd1.
    replace (f =? NULL) with false by (unfold NULL in *; lia). simpl.
    unfold file_at. rewrite Hn1. simpl. by rewrite Hsz.
  - unfold ramdisk_mmap.
    replace (fd <? FS_RAMDISK_MAX_FILES) with true by lia.
    rewrite Hh1. simpl. rewrite Hf1, Hd1.
    replace (f =? NULL) with false by (unfold NULL in *; lia). simpl.
    unfold file_at. rewrite Hn1. simpl. by rewrite Hdn.
Qed.

End OpenWrite.

Section OpenWriteWitness.
#[local] Existing Instance kos_default_opts.

Ltac closed_file_facts s f n :=
  assert (Hflags : attach_flags_plain) by (vm_compute; reflexivity);
  assert (Hreach : reachable s)
    by (apply (after_reachable _ s); vm_compute; reflexivity);
  assert (Hn : files s !! f = Some n) by (vm_compute; reflexivity);
  assert (Hty : f_type n = STAT_TYPE_FILE) by (vm_compute; reflexivity);
  assert (Hus : f_usage n = 0) by (vm_compute; reflexivity);
  assert (Hdata : f_data n = NULL ∨ is_Some (mem s !! f_data n))
    by (right; exists (block_of s (f_data n)); vm_compute; reflexivity);
  assert (Hslot : ∃ fd, free_slot s fd)
    by (exists 1; split; [vm_compute; split; congruence|];
        exists (slot_of s 1); split; vm_compute; reflexivity).

(** The two-byte file [f] is opened with [O_TRUNC]. *)
Lemma open_trunc_empties_file_witness :
  let s := after closed_file_calls in
  ∃ fd s',
    ramdisk_open all_ok "f" (Z.lor O_WRONLY O_TRUNC) s = Ok (fd, s') ∧ fd ≠ NULL
    ∧ ramdisk_total fd s' = Ok (0, s')
    ∧ ramdisk_tell fd s' = Ok (0, s')
    ∧ ∀ bytes, 0 ≤ bytes < 2^32 →
        ∃ s'', ramdisk_read fd bytes s' = Ok (0, [], s'').
Proof.
  intros s. pose (f := 3). pose (n := node_of s f).
  closed_file_facts s f n.
  assert (H1 : Z.land (Z.lor O_WRONLY O_TRUNC) O_DIR = 0) by (vm_compute; reflexivity).
  assert (H2 : writable_mode (Z.lor O_WRONLY O_TRUNC))
    by (vm_compute; split; [|right]; congruence).
  assert (H3 : Z.land (Z.lor O_WRONLY O_TRUNC) O_APPEND = 0) by (vm_compute; reflexivity).
  assert (H4 : Z.land (Z.lor O_WRONLY O_TRUNC) O_TRUNC ≠ 0) by (vm_compute; congruence).
  assert (H5 : open_target s "f" (Z.lor O_WRONLY O_TRUNC) f)
    by (vm_compute; split; congruence).
  exact (open_trunc_empties_file s all_ok "f" _ f n Hflags Hreach H1 H2 H3 H4 eq_refl
           H5 Hn Hty Hus Hdata Hslot).
Defined.

(** The same open when the allocation of the new block fails: a write
    of one byte faults. *)
Lemma open_trunc_unchecked_malloc_witness :
  let s := after closed_file_calls in
  ∃ fd s',
    ramdisk_open trunc_fails "f" (Z.lor O_WRONLY O_TRUNC) s = Ok (fd, s') ∧ fd ≠ NULL
    ∧ ramdisk_write true fd ["x"%byte] 1 s' = Err Undefined.
Proof.
  intros s. pose (f := 3). pose (n := node_of s f).
  closed_file_facts s f n.
  assert (H1 : Z.land (Z.lor O_WRONLY O_TRUNC) O_DIR = 0) by (vm_compute; reflexivity).
  assert (H2 : writable_mode (Z.lor O_WRONLY O_TRUNC))
    by (vm_compute; split; [|right]; congruence).
  assert (H3 : Z.land (Z.lor O_WRONLY O_TRUNC) O_APPEND = 0) by (vm_compute; reflexivity).
  assert (H4 : Z.land (Z.lor O_WRONLY O_TRUNC) O_TRUNC ≠ 0) by (vm_compute; congruence).
  assert (H5 : open_target s "f" (Z.lor O_WRONLY O_TRUNC) f)
    by (vm_compute; split; congruence).
  assert (H6 : mem s !! NULL = None) by (vm_compute; reflexivity).
  destruct (open_trunc_unchecked_malloc s trunc_fails "f" _ f n Hflags Hreach
              H1 H2 H3 H4 eq_refl H5 Hn Hty Hus Hdata Hslot H6)
    as (fd & n1 & s' & Hopen & Hfd & _ & _ & _ & Hwrite).
  exists fd, s'. split; [exact Hopen|]. split; [exact Hfd|].
  assert (H7 : Z.of_nat (length ["x"%byte]) ≤ 1024) by (vm_compute; congruence).
  exact (Hwrite ["x"%byte] true H7).
Defined.

(** The two-byte file [f] is opened with [O_APPEND]: the cursor is at 2. *)
Lemma open_append_starts_at_end_witness :
  let s := after closed_file_calls in
  ∃ fd s',
    ramdisk_open all_ok "f" (Z.lor O_WRONLY O_APPEND) s = Ok (fd, s') ∧ fd ≠ NULL
    ∧ ramdisk_tell fd s' = Ok (2, s').
Proof.
  intros s. pose (f := 3). pose (n := node_of s f).
  closed_file_facts s f n.
  assert (H1 : Z.land (Z.lor O_WRONLY O_APPEND) O_DIR = 0) by (vm_compute; reflexivity).
  assert (H2 : writable_mode (Z.lor O_WRONLY O_APPEND))
    by (vm_compute; split; [|right]; congruence).
  assert (H3 : Z.land (Z.lor O_WRONLY O_APPEND) O_APPEND ≠ 0) by (vm_compute; congruence).
  assert (H5 : open_target s "f" (Z.lor O_WRONLY O_APPEND) f)
    by (vm_compute; split; congruence).
  assert (H6 : 0 ≤ f_size n < 2^31) by (vm_compute; split; congruence).
  destruct (open_append_starts_at_end s all_ok "f" _ f n Hflags Hreach
              H1 H2 H3 H5 Hn Hty Hus Hdata Hslot H6)
    as (fd & s' & Hopen & Hfd & Htell & _).
  exists fd, s'. split; [exact Hopen|]. split; [exact Hfd|]. exact Htell.
Defined.

End OpenWriteWitness.

(** ** Handles that are not open, and handles opened read-only *)

Section BadHandles.
Context {opts : kos_opts}.

Lemma handles_on_le a (H : list fh_t) : (handles_on a H ≤ length H)%nat.
Proof. unfold handles_on. apply length_filter. Qed.

(** A handle beyond the table, or whose slot is free, is refused. *)
Lemma free_slot_rejected s fd :
  FS_RAMDISK_MAX_FILES ≤ fd ∨ (∃ h, fh_at s fd = Ok h ∧ fh_file h = NULL) →
  handle_rejected fd s.
Proof.
  intros [Hbig | (h & Hh & Hf)]; unfold handle_rejected.
  - unfold ramdisk_read, ramdisk_write, ramdisk_seek, ramdisk_tell, ramdisk_total,
      ramdisk_mmap, ramdisk_readdir, ramdisk_rewinddir, ramdisk_fcntl, ramdisk_fstat,
      ramdisk_close.
    replace (fd <? FS_RAMDISK_MAX_FILES) with false by lia.
    replace (FS_RAMDISK_MAX_FILES <=? fd) with true by lia.
    split_and!; done.
  - pose proof Hh as [Hfd _]%fh_at_Ok.
    unfold ramdisk_read, ramdisk_write, ramdisk_seek, ramdisk_tell, ramdisk_total,
      ramdisk_mmap, ramdisk_readdir, ramdisk_rewinddir, ramdisk_fcntl, ramdisk_fstat,
      ramdisk_close.
    replace (fd <? FS_RAMDISK_MAX_FILES) with true by lia.
    replace (FS_RAMDISK_MAX_FILES <=? fd) with false by lia.
    rewrite Hh. simpl. rewrite Hf. simpl. split_and!; done.
Qed.

(** Once [ramdisk_close] has returned, the handle is dead: whatever [fd]
    was (a handle in use, a free slot or a number beyond the table), the
    call returns 0, and afterwards every operation refuses [fd] with its
    failure value and changes nothing but [errno]; a second
    [ramdisk_close] returns 0 again and does not lower the usage count a
    second time. *)
Theorem closed_handle_is_rejected s fd :
  attach_flags_plain → reachable s → FS_RAMDISK_MAX_FILES < 2^31 → 0 ≤ fd →
  ∃ s1, ramdisk_close fd s = Ok (0, s1) ∧ handle_rejected fd s1.
Proof.
  intros Hflags Hreach Hmax Hfd.
  destruct (reachable_wf s Hflags Hreach) as (_ & (Hlen & Hnodes & Hslots) & _).
  destruct (Z.lt_ge_cases fd FS_RAMDISK_MAX_FILES) as [Hin | Hout].
  - assert (Hl : is_Some (fh s !! Z.to_nat fd)) by (apply lookup_lt_is_Some; lia).
    destruct Hl as [h Hl].
    assert (Hh : fh_at s fd = Ok h) by (by apply fh_at_Ok).
    destruct (Z.eq_dec (fh_file h) NULL) as [Hf | Hf].
    + assert (Hrej : handle_rejected fd s) by (apply free_slot_rejected; eauto).
      exists s. split; [apply Hrej | done].
    + destruct (Hslots _ _ Hl Hf) as (n & Hn & _).
      destruct (Hnodes _ _ Hn) as (Hu & _).
      pose proof (handles_on_slot (fh_file h) (fh s) _ h Hl eq_refl) as Hpos.
      pose proof (handles_on_le (fh_file h) (fh s)) as Hle.
      eexists. split.
      * apply (close_shared_forward s fd h n); [done | done | done | lia].
      * apply free_slot_rejected. right. exists (set_fh_file NULL h). split; [|done].
        eapply fh_at_inserted; [exact Hh | done].
  - assert (Hrej : handle_rejected fd s) by (apply free_slot_rejected; by left).
    exists s. split; [apply Hrej | done].
Qed.

(** A handle opened read-only cannot write: in every state the
    operations lead to, [ramdisk_write] on a slot in use whose open
    flags have the access mode [O_RDONLY] returns [-1] and changes
    nothing, whatever the buffer and the count. *)
Theorem read_only_handle_cannot_write s fd h buf (np_ok : bool) bytes :
  attach_flags_plain → reachable s →
  fh_at s fd = Ok h → fh_file h ≠ NULL →
  Z.land (fh_omode h) O_MODE_MASK = O_RDONLY →
  ramdisk_write np_ok fd buf bytes s = Ok (-1, s).
Proof.
  intros Hflags Hreach Hh Hf Hmode.
  destruct (reachable_wf s Hflags Hreach) as (_ & (_ & _ & Hslots) & _).
  pose proof Hh as [Hfd Hl]%fh_at_Ok.
  destruct (Hslots _ _ Hl Hf) as (n & Hn & Ho).
  rewrite Hmode in Ho. simpl in Ho.
  unfold ramdisk_write.
  replace (fd <? FS_RAMDISK_MAX_FILES) with true by lia.
  rewrite Hh. simpl.
  destruct (negb (fh_file h =? NULL) && (fh_dir h =? 0)); [|done].
  unfold file_at. rewrite Hn. simpl.
  rewrite bool_decide_eq_false_2; [done|]. rewrite Ho. done.
Qed.

End BadHandles.

Section BadHandlesWitness.
#[local] Existing Instance kos_default_opts.

(** The reader of [hello.txt] closes handle 1: afterwards the handle is
    refused. *)
Lemma closed_handle_is_rejected_witness :
  let s := after hello_calls in
  ∃ s1, ramdisk_close 1 s = Ok (0, s1) ∧ handle_rejected 1 s1.
Proof.
  intros s.
  assert (Hflags : attach_flags_plain) by (vm_compute; reflexivity).
  assert (Hreach : reachable s)
    by (apply (after_reachable _ s); vm_compute; reflexivity).
  assert (Hmax : FS_RAMDISK_MAX_FILES < 2^31) by (vm_compute; reflexivity).
  assert (Hfd : 0 ≤ 1) by lia.
  exact (closed_handle_is_rejected s 1 Hflags Hreach Hmax Hfd).
Defined.

(** The reader of [hello.txt] tries to write one byte. *)
Lemma read_only_handle_cannot_write_witness :
  let s := after hello_calls in
  ramdisk_write true 1 ["x"%byte] 1 s = Ok (-1, s).
Proof.
  intros s. pose (h := slot_of s 1).
  assert (Hflags : attach_flags_plain) by (vm_compute; reflexivity).
  assert (Hreach : reachable s)
    by (apply (after_reachable _ s); vm_compute; reflexivity).
  assert (Hh : fh_at s 1 = Ok h) by (vm_compute; reflexivity).
  assert (Hf : fh_file h ≠ NULL) by (vm_compute; congruence).
  assert (Hmode : Z.land (fh_omode h) O_MODE_MASK = O_RDONLY) by (vm_compute; reflexivity).
  exact (read_only_handle_cannot_write s 1 h ["x"%byte] true 1 Hflags Hreach Hh Hf Hmode).
Defined.

End BadHandlesWitness.

(** ** Names that are not in the directory *)

Section Missing.
Context {opts : kos_opts}.

(** A name that no file of the root directory has, letter case ignored,
    is reported missing and nothing is made for it: [ramdisk_stat]
    returns [-1] with [errno] set to [ENOENT] and does not touch the
    buffer, [ramdisk_unlink] returns [-1], [ramdisk_open] with the access
    mode [O_RDONLY] returns [NULL] (with or without [O_DIR]),
    [fs_ramdisk_detach] returns [-1] without storing a block or a size;
    the three last leave the state as it is, [errno] included. *)
Theorem missing_name_is_reported s fn :
  attach_flags_plain → reachable s →
  strchr fn "/" = None → fn ≠ EmptyString →
  (∀ a n, files s !! a = Some n → a ≠ root s → lower (f_name n) ≠ lower fn) →
  ramdisk_stat fn s = Ok (-1, None, set_errno ENOENT s)
  ∧ ramdisk_unlink fn s = Ok (-1, s)
  ∧ (∀ al mode, Z.land mode O_MODE_MASK = O_RDONLY →
       ramdisk_open al fn mode s = Ok (NULL, s))
  ∧ (∀ fake_ok, fs_ramdisk_detach fake_ok fn s = Ok (-1, None, s)).
Proof.
  intros Hflags Hreach Hno Hne Hnone.
  destruct (reachable_wf s Hflags Hreach) as (Ht & _). pose proof Ht as (Hr & _).
  destruct (tree_has_children s Ht) as (l & Hl).
  destruct (tree_children s l Ht Hl)
    as (rn & first & _ & _ & _ & _ & Hc & _ & Hroot & _).
  assert (Hin : find_in (files s) l fn (String.length fn) = NULL).
  { apply find_in_none. intros a n Ha Hn.
    destruct (name_match fn (String.length fn) (f_name n)) eqn:E; [|done].
    apply name_match_lower in E as [_ E]; [|done].
    rewrite strtake_length in E.
    destruct (Hnone a n Hn); [by intros -> | done]. }
  assert (Hfind : ramdisk_find_path s (rootdir s) fn 0 = Ok NULL)
    by (by rewrite (find_path_plain s l fn Ht Hl Hno Hne), Hin).
  assert (Hopen : ∀ al mode, Z.land mode O_MODE_MASK = O_RDONLY →
            ramdisk_open al fn mode s = Ok (NULL, s)).
  { intros al mode Hmm. unfold ramdisk_open. rewrite Hmm. simpl.
    rewrite andb_false_r.
    replace (root s =? NULL) with false by (unfold NULL in *; lia).
    destruct fn as [|c fn']; [done|].
    assert (c ≠ "/"%char) as Hc0.
    { intros ->. simpl in Hno. done. }
    assert (Hstrip : match String c fn' with String "/" fn'' => fn'' | _ => String c fn' end
                     = String c fn').
    { destruct c as [[] [] [] [] [] [] [] []]; try done. }
    rewrite Hstrip.
    assert (Hf : ramdisk_find_path s (rootdir s) (String c fn') (Z.land mode O_DIR)
                 = Ok NULL).
    { destruct (Z.eq_dec (Z.land mode O_DIR) 0) as [-> | Hd]; [done|].
      destruct (find_path_root s l (String c fn') (Z.land mode O_DIR) Ht Hl)
        as (f & -> & [-> | [_ ?]]); done. }
    rewrite Hf. done. }
  split_and!; [| |done|].
  - unfold ramdisk_stat.
    rewrite bool_decide_eq_false_2 by done.
    rewrite bool_decide_eq_false_2 by (intros ->; simpl in Hno; done).
    simpl. by rewrite Hfind.
  - unfold ramdisk_unlink. by rewrite Hfind.
  - intros fake_ok. unfold fs_ramdisk_detach.
    rewrite (Hopen all_ok O_RDONLY) by done. done.
Qed.

End Missing.

Section MissingWitness.
#[local] Existing Instance kos_default_opts.

(** With [hello.txt] alone in the directory, [nofile] is missing. *)
Lemma missing_name_is_reported_witness :
  let s := after hello_calls in
  ramdisk_stat "nofile" s = Ok (-1, None, set_errno ENOENT s)
  ∧ ramdisk_unlink "nofile" s = Ok (-1, s)
  ∧ (∀ al mode, Z.land mode O_MODE_MASK = O_RDONLY →
       ramdisk_open al "nofile" mode s = Ok (NULL, s))
  ∧ (∀ fake_ok, fs_ramdisk_detach fake_ok "nofile" s = Ok (-1, None, s)).
Proof.
  intros s.
  assert (Hflags : attach_flags_plain) by (vm_compute; reflexivity).
  assert (Hreach : reachable s)
    by (apply (after_reachable _ s); vm_compute; reflexivity).
  assert (H1 : strchr "nofile" "/" = None) by (vm_compute; reflexivity).
  assert (H2 : "nofile"%string ≠ EmptyString) by discriminate.
  assert (H3 : ∀ a n, files s !! a = Some n → a ≠ root s →
                 lower (f_name n) ≠ lower "nofile").
  { intros a n Hn Ha.
    assert (Hdom : a ∈ dom (files s)) by (apply elem_of_dom; eauto).
    assert (Hd : dom (files s) = {[2; 3]}) by (vm_compute; reflexivity).
    rewrite Hd in Hdom. apply elem_of_union in Hdom as [Hdom | Hdom];
      apply elem_of_singleton in Hdom; subst a.
    - exfalso. apply Ha. vm_compute. reflexivity.
    - assert (Hn3 : files s !! 3 = Some (node_of s 3)) by (vm_compute; reflexivity).
      assert (n = node_of s 3) as -> by congruence.
      vm_compute. congruence. }
  exact (missing_name_is_reported s "nofile" Hflags Hreach H1 H2 H3).
Defined.

End MissingWitness.
